(** * flight_option: the verified motion controller

    A shallow embedding of [drone_flight_options.py] (class
    [DroneCalibrated]) and [drone_flight_patt1.py] (the pattern
    generators), and the properties of them that the specification states.

    Number model.  Python's [float] values are rationals ([Q]) and its
    [int] values integers ([Z]).  Where what the program does depends on
    the rounding of binary64 arithmetic (the number of segments and the
    positions [send_abs_pos_w_output] computes, the end points
    [mov_xyz_abs] plans its legs from, the product [0.75 * z0] of the
    vertical sweeps) every operation rounds its exact result to the
    nearest binary64 value, a tie going to the even significand
    ([Py.binary64]), [math.sqrt] and [** 2] as the four operations; the
    exponent is not bounded, so overflow, underflow, infinities and NaN
    are not part of the model.  Everywhere else the arithmetic is exact.
    Equalities between computed numbers are stated with [==].

    Effects.  A method of the class is a function in the monad [M]: it
    transforms a [World] (the object [self], the answers the vehicle and
    the clocks will give, how many answers were consumed, and the trace of
    everything sent to the vehicle, the console and the data file) and
    ends with a value, a Python exception, or the exhaustion of the
    iteration budget given to its [while] loops. *)

From Stdlib Require Import QArith Qabs Qround Qminmax Qpower ZArith String List Bool Lia Lqa.
Import ListNotations.
Open Scope Q_scope.

(* ===================================================================== *)
(** * The Python runtime the program uses *)
(* ===================================================================== *)

Module Py.

(** The exceptions the modelled code can raise. *)
Inductive PyExn : Set :=
| ZeroDivisionError   (* float or int division by zero *)
| IndexError          (* list index out of range *)
| ValueError.         (* math.sqrt or time.sleep of a negative number *)

(** [datetime.datetime.now()]: an opaque reading of the wall clock. *)
Definition DateTime := Q.

(** The two ways the program formats a [now] into [date_time_str]. *)
Inductive DateStyle : Set :=
| Slashed    (* mm/dd/yyyy hh:mm:ss.uuuuuu *)
| Compact.   (* mmddyyyy_hhmmss *)

(** One cell of a row given to [csv.writer.writerow]. *)
Inductive Cell : Type :=
| CStr (s : string)
| CNum (q : Q)
| CDate (style : DateStyle) (now : DateTime).

(** Calls on [self.drone] that act on the vehicle (codrone_edu's API). *)
Inductive Command : Type :=
| CPair
| CSetTrim (roll pitch : Q)
| CTakeoff
| CLand
| CHover (seconds : Q)
| CSetThrottle (power : Q)
| CSetRoll (power : Q)
| CSetPitch (power : Q)
| CMove (duration : Q)
| CSendAbsolutePosition (x y z velocity heading rotational_velocity : Q).

(** Everything the program does to the outside, in order. *)
Inductive Event : Type :=
| Drone (c : Command)
| Sleep (seconds : Q)                          (* time.sleep *)
| Print (template : string) (args : list Q)    (* print(f'...'): text, numbers *)
| WriteRow (row : list Cell).                  (* file_writer.writerow *)

(** The questions the program asks the outside. *)
Inductive Channel : Set :=
| ChPosition      (* drone.get_position_data() *)
| ChBattery       (* drone.get_battery() *)
| ChTemperature   (* drone.get_temperature("C") *)
| ChTrim          (* drone.get_trim() *)
| ChTime          (* time.time() *)
| ChNow           (* datetime.datetime.now() *)
| ChRandom.       (* random.uniform(a, b) *)

Definition Channel_eqb (a b : Channel) : bool :=
  match a, b with
  | ChPosition, ChPosition | ChBattery, ChBattery
  | ChTemperature, ChTemperature | ChTrim, ChTrim
  | ChTime, ChTime | ChNow, ChNow | ChRandom, ChRandom => true
  | _, _ => false
  end.

(** The answers the outside gives: the [k]-th call on a channel (counting
    from 0) gets the [k]-th answer of its feed. *)
Record Feeds : Type := mkFeeds {
  position_feed : nat -> Q * Q * Q * Q;     (* [t, x, y, z] *)
  battery_feed : nat -> Q;
  temperature_feed : nat -> Q;
  trim_feed : nat -> Q * Q;
  time_feed : nat -> Q;
  now_feed : nat -> DateTime;
  random_feed : nat -> Q -> Q -> Q          (* the sample for uniform(a, b) *)
}.

(** The fields [DroneCalibrated.__init__] creates, [self.drone] and
    [self.file_writer] apart: the vehicle is the [Drone] events and the
    feeds, the writer the [WriteRow] events (both main programs give a
    writer whenever they set [write_datafile]). *)
Record DroneCalibrated : Type := mkDroneCalibrated {
  paired : bool;
  takeoff : bool;
  calibrated : bool;
  pitch_f : Q;
  pitch_b : Q;
  roll_r : Q;
  roll_l : Q;
  throttle_u : Q;
  throttle_d : Q;
  yaw_cw : Q;
  yaw_ccw : Q;
  write_datafile : bool;
  dwell : Q
}.

Record World : Type := mkWorld {
  self : DroneCalibrated;
  feeds : Feeds;
  reads : Channel -> nat;      (* answers consumed so far, per channel *)
  trace : list Event           (* oldest event first *)
}.

Inductive Result (A : Type) : Type :=
| Ok (a : A)
| Raise (e : PyExn)
| OutOfFuel.
Arguments Ok {A} a.
Arguments Raise {A} e.
Arguments OutOfFuel {A}.

(** A computation: the world it leaves is the one at the point where it
    stopped, also when it stopped on an exception. *)
Definition M (A : Type) : Type := World -> Result A * World.

Definition ret {A} (a : A) : M A := fun w => (Ok a, w).

Definition bind {A B} (m : M A) (k : A -> M B) : M B :=
  fun w =>
    match m w with
    | (Ok a, w') => k a w'
    | (Raise e, w') => (Raise e, w')
    | (OutOfFuel, w') => (OutOfFuel, w')
    end.

Definition raise {A} (e : PyExn) : M A := fun w => (Raise e, w).
Definition out_of_fuel {A} : M A := fun w => (OutOfFuel, w).

Declare Scope py_scope.
Delimit Scope py_scope with py.
Notation "x <- c ;; k" := (bind c (fun x => k))
  (at level 61, c at next level, right associativity) : py_scope.
Notation "' p <- c ;; k" := (bind c (fun x => let 'p := x in k))
  (at level 61, p pattern, c at next level, right associativity) : py_scope.
Notation "c ;; k" := (bind c (fun _ => k))
  (at level 61, right associativity) : py_scope.
Open Scope py_scope.

Definition when (b : bool) (m : M unit) : M unit := if b then m else ret tt.

(** [for x in l: body(x)]. *)
Fixpoint for_each {A} (l : list A) (body : A -> M unit) : M unit :=
  match l with
  | [] => ret tt
  | x :: l' => body x ;; for_each l' body
  end.

(** [for x in l: s = body(x, s)], for a loop that updates locals [s]. *)
Fixpoint for_fold {A S} (l : list A) (body : A -> S -> M S) (s : S) : M S :=
  match l with
  | [] => ret s
  | x :: l' => s' <- body x s ;; for_fold l' body s'
  end.

(** [range(0, n)]: empty when [n <= 0]. *)
Definition range (n : Z) : list Z := map Z.of_nat (seq 0 (Z.to_nat n)).

(** [while cond(s): s = body(s)], cut after [fuel] iterations. *)
Fixpoint while {S} (fuel : nat) (cond : S -> bool) (body : S -> M S) (s : S) : M S :=
  if cond s then
    match fuel with
    | O => out_of_fuel
    | Datatypes.S fuel' => s' <- body s ;; while fuel' cond body s'
    end
  else ret s.

(** ** Primitive effects *)

Definition emit (e : Event) : M unit :=
  fun w => (Ok tt, mkWorld (self w) (feeds w) (reads w) (trace w ++ [e])).

Definition bump (ch : Channel) (r : Channel -> nat) : Channel -> nat :=
  fun c => if Channel_eqb c ch then S (r c) else r c.

(** Ask channel [ch]: the next answer of its feed, and the count goes up. *)
Definition ask {A} (ch : Channel) (feed : Feeds -> nat -> A) : M A :=
  fun w => (Ok (feed (feeds w) (reads w ch)),
            mkWorld (self w) (feeds w) (bump ch (reads w)) (trace w)).

Definition get_self : M DroneCalibrated := fun w => (Ok (self w), w).

Definition modify_self (f : DroneCalibrated -> DroneCalibrated) : M unit :=
  fun w => (Ok tt, mkWorld (f (self w)) (feeds w) (reads w) (trace w)).

(** [a / b] on numbers. *)
Definition div (a b : Q) : M Q :=
  if Qeq_bool b 0 then raise ZeroDivisionError else ret (a / b).

(** [l[i]]. *)
Definition index {A} (l : list A) (i : nat) : M A :=
  match nth_error l i with
  | Some x => ret x
  | None => raise IndexError
  end.

(** [sum(l)]: starts from 0 and adds from the left. *)
Definition sum (l : list Q) : Q := fold_left Qplus l 0.

(** [math.fabs]. *)
Definition fabs (x : Q) : Q := Qabs x.

(** [round(x)]: the nearest integer, a tie going to the even one. *)
Definition round (x : Q) : Z :=
  let f := Qfloor x in
  let r := x - inject_Z f in
  match Qcompare r (1 # 2) with
  | Lt => f
  | Gt => (f + 1)%Z
  | Eq => if Z.even f then f else (f + 1)%Z
  end.

(** ** binary64 arithmetic *)

(** The exponent of [q]: the [k] with [2^k <= |q| < 2^(k+1)], for a [q]
    that is not 0.  The difference of the bit lengths of numerator and
    denominator is [k] or [k + 1]. *)
Definition ilog2 (q : Q) : Z :=
  let k := (Z.log2 (Z.abs (Qnum q)) - Z.log2 (Zpos (Qden q)))%Z in
  if Qle_bool (2 ^ k) (Qabs q) then k else (k - 1)%Z.

(** The binary64 value nearest to [q]: [q] is scaled to a significand
    between 2^52 and 2^53, which is rounded to the nearest integer, a tie
    going to the even one. *)
Definition binary64 (q : Q) : Q :=
  if Qeq_bool q 0 then 0
  else
    let q := Qred q in
    let ulp := 2 ^ (ilog2 q - 52) in
    Qred (inject_Z (round (q / ulp)) * ulp).

(** [a + b], [a - b], [a * b] and [a ** 2] on floats. *)
Definition fadd (a b : Q) : Q := binary64 (a + b).
Definition fsub (a b : Q) : Q := binary64 (a - b).
Definition fmul (a b : Q) : Q := binary64 (a * b).
Definition fsquare (a : Q) : Q := binary64 (a ^ 2).

(** [a / b] on floats. *)
Definition fdiv (a b : Q) : M Q :=
  if Qeq_bool b 0 then raise ZeroDivisionError else ret (binary64 (a / b)).

(** [math.sqrt], correctly rounded: with [ulp] the spacing of the binary64
    values around the root, [m] is the root in units of [ulp] rounded
    down, and the result is [m] or [m + 1], whichever is nearer (the root
    is above [m + 1/2] when [4 * s] is above [(2 * m + 1)^2]). *)
Definition sqrt_value (x : Q) : Q :=
  if Qle_bool x 0 then 0
  else
    let x := Qred x in
    let ulp := 2 ^ (ilog2 x / 2 - 52) in
    let s := x / (ulp * ulp) in
    let m := Z.sqrt (Qfloor s) in
    let up :=
      match Qcompare (4 * s) (inject_Z ((2 * m + 1) * (2 * m + 1))) with
      | Lt => false
      | Gt => true
      | Eq => Z.odd m
      end in
    Qred (inject_Z (if up then m + 1 else m) * ulp).
Definition sqrt (x : Q) : M Q :=
  if Qlt_le_dec x 0 then raise ValueError else ret (sqrt_value x).

Definition print (template : string) (args : list Q) : M unit :=
  emit (Print template args).

Definition time_sleep (seconds : Q) : M unit :=
  if Qlt_le_dec seconds 0 then raise ValueError else emit (Sleep seconds).

Definition time_time : M Q := ask ChTime time_feed.
Definition datetime_now : M DateTime := ask ChNow now_feed.
Definition random_uniform (a b : Q) : M Q :=
  f <- ask ChRandom random_feed ;; ret (f a b).

Definition writerow (row : list Cell) : M unit := emit (WriteRow row).

End Py.

(* ===================================================================== *)
(** * drone_flight_options.py: class DroneCalibrated *)
(* ===================================================================== *)

Module Options.
Import Py.

(** ** Assignments to the fields of [self] *)

Definition with_paired (b : bool) (d : DroneCalibrated) : DroneCalibrated :=
  mkDroneCalibrated b (takeoff d) (calibrated d) (pitch_f d) (pitch_b d) (roll_r d)
    (roll_l d) (throttle_u d) (throttle_d d) (yaw_cw d) (yaw_ccw d)
    (write_datafile d) (dwell d).
Definition with_takeoff (b : bool) (d : DroneCalibrated) : DroneCalibrated :=
  mkDroneCalibrated (paired d) b (calibrated d) (pitch_f d) (pitch_b d) (roll_r d)
    (roll_l d) (throttle_u d) (throttle_d d) (yaw_cw d) (yaw_ccw d)
    (write_datafile d) (dwell d).
Definition with_calibrated (b : bool) (d : DroneCalibrated) : DroneCalibrated :=
  mkDroneCalibrated (paired d) (takeoff d) b (pitch_f d) (pitch_b d) (roll_r d)
    (roll_l d) (throttle_u d) (throttle_d d) (yaw_cw d) (yaw_ccw d)
    (write_datafile d) (dwell d).
Definition with_pitch_f (v : Q) (d : DroneCalibrated) : DroneCalibrated :=
  mkDroneCalibrated (paired d) (takeoff d) (calibrated d) v (pitch_b d) (roll_r d)
    (roll_l d) (throttle_u d) (throttle_d d) (yaw_cw d) (yaw_ccw d)
    (write_datafile d) (dwell d).
Definition with_pitch_b (v : Q) (d : DroneCalibrated) : DroneCalibrated :=
  mkDroneCalibrated (paired d) (takeoff d) (calibrated d) (pitch_f d) v (roll_r d)
    (roll_l d) (throttle_u d) (throttle_d d) (yaw_cw d) (yaw_ccw d)
    (write_datafile d) (dwell d).
Definition with_roll_r (v : Q) (d : DroneCalibrated) : DroneCalibrated :=
  mkDroneCalibrated (paired d) (takeoff d) (calibrated d) (pitch_f d) (pitch_b d) v
    (roll_l d) (throttle_u d) (throttle_d d) (yaw_cw d) (yaw_ccw d)
    (write_datafile d) (dwell d).
Definition with_roll_l (v : Q) (d : DroneCalibrated) : DroneCalibrated :=
  mkDroneCalibrated (paired d) (takeoff d) (calibrated d) (pitch_f d) (pitch_b d)
    (roll_r d) v (throttle_u d) (throttle_d d) (yaw_cw d) (yaw_ccw d)
    (write_datafile d) (dwell d).
Definition with_throttle_u (v : Q) (d : DroneCalibrated) : DroneCalibrated :=
  mkDroneCalibrated (paired d) (takeoff d) (calibrated d) (pitch_f d) (pitch_b d)
    (roll_r d) (roll_l d) v (throttle_d d) (yaw_cw d) (yaw_ccw d)
    (write_datafile d) (dwell d).
Definition with_throttle_d (v : Q) (d : DroneCalibrated) : DroneCalibrated :=
  mkDroneCalibrated (paired d) (takeoff d) (calibrated d) (pitch_f d) (pitch_b d)
    (roll_r d) (roll_l d) (throttle_u d) v (yaw_cw d) (yaw_ccw d)
    (write_datafile d) (dwell d).
Definition with_yaw_cw (v : Q) (d : DroneCalibrated) : DroneCalibrated :=
  mkDroneCalibrated (paired d) (takeoff d) (calibrated d) (pitch_f d) (pitch_b d)
    (roll_r d) (roll_l d) (throttle_u d) (throttle_d d) v (yaw_ccw d)
    (write_datafile d) (dwell d).
Definition with_yaw_ccw (v : Q) (d : DroneCalibrated) : DroneCalibrated :=
  mkDroneCalibrated (paired d) (takeoff d) (calibrated d) (pitch_f d) (pitch_b d)
    (roll_r d) (roll_l d) (throttle_u d) (throttle_d d) (yaw_cw d) v
    (write_datafile d) (dwell d).

(** ** The vehicle: calls on [self.drone] *)

Definition drone (c : Command) : M unit := emit (Drone c).
Definition get_position_data : M (Q * Q * Q * Q) := ask ChPosition position_feed.
Definition get_battery : M Q := ask ChBattery battery_feed.
Definition get_temperature : M Q := ask ChTemperature temperature_feed.
Definition get_trim : M (Q * Q) := ask ChTrim trim_feed.
Definition send_absolute_position (x y z velocity heading rot : Q) : M unit :=
  drone (CSendAbsolutePosition x y z velocity heading rot).

(** [date_time_str] of the rows: a [now] read and formatted. *)
Definition date_time_str (style : DateStyle) : M Cell :=
  now <- datetime_now ;; ret (CDate style now).

(** ** The class *)

(** [__init__(self, drone, write_datafile=False, file_writer=None)]. *)
Definition init (write_datafile : bool) : DroneCalibrated :=
  mkDroneCalibrated false false false 1 1 1 1 1 1 1 1 write_datafile 5.

Definition get_drone_cal : M (list Q) :=
  me <- get_self ;;
  ret [pitch_f me; pitch_b me; roll_r me; roll_l me;
       throttle_u me; throttle_d me; yaw_cw me; yaw_ccw me].

Definition set_drone_cal (cal_param_list : list Q) : M unit :=
  v <- index cal_param_list 0 ;; modify_self (with_pitch_f v) ;;
  v <- index cal_param_list 1 ;; modify_self (with_pitch_b v) ;;
  v <- index cal_param_list 2 ;; modify_self (with_roll_r v) ;;
  v <- index cal_param_list 3 ;; modify_self (with_roll_l v) ;;
  v <- index cal_param_list 4 ;; modify_self (with_throttle_u v) ;;
  v <- index cal_param_list 5 ;; modify_self (with_throttle_d v) ;;
  v <- index cal_param_list 6 ;; modify_self (with_yaw_cw v) ;;
  v <- index cal_param_list 7 ;; modify_self (with_yaw_ccw v) ;;
  modify_self (with_calibrated true).

Definition drone_pair : M unit :=
  print "Pairing drone ..." [] ;;
  drone CPair ;;
  modify_self (with_paired true) ;;
  batt <- get_battery ;;
  drone_temp <- get_temperature ;;
  '(t, x, y, z) <- get_position_data ;;
  print "Temperature = {:.2f}\tBattery = {:.2f}" [drone_temp; batt] ;;
  me <- get_self ;;
  when (write_datafile me)
    (stamp <- date_time_str Slashed ;;
     writerow [CStr "Pairing"; stamp; CStr "temp"; CNum drone_temp; CStr "battery";
               CNum batt; CStr "position"; CNum t; CNum x; CNum y; CNum z]).

(** The row a polling loop writes after each command. *)
Definition write_poll_row (pattern : string) (t x y z : Q) (note : list Cell) : M unit :=
  me <- get_self ;;
  when (write_datafile me)
    (stamp <- date_time_str Slashed ;;
     writerow ([CStr pattern; stamp; CNum t; CNum x; CNum y; CNum z] ++ note)).

(** The locals the loop of [send_abs_pos_verif] carries:
    [time_expired], [movement_complete], [iteration]. *)
Definition VerifVars : Type := bool * bool * Z.

Definition verif_cond (v : VerifVars) : bool :=
  let '(time_expired, movement_complete, _) := v in
  negb time_expired || negb movement_complete.

(** [movement_complete] of one telemetry reading. *)
Definition movement_complete_test (x0 y0 z0 x1 y1 z1 complete x y z : Q) : bool :=
  Qle_bool (complete * fabs (x1 - x0)) (fabs (x - x0))
  && Qle_bool (complete * fabs (y1 - y0)) (fabs (y - y0))
  && Qle_bool (complete * fabs (z1 - z0)) (fabs (z - z0)).

Definition verif_body (x0 y0 z0 x1 y1 z1 vel min_delay complete : Q) (pattern : string)
    (write_note : bool) (start_time : Q) (v : VerifVars) : M VerifVars :=
  let '(_, _, iteration) := v in
  let iteration := (iteration + 1)%Z in
  send_absolute_position x1 y1 z1 vel 0 0 ;;
  '(t, x, y, z) <- get_position_data ;;
  write_poll_row pattern t x y z
    (if write_note
     then [CStr "Notes -- send_abs_pos"; CNum (inject_Z iteration);
           CNum x0; CNum y0; CNum z0; CNum x1; CNum y1; CNum z1]
     else []) ;;
  now <- time_time ;;
  let time_expired := Qle_bool min_delay (now - start_time) in
  let movement_complete := movement_complete_test x0 y0 z0 x1 y1 z1 complete x y z in
  ret (time_expired, movement_complete, iteration).

(** [send_abs_pos_verif(self, x0, y0, z0, x1, y1, z1, vel, min_delay=0.0,
    complete=0.75, pattern='Movement', write_note=False)]. *)
Definition send_abs_pos_verif (fuel : nat) (x0 y0 z0 x1 y1 z1 vel min_delay complete : Q)
    (pattern : string) (write_note : bool) : M unit :=
  start_time <- time_time ;;
  while fuel verif_cond
    (verif_body x0 y0 z0 x1 y1 z1 vel min_delay complete pattern write_note start_time)
    (false, false, 0%Z) ;;
  ret tt.

Definition default_min_delay : Q := 0.
Definition default_complete : Q := 0.75.

(** The locals of the loop of [hover_w_del]: [time_expired], [iteration]. *)
Definition HoverVars : Type := bool * Z.

Definition hover_body (x0 y0 z0 t_hover t_sleep : Q) (pattern : string) (write_note : bool)
    (start_time : Q) (v : HoverVars) : M HoverVars :=
  let '(_, iteration) := v in
  let iteration := (iteration + 1)%Z in
  send_absolute_position x0 y0 z0 0.1 0 0 ;;
  '(t, x, y, z) <- get_position_data ;;
  write_poll_row pattern t x y z
    (if write_note
     then [CStr "Notes -- hover"; CNum (inject_Z iteration); CNum x0; CNum y0; CNum z0]
     else []) ;;
  now <- time_time ;;
  ret (Qle_bool (t_hover + t_sleep) (now - start_time), iteration).

(** [hover_w_del(self, t_hover, t_sleep, pattern='Hover', write_note=False)]. *)
Definition hover_w_del (fuel : nat) (t_hover t_sleep : Q) (pattern : string)
    (write_note : bool) : M unit :=
  start_time <- time_time ;;
  '(t, x0, y0, z0) <- get_position_data ;;
  while fuel (fun v : HoverVars => negb (fst v))
    (hover_body x0 y0 z0 t_hover t_sleep pattern write_note start_time)
    (false, 0%Z) ;;
  ret tt.

(** [output_position(self, pattern='Movement')]. *)
Definition output_position (pattern : string) : M unit :=
  me <- get_self ;;
  when (write_datafile me)
    (stamp <- date_time_str Slashed ;;
     '(t, x, y, z) <- get_position_data ;;
     writerow [CStr pattern; stamp; CNum t; CNum x; CNum y; CNum z]).

(** [drone_takeoff(self, delta_z=0.0)]. *)
Definition drone_takeoff (fuel : nat) (delta_z : Q) : M unit :=
  me <- get_self ;;
  if negb (paired me) then print "Drone must be paired before takeoff" []
  else
    drone (CSetTrim 0 0) ;;
    '(roll, pitch) <- get_trim ;;
    print "Adjusted trim values (roll, pitch): " [roll; pitch] ;;
    time_sleep 1 ;;
    drone CTakeoff ;;
    modify_self (with_takeoff true) ;;
    '(t, x, y, z) <- get_position_data ;;
    time_sleep (dwell me) ;;
    print "Increasing height from {:.2f}m to {:.2f}m" [z; z + delta_z] ;;
    send_abs_pos_verif fuel x y z x y (z + delta_z) 0.2 0.5 default_complete "Takeoff" false ;;
    '(t, x, y, z) <- get_position_data ;;
    time_sleep (dwell me) ;;
    when (write_datafile me)
      (stamp <- date_time_str Slashed ;;
       batt <- get_battery ;;
       drone_temp <- get_temperature ;;
       writerow [CStr "Takeoff"; stamp; CStr "temp"; CNum drone_temp; CStr "battery";
                 CNum batt; CStr "position"; CNum t; CNum x; CNum y; CNum z]) ;;
    drone (CHover 3).

Definition drone_land (fuel : nat) : M unit :=
  hover_w_del fuel 2 1 "Hover" false ;;
  print "Drone Landing ..." [] ;;
  batt <- get_battery ;;
  drone_temp <- get_temperature ;;
  print "Temperature = {:.2f}\tBattery = {:.2f}" [drone_temp; batt] ;;
  '(t, x, y, z) <- get_position_data ;;
  for_each (range 2) (fun _ => drone CLand) ;;
  me <- get_self ;;
  when (write_datafile me)
    (stamp <- date_time_str Slashed ;;
     writerow [CStr "Landing"; stamp; CStr "temp"; CNum drone_temp; CStr "battery";
               CNum batt; CStr "position"; CNum t; CNum x; CNum y; CNum z]) ;;
  modify_self (with_takeoff false).

(** [send_abs_pos_w_output(self, x0, y0, z0, x1, y1, z1, velocity,
    pattern='Movement')]. *)
(** [delta_t = 0.05]: the literal is the binary64 value nearest to 1/20. *)
Definition delta_t : Q := binary64 0.05.

Definition send_abs_pos_w_output (x0 y0 z0 x1 y1 z1 velocity : Q) (pattern : string)
    : M unit :=
  r_total <- sqrt (fadd (fadd (fsquare (fsub x1 x0)) (fsquare (fsub y1 y0)))
                         (fsquare (fsub z1 z0))) ;;
  per_second <- fdiv r_total velocity ;;
  segments <- fdiv per_second delta_t ;;
  let num_segments := round segments in
  delta_x <- (if (num_segments =? 0)%Z then ret 0
              else fdiv (fsub x1 x0) (inject_Z num_segments)) ;;
  delta_y <- (if (num_segments =? 0)%Z then ret 0
              else fdiv (fsub y1 y0) (inject_Z num_segments)) ;;
  delta_z <- (if (num_segments =? 0)%Z then ret 0
              else fdiv (fsub z1 z0) (inject_Z num_segments)) ;;
  for_each (range num_segments) (fun i =>
    send_absolute_position (fadd x0 (fmul (inject_Z i) delta_x))
      (fadd y0 (fmul (inject_Z i) delta_y))
      (fadd z0 (fmul (inject_Z i) delta_z)) velocity 0 0 ;;
    me <- get_self ;;
    when (write_datafile me)
      (stamp <- date_time_str Slashed ;;
       '(t, x, y, z) <- get_position_data ;;
       writerow [CStr pattern; stamp; CNum t; CNum x; CNum y; CNum z])).

(** [mov_xyz_abs(self, movement_lim, velocity)]. *)
Definition mov_xyz_abs (movement_lim velocity : Q) : M unit :=
  '(t0, x0, y0, z0) <- get_position_data ;;
  let pattern := "XYZ_abs"%string in
  for_each (range 2) (fun _ =>
    let z1 := fadd z0 movement_lim in
    send_abs_pos_w_output x0 y0 z0 x0 y0 z1 velocity pattern ;;
    drone (CHover 1) ;;
    let z2 := fsub z0 movement_lim in
    send_abs_pos_w_output x0 y0 z1 x0 y0 z2 velocity pattern ;;
    drone (CHover 1) ;;
    send_abs_pos_w_output x0 y0 z2 x0 y0 z0 velocity pattern ;;
    let y1 := fadd y0 movement_lim in
    send_abs_pos_w_output x0 y0 z0 x0 y1 z0 velocity pattern ;;
    drone (CHover 1) ;;
    let y2 := fsub y0 movement_lim in
    send_abs_pos_w_output x0 y1 z0 x0 y2 z0 velocity pattern ;;
    drone (CHover 1) ;;
    send_abs_pos_w_output x0 y2 z0 x0 y0 z0 velocity pattern ;;
    let x1 := fadd x0 movement_lim in
    send_abs_pos_w_output x0 y0 z0 x1 y0 z0 velocity pattern ;;
    drone (CHover 1) ;;
    let x2 := fsub x0 movement_lim in
    send_abs_pos_w_output x1 y0 z0 x2 y0 z0 velocity pattern ;;
    drone (CHover 1) ;;
    send_abs_pos_w_output x2 y0 z0 x0 y0 z0 velocity pattern).

(** One leg of [move_xyz_simple]: command, sleep, log. *)
Definition simple_leg (note : string) (x y z dist velocity : Q) (pattern : string)
    : M unit :=
  print note [] ;;
  send_absolute_position x y z velocity 0 0 ;;
  me <- get_self ;;
  travel <- div dist velocity ;;
  time_sleep (dwell me + travel) ;;
  output_position pattern.

(** [move_xyz_simple(self, dist, velocity)]. *)
Definition move_xyz_simple (dist velocity : Q) : M unit :=
  let pattern := "XYZ_simple"%string in
  '(t0, x0, y0, z0) <- get_position_data ;;
  output_position pattern ;;
  for_each (range 2) (fun _ =>
    simple_leg "Moving forward" (x0 + dist) y0 z0 dist velocity pattern ;;
    simple_leg "Moving backward" (x0 - dist) y0 z0 dist velocity pattern ;;
    simple_leg "Returning to center" x0 y0 z0 dist velocity pattern ;;
    simple_leg "Moving left" x0 (y0 + dist) z0 dist velocity pattern ;;
    simple_leg "Moving right" x0 (y0 - dist) z0 dist velocity pattern ;;
    simple_leg "Returning to center" x0 y0 z0 dist velocity pattern ;;
    simple_leg "Moving up" x0 y0 (z0 + dist) dist velocity pattern ;;
    simple_leg "Moving down" x0 y0 (z0 - dist) dist velocity pattern ;;
    simple_leg "Returning to center" x0 y0 z0 dist velocity pattern).

(** One pass of the calibration loop of [move_cal]: the pitch trial (the
    roll and throttle trials are commented out in the source, so
    [roll_r], [roll_l], [throttle_u] and [throttle_d] stay empty). *)
Definition cal_trial (power_lev duration : Q) (pitch_b : list Q) : M (list Q) :=
  drone (CSetThrottle 0) ;;
  drone (CSetRoll 0) ;;
  drone (CSetPitch power_lev) ;;
  drone (CHover 2) ;;
  '(t0, x, y0, z) <- get_position_data ;;
  time_sleep 1 ;;
  print "Calibration -- moving forward" [] ;;
  drone (CMove duration) ;;
  drone (CHover 2) ;;
  '(t1, x, y1, z) <- get_position_data ;;
  let delta_y_forward := y1 - y0 in
  drone (CSetPitch (- power_lev)) ;;
  time_sleep 1 ;;
  print "Calibration -- moving backward" [] ;;
  drone (CMove duration) ;;
  drone (CHover 2) ;;
  '(t2, x, y2, z) <- get_position_data ;;
  let delta_y_back := y2 - y1 in
  factor <- div delta_y_forward delta_y_back ;;
  let pitch_b := pitch_b ++ [factor] in
  print "Forward: {}\tBack: {}" [delta_y_forward; delta_y_back] ;;
  drone (CSetPitch 0) ;;
  ret pitch_b.

(** [move_cal(self, power_lev, duration)]. *)
Definition move_cal (power_lev duration : Q) : M unit :=
  let roll_r : list Q := [] in
  let roll_l : list Q := [] in
  let throttle_u : list Q := [] in
  let throttle_d : list Q := [] in
  let repeats := 2%Z in
  let reps := inject_Z repeats in
  me <- get_self ;;
  if negb (paired me && takeoff me)
  then print "The drone must be paired, and must have taken off, before calibration." []
  else
    pitch_b <- for_fold (range repeats) (fun _ => cal_trial power_lev duration) [] ;;
    print "Calibration Scale Factors:" [] ;;
    back <- div (sum pitch_b) reps ;;
    print "\tForward = {:.3f}\tBack = {:.3f}" [1; back] ;;
    a1 <- div (sum pitch_b) reps ;;
    a2 <- div (sum roll_r) reps ;;
    a3 <- div (sum roll_l) reps ;;
    a4 <- div (sum throttle_u) reps ;;
    a5 <- div (sum throttle_d) reps ;;
    set_drone_cal [1; a1; a2; a3; a4; a5] ;;
    b1 <- div (sum pitch_b) reps ;;
    set_drone_cal [1; b1; 1; 1; 1; 1] ;;
    when (write_datafile me)
      (stamp <- date_time_str Compact ;;
       me' <- get_self ;;
       writerow [CStr "Calibration"; stamp; CNum (pitch_f me'); CNum (Py.pitch_b me');
                 CNum (Py.roll_r me'); CNum (Py.roll_l me'); CNum (Py.throttle_u me');
                 CNum (Py.throttle_d me'); CNum (yaw_cw me'); CNum (yaw_ccw me')]).

End Options.

(* ===================================================================== *)
(** * drone_flight_patt1.py: the pattern generators *)
(* ===================================================================== *)

Module Patt1.
Import Py.

(** A pattern generator takes the controller object [drone_cal] as its
    first argument and only talks to it (and to [random]): it reads the
    position, asks for verified moves and holds, and draws samples.  It is
    modelled as the tree of these requests, each continuing with the
    answer it gets; [run] below executes the tree on the class of
    [drone_flight_options.py]. *)
Inductive Prog (A : Type) : Type :=
| Ret (a : A)
| GetPositionData (k : Q * Q * Q * Q -> Prog A)
    (* drone_cal.drone.get_position_data() *)
| SendAbsPosVerif (x0 y0 z0 x1 y1 z1 vel min_delay complete : Q) (pattern : string)
    (write_note : bool) (k : Prog A)
    (* drone_cal.send_abs_pos_verif(...) *)
| HoverWDel (t_hover t_sleep : Q) (pattern : string) (write_note : bool) (k : Prog A)
    (* drone_cal.hover_w_del(...) *)
| RandomUniform (a b : Q) (k : Q -> Prog A).
    (* random.uniform(a, b) *)
Arguments Ret {A} a.
Arguments GetPositionData {A} k.
Arguments SendAbsPosVerif {A} x0 y0 z0 x1 y1 z1 vel min_delay complete pattern write_note k.
Arguments HoverWDel {A} t_hover t_sleep pattern write_note k.
Arguments RandomUniform {A} a b k.

Fixpoint pbind {A B} (p : Prog A) (f : A -> Prog B) : Prog B :=
  match p with
  | Ret a => f a
  | GetPositionData k => GetPositionData (fun r => pbind (k r) f)
  | SendAbsPosVerif x0 y0 z0 x1 y1 z1 vel d c pat n k =>
      SendAbsPosVerif x0 y0 z0 x1 y1 z1 vel d c pat n (pbind k f)
  | HoverWDel th ts pat n k => HoverWDel th ts pat n (pbind k f)
  | RandomUniform a b k => RandomUniform a b (fun r => pbind (k r) f)
  end.

Declare Scope prog_scope.
Delimit Scope prog_scope with prog.
Notation "x <- c ;; k" := (pbind c (fun x => k))
  (at level 61, c at next level, right associativity) : prog_scope.
Notation "' p <- c ;; k" := (pbind c (fun x => let 'p := x in k))
  (at level 61, p pattern, c at next level, right associativity) : prog_scope.
Notation "c ;; k" := (pbind c (fun _ => k))
  (at level 61, right associativity) : prog_scope.
Open Scope prog_scope.

Definition get_position_data : Prog (Q * Q * Q * Q) := GetPositionData Ret.

(** [drone_cal.send_abs_pos_verif(x0, y0, z0, x1, y1, z1, vel, delay,
    pattern=pattern, write_note=write_note)]: [complete] keeps its
    default. *)
Definition send_abs_pos_verif (x0 y0 z0 x1 y1 z1 vel delay : Q) (pattern : string)
    (write_note : bool) : Prog unit :=
  SendAbsPosVerif x0 y0 z0 x1 y1 z1 vel delay Options.default_complete pattern write_note
    (Ret tt).

Definition hover_w_del (t_hover t_sleep : Q) (pattern : string) (write_note : bool)
    : Prog unit :=
  HoverWDel t_hover t_sleep pattern write_note (Ret tt).

Definition random_uniform (a b : Q) : Prog Q := RandomUniform a b Ret.

(** [for x in l: body(x)]. *)
Fixpoint for_each {A} (l : list A) (body : A -> Prog unit) : Prog unit :=
  match l with
  | [] => Ret tt
  | x :: l' => body x ;; for_each l' body
  end.

(** Running a pattern on the controller of [drone_flight_options.py]. *)
Fixpoint run {A} (fuel : nat) (p : Prog A) : M A :=
  match p with
  | Ret a => Py.ret a
  | GetPositionData k => Py.bind Options.get_position_data (fun r => run fuel (k r))
  | SendAbsPosVerif x0 y0 z0 x1 y1 z1 vel d c pat n k =>
      Py.bind (Options.send_abs_pos_verif fuel x0 y0 z0 x1 y1 z1 vel d c pat n)
        (fun _ => run fuel k)
  | HoverWDel th ts pat n k =>
      Py.bind (Options.hover_w_del fuel th ts pat n) (fun _ => run fuel k)
  | RandomUniform a b k => Py.bind (Py.random_uniform a b) (fun r => run fuel (k r))
  end.

(** ** The simple sweeps *)

(** [move_x_simple(drone_cal, del_x, vel, delay=0.0, repeats=2)]. *)
Definition move_x_simple (del_x vel delay : Q) (repeats : Z) : Prog unit :=
  let pattern := "Simple_X"%string in
  let t_sleep := 1.0 in
  let t_hover := 2.0 in
  '(t, x0, y0, z0) <- get_position_data ;;
  for_each (range repeats) (fun _ =>
    send_abs_pos_verif x0 y0 z0 (x0 + del_x) y0 z0 vel delay pattern false ;;
    hover_w_del t_hover t_sleep pattern false ;;
    send_abs_pos_verif (x0 + del_x) y0 z0 x0 y0 z0 vel delay pattern false ;;
    hover_w_del t_hover t_sleep pattern false ;;
    send_abs_pos_verif x0 y0 z0 (x0 - del_x) y0 z0 vel delay pattern false ;;
    hover_w_del t_hover t_sleep pattern false ;;
    send_abs_pos_verif (x0 - del_x) y0 z0 x0 y0 z0 vel delay pattern false).

(** [del_z if del_z < 0.75 * z0 else 0.75 * z0]. *)
Definition reduced_del_z (del_z z0 : Q) : Q :=
  if Qlt_le_dec del_z (fmul 0.75 z0) then del_z else fmul 0.75 z0.

(** [move_z_simple(drone_cal, del_z, vel, delay=0.0, repeats=2)]. *)
Definition move_z_simple (del_z vel delay : Q) (repeats : Z) : Prog unit :=
  let pattern := "Simple_Z"%string in
  let t_sleep := 1.0 in
  let t_hover := 2.0 in
  '(t, x0, y0, z0) <- get_position_data ;;
  let delta_z := reduced_del_z del_z z0 in
  for_each (range repeats) (fun _ =>
    send_abs_pos_verif x0 y0 z0 x0 y0 (z0 + delta_z) vel delay pattern false ;;
    hover_w_del t_hover t_sleep pattern false ;;
    send_abs_pos_verif x0 y0 (z0 + delta_z) x0 y0 z0 vel delay pattern false ;;
    hover_w_del t_hover t_sleep pattern false ;;
    send_abs_pos_verif x0 y0 z0 x0 y0 (z0 - delta_z) vel delay pattern false ;;
    hover_w_del t_hover t_sleep pattern false ;;
    send_abs_pos_verif x0 y0 (z0 - delta_z) x0 y0 z0 vel delay pattern false).

(** [move_y_simple(drone_cal, del_y, vel, delay=0.0, repeats=2)]. *)
Definition move_y_simple (del_y vel delay : Q) (repeats : Z) : Prog unit :=
  let pattern := "Simple_Y"%string in
  let t_sleep := 1.0 in
  let t_hover := 2.0 in
  '(t, x0, y0, z0) <- get_position_data ;;
  for_each (range repeats) (fun _ =>
    send_abs_pos_verif x0 y0 z0 x0 (y0 + del_y) z0 vel delay pattern false ;;
    hover_w_del t_hover t_sleep pattern false ;;
    send_abs_pos_verif x0 (y0 + del_y) z0 x0 y0 z0 vel delay pattern false ;;
    hover_w_del t_hover t_sleep pattern false ;;
    send_abs_pos_verif x0 y0 z0 x0 (y0 - del_y) z0 vel delay pattern false ;;
    hover_w_del t_hover t_sleep pattern false ;;
    send_abs_pos_verif x0 (y0 - del_y) z0 x0 y0 z0 vel delay pattern false ;;
    hover_w_del t_hover t_sleep pattern false).

(** [move_yz_simple(drone_cal, del_y, del_z, vel, delay=0.0, repeats=2,
    write_note=False)]. *)
Definition move_yz_simple (del_y del_z vel delay : Q) (repeats : Z) (write_note : bool)
    : Prog unit :=
  let pattern := "Simple_YZ"%string in
  let t_sleep := 1.0 in
  let t_hover := 2.0 in
  '(t, x0, y0, z0) <- get_position_data ;;
  let delta_z := reduced_del_z del_z z0 in
  for_each (range repeats) (fun _ =>
    send_abs_pos_verif x0 y0 z0 x0 (y0 + del_y) z0 vel delay pattern write_note ;;
    hover_w_del t_hover t_sleep pattern write_note ;;
    send_abs_pos_verif x0 (y0 + del_y) z0 x0 y0 z0 vel delay pattern write_note ;;
    hover_w_del t_hover t_sleep pattern write_note ;;
    send_abs_pos_verif x0 y0 z0 x0 (y0 - del_y) z0 vel delay pattern write_note ;;
    hover_w_del t_hover t_sleep pattern write_note ;;
    send_abs_pos_verif x0 (y0 - del_y) z0 x0 y0 z0 vel delay pattern write_note ;;
    hover_w_del t_hover t_sleep pattern write_note ;;
    send_abs_pos_verif x0 y0 z0 x0 y0 (z0 + delta_z) vel delay pattern write_note ;;
    hover_w_del t_hover t_sleep pattern write_note ;;
    send_abs_pos_verif x0 y0 (z0 + delta_z) x0 y0 z0 vel delay pattern write_note ;;
    hover_w_del t_hover t_sleep pattern write_note ;;
    send_abs_pos_verif x0 y0 z0 x0 y0 (z0 - delta_z) vel delay pattern write_note ;;
    hover_w_del t_hover t_sleep pattern write_note ;;
    send_abs_pos_verif x0 y0 (z0 - delta_z) x0 y0 z0 vel delay pattern write_note).

(** ** The random walks *)

(** [limits]: the list [[x_neg, x_pos, y_neg, y_pos, z_neg, z_pos]]. *)
Record Limits : Type := mkLimits {
  x_neg : Q; x_pos : Q; y_neg : Q; y_pos : Q; z_neg : Q; z_pos : Q
}.

(** The sign inversion both random walks apply to one axis: [c] is the
    position just read, [c0] the initial one, [d] the displacement.
    [if c + d < c0 + neg: d = fabs(d)  elif c + d > c0 + pos: d = -fabs(d)]. *)
Definition invert_at_limits (c c0 neg pos d : Q) : Q :=
  if Qlt_le_dec (c + d) (c0 + neg) then fabs d
  else if Qlt_le_dec (c0 + pos) (c + d) then - fabs d
  else d.

(** The three legs both random walks start with: left, right, centre. *)
Definition calibration_legs (x0 y0 z0 : Q) (limits : Limits) (vel delay : Q)
    (pattern : string) (write_note : bool) : Prog unit :=
  let t_sleep := 1.0 in
  send_abs_pos_verif x0 y0 z0 x0 (y0 + y_pos limits) z0 vel delay pattern write_note ;;
  hover_w_del 1.0 t_sleep pattern write_note ;;
  send_abs_pos_verif x0 (y0 + y_pos limits) z0 x0 (y0 + y_neg limits) z0 vel delay
    pattern write_note ;;
  hover_w_del 1.0 t_sleep pattern write_note ;;
  send_abs_pos_verif x0 (y0 + y_neg limits) z0 x0 y0 z0 vel delay pattern write_note ;;
  hover_w_del 1.0 t_sleep pattern write_note.

Section Trigonometry.
(** [math.cos], [math.sin] and [math.pi]. *)
Variables (cos sin : Q -> Q) (pi : Q).

(** One segment of [move_random_limits]. *)
Definition random_limits_segment (x0 y0 z0 : Q) (max_r : Q) (limits : Limits)
    (vel delay : Q) (pattern : string) (write_note : bool) : Prog unit :=
  let t_sleep := 1.0 in
  '(t, x, y, z) <- get_position_data ;;
  r <- random_uniform (0.5 * max_r) max_r ;;
  theta <- random_uniform 0 pi ;;
  phi <- random_uniform 0 (2 * pi) ;;
  velocity <- random_uniform (0.5 * vel) vel ;;
  let del_z := r * cos theta in
  let del_y := r * sin theta * cos phi in
  let del_x := r * sin theta * sin phi in
  let del_x := invert_at_limits x x0 (x_neg limits) (x_pos limits) del_x in
  let del_y := invert_at_limits y y0 (y_neg limits) (y_pos limits) del_y in
  let del_z := invert_at_limits z z0 (z_neg limits) (z_pos limits) del_z in
  send_abs_pos_verif x y z (x + del_x) (y + del_y) (z + del_z) vel delay pattern write_note ;;
  hover_w_del 1.0 t_sleep pattern write_note.

(** [move_random_limits(drone_cal, max_r, limits, vel, delay=0.0,
    segments=10, write_note=False)]. *)
Definition move_random_limits (max_r : Q) (limits : Limits) (vel delay : Q)
    (segments : Z) (write_note : bool) : Prog unit :=
  let pattern := "Random_Limits"%string in
  '(t, x0, y0, z0) <- get_position_data ;;
  calibration_legs x0 y0 z0 limits vel delay pattern write_note ;;
  for_each (range segments) (fun _ =>
    random_limits_segment x0 y0 z0 max_r limits vel delay pattern write_note).

End Trigonometry.

(** One segment of [move_random_xyz]; [max_xyz] is the list
    [[delta_x_max, delta_y_max, delta_z_max]]. *)
Definition random_xyz_segment (x0 y0 z0 : Q) (max_xyz : Q * Q * Q) (limits : Limits)
    (vel delay : Q) (pattern : string) (write_note : bool) : Prog unit :=
  let '(max_x, max_y, max_z) := max_xyz in
  let t_sleep := 1.0 in
  '(t, x, y, z) <- get_position_data ;;
  delta_x <- random_uniform (- max_x) max_x ;;
  delta_y <- random_uniform (- max_y) max_y ;;
  delta_z <- random_uniform (- max_z) max_z ;;
  let delta_x := invert_at_limits x x0 (x_neg limits) (x_pos limits) delta_x in
  let delta_y := invert_at_limits y y0 (y_neg limits) (y_pos limits) delta_y in
  let delta_z := invert_at_limits z z0 (z_neg limits) (z_pos limits) delta_z in
  send_abs_pos_verif x y z (x + delta_x) (y + delta_y) (z + delta_z) vel delay
    pattern write_note ;;
  hover_w_del 1.0 t_sleep pattern write_note.

(** [move_random_xyz(drone_cal, max_xyz, limits, vel, delay=0.0,
    num_segs=10, write_note=False)]. *)
Definition move_random_xyz (max_xyz : Q * Q * Q) (limits : Limits) (vel delay : Q)
    (num_segs : Z) (write_note : bool) : Prog unit :=
  let pattern := "Random_Limits"%string in
  '(t, x0, y0, z0) <- get_position_data ;;
  calibration_legs x0 y0 z0 limits vel delay pattern write_note ;;
  for_each (range num_segs) (fun _ =>
    random_xyz_segment x0 y0 z0 max_xyz limits vel delay pattern write_note).

(** ** What a pattern asks for *)

(** A call of [send_abs_pos_verif]: where the move starts and where it
    goes. *)
Record Move : Type := mkMove {
  from_x : Q; from_y : Q; from_z : Q;
  to_x : Q; to_y : Q; to_z : Q
}.

(** The answers a pattern gets: the [k]-th position it reads itself and
    the [k]-th sample it draws. *)
Record Answers : Type := mkAnswers {
  positions : nat -> Q * Q * Q * Q;
  samples : nat -> Q -> Q -> Q
}.

(** The verified moves a pattern asks for, in order, when its [np]-th
    position read and [ns]-th draw onwards are answered by [ans]. *)
Fixpoint moves {A} (p : Prog A) (ans : Answers) (np ns : nat) : list Move :=
  match p with
  | Ret _ => []
  | GetPositionData k => moves (k (positions ans np)) ans (S np) ns
  | SendAbsPosVerif x0 y0 z0 x1 y1 z1 _ _ _ _ _ k =>
      mkMove x0 y0 z0 x1 y1 z1 :: moves k ans np ns
  | HoverWDel _ _ _ _ k => moves k ans np ns
  | RandomUniform a b k => moves (k (samples ans ns a b)) ans np (S ns)
  end.

(** How many times a pattern reads the position itself. *)
Fixpoint position_reads {A} (p : Prog A) (ans : Answers) (np ns : nat) : nat :=
  match p with
  | Ret _ => O
  | GetPositionData k => S (position_reads (k (positions ans np)) ans (S np) ns)
  | SendAbsPosVerif _ _ _ _ _ _ _ _ _ _ _ k => position_reads k ans np ns
  | HoverWDel _ _ _ _ k => position_reads k ans np ns
  | RandomUniform a b k => position_reads (k (samples ans ns a b)) ans np (S ns)
  end.

End Patt1.


(* ===================================================================== *)
(** * The two main programs *)
(* ===================================================================== *)

(** The main programs take the command line as a list of strings.  They
    build their controller themselves: [drone = Drone()] has no effect on
    the world, and [DroneCalibrated(drone, write_datafile, writer)] makes
    [self] the object of [__init__].  The data file is the [WriteRow] events
    of the trace: [open], which is taken to succeed, and [close] leave no
    event of their own. *)
Module Main.
Import Py.

(** ['-f' in argv]. *)
Definition contains (flag : string) (argv : list string) : bool :=
  existsb (String.eqb flag) argv.

(** [DroneCalibrated(drone, write_datafile, writer)]. *)
Definition new_drone_calibrated (write_datafile : bool) : M unit :=
  modify_self (fun _ => Options.init write_datafile).

End Main.

(** ** drone_flight_patt1.py *)

Module Patt1Main.
Import Py.

(** [open_datafile(argv, root_name='drone_path')]; what it returns is
    [write_datafile], the file and the writer being the rows of the
    trace. *)
Definition open_datafile (argv : list string) (root_name : string) : M bool :=
  if Main.contains "-f" argv then
    stamp <- Options.date_time_str Compact ;;
    writerow [CStr "CoDrone Location vs Time"; stamp] ;;
    ret true
  else ret false.

(** [main()]. *)
Definition main (fuel : nat) (argv : list string) : M unit :=
  when (Main.contains "-f" argv) (print "Saving data to output file ..." []) ;;
  (if Main.contains "-r" argv then print "Random flight path" []
   else print "Simple YZ flight path" []) ;;
  write_datafile <- open_datafile argv "drone_path" ;;
  let write_notes := false in
  Main.new_drone_calibrated write_datafile ;;
  Options.drone_pair ;;
  Options.drone_takeoff fuel 0.15 ;;
  (if Main.contains "-r" argv then
     let limits := Patt1.mkLimits (-0.1) 0.1 (-1.5) 1.5 (-0.1) 0.1 in
     let max_xyz := (0.0, 1.0, 0.0) in
     let vel := 0.5 in
     let delay := 2.0 in
     let num_segs := 20%Z in
     Patt1.run fuel (Patt1.move_random_xyz max_xyz limits vel delay num_segs write_notes)
   else
     Patt1.run fuel (Patt1.move_yz_simple 0.75 0.5 0.5 2.0 2 write_notes)) ;;
  Options.drone_land fuel.

End Patt1Main.

(** ** drone_flight_options.py *)

Module OptionsMain.
Import Py.

(** The keyboard: line [n] is what the [n]-th call of [input] returns.
    End of file is never reached.  A character of a line is its code
    point, for code points below 256. *)
Definition Keyboard : Type := nat -> string.

(** [display_menu()]. *)
Definition display_menu : M unit :=
  print "\nDrone Flight Control" [] ;;
  print "----------------------" [] ;;
  print "Select from the following options --" [] ;;
  print "1) Pair drone" [] ;;
  print "2) Takeoff" [] ;;
  print "3) Calibrate power of roll, pitch, throttle" [] ;;
  print "4) Fly measured XYZ path" [] ;;
  print "5) Fly simple XYZ path" [] ;;
  print "6) Land" [] ;;
  print "7) Exit program\n" [].

(** The characters ['0'] to ['9']. *)
Definition is_decimal (c : Ascii.ascii) : bool :=
  let n := Ascii.nat_of_ascii c in (48 <=? n)%nat && (n <=? 57)%nat.

(** The characters [str.isdigit] accepts: the decimal digits and, below
    256, the superscripts two, three and one. *)
Definition is_digit (c : Ascii.ascii) : bool :=
  let n := Ascii.nat_of_ascii c in
  is_decimal c || (n =? 178)%nat || (n =? 179)%nat || (n =? 185)%nat.

(** [s.isdigit()]: every character is a digit and there is at least
    one. *)
Definition isdigit (s : string) : bool :=
  negb (String.eqb s "") && forallb is_digit (list_ascii_of_string s).

(** The number a string of decimal digits denotes. *)
Definition decimal_value (s : string) : Z :=
  fold_left (fun acc c => (10 * acc + Z.of_nat (Ascii.nat_of_ascii c - 48))%Z)
    (list_ascii_of_string s) 0%Z.

(** [int(s)] of a string that passed [isdigit], and is within the length
    the interpreter converts: [ValueError] unless every character is a
    decimal digit. *)
Definition int (s : string) : M Z :=
  if forallb is_decimal (list_ascii_of_string s) then ret (decimal_value s)
  else raise ValueError.

(** The body of the loop of [option_select]; the locals are [selected]
    and the number of the next line of the keyboard.  The prompt of
    [input] goes to the console like a [print]. *)
Definition select_body (keyboard : Keyboard) (v : Z * nat) : M (Z * nat) :=
  let '(selected, line) := v in
  display_menu ;;
  print "Select option (1 - 7): " [] ;;
  let selected_str := keyboard line in
  selected <- (if isdigit selected_str then
                 selected <- int selected_str ;;
                 ret (if negb ((1 <=? selected)%Z && (selected <=? 7)%Z) then 0%Z
                      else selected)
               else ret selected) ;;
  when (selected =? 0)%Z (print "Please enter a single digit 1 - 7" []) ;;
  ret (selected, S line).

(** [option_select()], reading the keyboard from [line] on; it returns
    the selection and the number of the next line. *)
Definition option_select (fuel : nat) (keyboard : Keyboard) (line : nat) : M (Z * nat) :=
  while fuel (fun v : Z * nat => (fst v <? 1)%Z) (select_body keyboard) (0%Z, line).

(** The [match selected] of [main]; [None] is [break]. *)
Definition dispatch (fuel : nat) (selected : Z) : option (M unit) :=
  match selected with
  | 1%Z => Some Options.drone_pair
  | 2%Z => Some (Options.drone_takeoff fuel 0.15)
  | 3%Z => Some (Options.move_cal 20 2)
  | 4%Z => Some (Options.mov_xyz_abs 0.5 0.5)
  | 5%Z => Some (Options.move_xyz_simple 0.5 0.5)
  | 6%Z => Some (Options.drone_land fuel)
  | _ => None
  end.

(** The locals of the loop of [main]: [selected], the next line of the
    keyboard, and whether [break] was reached. *)
Definition MainVars : Type := Z * nat * bool.

Definition main_cond (v : MainVars) : bool :=
  let '(selected, _, broke) := v in negb broke && negb (selected =? 7)%Z.

Definition main_body (fuel : nat) (keyboard : Keyboard) (v : MainVars) : M MainVars :=
  let '(_, line, _) := v in
  '(selected, line) <- option_select fuel keyboard line ;;
  match dispatch fuel selected with
  | Some method => method ;; ret (selected, line, false)
  | None => ret (selected, line, true)
  end.

(** [main()]. *)
Definition main (fuel : nat) (keyboard : Keyboard) (argv : list string) : M unit :=
  write_datafile <-
    (if Main.contains "-f" argv then
       stamp <- Options.date_time_str Compact ;;
       writerow [CStr "CoDrone Location vs Time"; stamp] ;;
       ret true
     else ret false) ;;
  Main.new_drone_calibrated write_datafile ;;
  '(selected, line) <- option_select fuel keyboard 0 ;;
  while fuel main_cond (main_body fuel keyboard) (selected, line, false) ;;
  ret tt.

End OptionsMain.
(* ===================================================================== *)
(** * Vocabulary of the properties *)
(* ===================================================================== *)

Import Py.

(** The vehicle commands of a trace, in order. *)
Definition commands (t : list Event) : list Command :=
  flat_map (fun e => match e with Drone c => [c] | _ => [] end) t.

(** ** Verified Move *)

(** The move from [(x0, y0, z0)] to [(x1, y1, z1)] is complete, to the
    fraction [complete], at the [n]-th position of a feed. *)
Definition arrived (x0 y0 z0 x1 y1 z1 complete : Q) (f : Feeds) (n : nat) : Prop :=
  let '(_, x, y, z) := position_feed f n in
  complete * Qabs (x1 - x0) <= Qabs (x - x0) /\
  complete * Qabs (y1 - y0) <= Qabs (y - y0) /\
  complete * Qabs (z1 - z0) <= Qabs (z - z0).

(** The delay has passed at the [n]-th reading of the clock, for a call
    that started at [start_time]. *)
Definition time_expired (min_delay : Q) (f : Feeds) (start_time : Q) (n : nat) : Prop :=
  min_delay <= time_feed f n - start_time.

Definition done_at (x0 y0 z0 x1 y1 z1 min_delay complete : Q) (f : Feeds)
    (start_time : Q) (np nt : nat) : Prop :=
  time_expired min_delay f start_time nt /\ arrived x0 y0 z0 x1 y1 z1 complete f np.

Definition target_command (x1 y1 z1 vel : Q) : Command :=
  CSendAbsolutePosition x1 y1 z1 vel 0 0.

(** ** Calibration *)

(** The forward coordinate ([y]) of the [n]-th position of a feed. *)
Definition feed_y (f : Feeds) (n : nat) : Q :=
  let '(_, _, y, _) := position_feed f n in y.

Definition airborne (d : DroneCalibrated) : DroneCalibrated :=
  Options.with_takeoff true (Options.with_paired true d).

(** A controller that was never paired, on a vehicle that does not move. *)
Definition quiet_feeds : Feeds :=
  mkFeeds (fun _ => (0, 0, 0, 0)) (fun _ => 0) (fun _ => 0) (fun _ => (0, 0))
    (fun n => inject_Z (Z.of_nat n)) (fun _ => 0) (fun _ a _ => a).

Definition fresh_world : World :=
  mkWorld (Options.init false) quiet_feeds (fun _ => O) [].

(** A controller in flight whose telemetry moves 1 m forward and 1 m back
    in every trial. *)
Definition there_and_back_feeds : Feeds :=
  mkFeeds (fun n => (0, 0, if Nat.eqb (Nat.modulo n 3) 1 then 1 else 0, 0))
    (fun _ => 0) (fun _ => 0) (fun _ => (0, 0))
    (fun n => inject_Z (Z.of_nat n)) (fun _ => 0) (fun _ a _ => a).

Definition there_and_back_world : World :=
  mkWorld (airborne (Options.init false)) there_and_back_feeds (fun _ => O) [].

(** A controller in flight whose vehicle goes 1 m forward and then does
    not move any more. *)
Definition stalled_feeds : Feeds :=
  mkFeeds (fun n => (0, 0, if Nat.eqb n 0 then 0 else 1, 0))
    (fun _ => 0) (fun _ => 0) (fun _ => (0, 0))
    (fun n => inject_Z (Z.of_nat n)) (fun _ => 0) (fun _ a _ => a).

Definition stalled_world : World :=
  mkWorld (airborne (Options.init false)) stalled_feeds (fun _ => O) [].

(** ** The states a controller can reach *)

(** The public operations: the methods of the class, and a pattern
    generator run on it. *)
Inductive Op : Type :=
| CallGetDroneCal
| CallSetDroneCal (cal_param_list : list Q)
| CallDronePair
| CallDroneTakeoff (delta_z : Q)
| CallDroneLand
| CallMoveCal (power_lev duration : Q)
| CallMovXyzAbs (movement_lim velocity : Q)
| CallMoveXyzSimple (dist velocity : Q)
| CallSendAbsPosWOutput (x0 y0 z0 x1 y1 z1 velocity : Q) (pattern : string)
| CallSendAbsPosVerif (x0 y0 z0 x1 y1 z1 vel min_delay complete : Q) (pattern : string)
    (write_note : bool)
| CallHoverWDel (t_hover t_sleep : Q) (pattern : string) (write_note : bool)
| CallOutputPosition (pattern : string)
| CallPattern (p : Patt1.Prog unit).

Definition perform (fuel : nat) (op : Op) : M unit :=
  match op with
  | CallGetDroneCal => _ <- Options.get_drone_cal ;; ret tt
  | CallSetDroneCal l => Options.set_drone_cal l
  | CallDronePair => Options.drone_pair
  | CallDroneTakeoff delta_z => Options.drone_takeoff fuel delta_z
  | CallDroneLand => Options.drone_land fuel
  | CallMoveCal power_lev duration => Options.move_cal power_lev duration
  | CallMovXyzAbs movement_lim velocity => Options.mov_xyz_abs movement_lim velocity
  | CallMoveXyzSimple dist velocity => Options.move_xyz_simple dist velocity
  | CallSendAbsPosWOutput x0 y0 z0 x1 y1 z1 velocity pattern =>
      Options.send_abs_pos_w_output x0 y0 z0 x1 y1 z1 velocity pattern
  | CallSendAbsPosVerif x0 y0 z0 x1 y1 z1 vel min_delay complete pattern write_note =>
      Options.send_abs_pos_verif fuel x0 y0 z0 x1 y1 z1 vel min_delay complete pattern
        write_note
  | CallHoverWDel t_hover t_sleep pattern write_note =>
      Options.hover_w_del fuel t_hover t_sleep pattern write_note
  | CallOutputPosition pattern => Options.output_position pattern
  | CallPattern p => Patt1.run fuel p
  end.

(** The worlds reached from a new controller by operations that [allowed]
    admits in the world they start from.  An operation that raises, or
    whose loop is cut, leaves the world it had reached. *)
Inductive reachable_when (allowed : Op -> World -> Prop) : World -> Prop :=
| reachable_init (write_datafile : bool) (f : Feeds) :
    reachable_when allowed (mkWorld (Options.init write_datafile) f (fun _ => O) [])
| reachable_step (w : World) (fuel : nat) (op : Op) :
    reachable_when allowed w -> allowed op w ->
    reachable_when allowed (snd (perform fuel op w)).

Definition reachable : World -> Prop := reachable_when (fun _ _ => True).

(** The eight scale factors, in the order of [get_drone_cal]. *)
Definition factors (d : DroneCalibrated) : list Q :=
  [pitch_f d; pitch_b d; roll_r d; roll_l d; throttle_u d; throttle_d d; yaw_cw d;
   yaw_ccw d].

Definition factors_positive (d : DroneCalibrated) : Prop :=
  Forall (fun v => 0 < v) (factors d).

(** A computation that leaves a part [proj] of the world as it is,
    however it ends. *)
Definition keeps {X A} (proj : World -> X) (m : M A) : Prop :=
  forall w, proj (snd (m w)) = proj w.

(** A computation that leaves the eight factors as they are. *)
Abbreviation keeps_factors := (keeps (fun w => factors (self w))).

(** A computation after which positive factors are still positive. *)
Definition keeps_positive_m {A} (m : M A) : Prop :=
  forall w, factors_positive (self w) -> factors_positive (self (snd (m w))).

(** A trial of [move_cal] started in [w] would measure a backward
    displacement of zero. *)
Definition zero_back_displacement (w : World) : Prop :=
  let y n := feed_y (feeds w) (reads w ChPosition + n) in
  y 2%nat - y 1%nat == 0 \/ (~ y 2%nat - y 1%nat == 0 /\ y 5%nat - y 4%nat == 0).

(** Uses of the two calibration operations after which the factors are
    known to be positive: [set_drone_cal] on values that are, and
    [move_cal] where it stops before its final assignment. *)
Definition positive_calibration (op : Op) (w : World) : Prop :=
  match op with
  | CallSetDroneCal l => Forall (fun v => 0 < v) (firstn 8 l)
  | CallMoveCal _ _ =>
      paired (self w) && takeoff (self w) = false \/ zero_back_displacement w
  | _ => True
  end.

(** A flight: pair, take off (the vehicle climbs at once), calibrate on a
    vehicle that goes 1 m forward and 1 m back in each trial. *)
Definition flight_feeds : Feeds :=
  mkFeeds
    (fun n => (0, 0,
               if (Nat.eqb n 5 || Nat.eqb n 8)%bool then 1 else 0,
               if Nat.leb n 1 then 1 else 1.15))
    (fun _ => 80) (fun _ => 25) (fun _ => (0, 0))
    (fun n => inject_Z (Z.of_nat n)) (fun _ => 0) (fun _ a _ => a).

Definition flight_start : World :=
  mkWorld (Options.init false) flight_feeds (fun _ => O) [].

Definition after_takeoff : World :=
  snd (perform 10 (CallDroneTakeoff 0.15) (snd (perform 10 CallDronePair flight_start))).

Definition after_calibration : World :=
  snd (perform 10 (CallMoveCal 20 2) after_takeoff).

(** ** Segment Planner *)

(** [r_total] of [send_abs_pos_w_output]. *)
Definition planned_distance (x0 y0 z0 x1 y1 z1 : Q) : Q :=
  sqrt_value (fadd (fadd (fsquare (fsub x1 x0)) (fsquare (fsub y1 y0)))
                   (fsquare (fsub z1 z0))).

(** [num_segments] of [send_abs_pos_w_output]. *)
Definition planned_segments (x0 y0 z0 x1 y1 z1 velocity : Q) : Z :=
  round (binary64 (binary64 (planned_distance x0 y0 z0 x1 y1 z1 / velocity)
                   / Options.delta_t)).

(** The segment count as the specification words it: the quotient of the
    distance by the speed and by 0.05, rounded, nothing else being
    rounded before. *)
Definition spec_segments (distance speed : Q) : Z := round (distance / speed / 0.05).

(** [delta_x], [delta_y] or [delta_z] of [send_abs_pos_w_output], for the
    axis that goes from [a0] to [a1]. *)
Definition segment_delta (a0 a1 : Q) (num_segments : Z) : Q :=
  if (num_segments =? 0)%Z then 0 else binary64 (fsub a1 a0 / inject_Z num_segments).

(** The command of segment [i]. *)
Definition segment_command (x0 y0 z0 x1 y1 z1 velocity : Q) (num_segments i : Z)
    : Command :=
  CSendAbsolutePosition
    (fadd x0 (fmul (inject_Z i) (segment_delta x0 x1 num_segments)))
    (fadd y0 (fmul (inject_Z i) (segment_delta y0 y1 num_segments)))
    (fadd z0 (fmul (inject_Z i) (segment_delta z0 z1 num_segments))) velocity 0 0.

(** The point [i] segments out of [n] along the line from [a0] to [a1], on
    one axis, when nothing is rounded. *)
Definition segment_point (a0 a1 : Q) (n i : Z) : Q :=
  a0 + inject_Z i / inject_Z n * (a1 - a0).

(** How far from that point binary64 arithmetic can put a command: the
    same for every index. *)
Definition rounding_bound (a0 a1 : Q) : Q :=
  (1 # 2 ^ 50) * (Qabs a0 + Qabs (a1 - a0)).

Definition close_to (a0 a1 : Q) (n i : Z) (a : Q) : Prop :=
  Qabs (a - segment_point a0 a1 n i) <= rounding_bound a0 a1.

(** The commands a trace has after those of an earlier one. *)
Definition sent_since (w w' : World) : list Command :=
  skipn (List.length (commands (trace w))) (commands (trace w')).

(** ** Pattern Generators *)

(** What a pattern returns, and how many positions and samples it has
    consumed when it does. *)
Fixpoint outcome {A} (p : Patt1.Prog A) (ans : Patt1.Answers) (np ns : nat)
    : A * nat * nat :=
  match p with
  | Patt1.Ret a => (a, np, ns)
  | Patt1.GetPositionData k => outcome (k (Patt1.positions ans np)) ans (S np) ns
  | Patt1.SendAbsPosVerif _ _ _ _ _ _ _ _ _ _ _ k => outcome k ans np ns
  | Patt1.HoverWDel _ _ _ _ k => outcome k ans np ns
  | Patt1.RandomUniform a b k => outcome (k (Patt1.samples ans ns a b)) ans np (S ns)
  end.

(** The four legs of a sweep along one axis: out, back, out the other
    way, back. *)
Definition x_sweep (x0 y0 z0 d : Q) : list Patt1.Move :=
  [Patt1.mkMove x0 y0 z0 (x0 + d) y0 z0; Patt1.mkMove (x0 + d) y0 z0 x0 y0 z0;
   Patt1.mkMove x0 y0 z0 (x0 - d) y0 z0; Patt1.mkMove (x0 - d) y0 z0 x0 y0 z0].

Definition y_sweep (x0 y0 z0 d : Q) : list Patt1.Move :=
  [Patt1.mkMove x0 y0 z0 x0 (y0 + d) z0; Patt1.mkMove x0 (y0 + d) z0 x0 y0 z0;
   Patt1.mkMove x0 y0 z0 x0 (y0 - d) z0; Patt1.mkMove x0 (y0 - d) z0 x0 y0 z0].

Definition z_sweep (x0 y0 z0 d : Q) : list Patt1.Move :=
  [Patt1.mkMove x0 y0 z0 x0 y0 (z0 + d); Patt1.mkMove x0 y0 (z0 + d) x0 y0 z0;
   Patt1.mkMove x0 y0 z0 x0 y0 (z0 - d); Patt1.mkMove x0 y0 (z0 - d) x0 y0 z0].

(** [concat] of [repeats] copies of the legs of one cycle. *)
Definition cycles (repeats : Z) (legs : list Patt1.Move) : list Patt1.Move :=
  concat (map (fun _ => legs) (range repeats)).

(** The three legs the random walks start with. *)
Definition calibration_moves (x0 y0 z0 : Q) (limits : Patt1.Limits) : list Patt1.Move :=
  [Patt1.mkMove x0 y0 z0 x0 (y0 + Patt1.y_pos limits) z0;
   Patt1.mkMove x0 (y0 + Patt1.y_pos limits) z0 x0 (y0 + Patt1.y_neg limits) z0;
   Patt1.mkMove x0 (y0 + Patt1.y_neg limits) z0 x0 y0 z0].

(** The move of a random segment that reads position [p] and samples the
    displacement [d]. *)
Definition segment_move (x0 y0 z0 : Q) (limits : Patt1.Limits) (p : Q * Q * Q * Q)
    (d : Q * Q * Q) : Patt1.Move :=
  let '(_, x, y, z) := p in
  let '(dx, dy, dz) := d in
  let dx := Patt1.invert_at_limits x x0 (Patt1.x_neg limits) (Patt1.x_pos limits) dx in
  let dy := Patt1.invert_at_limits y y0 (Patt1.y_neg limits) (Patt1.y_pos limits) dy in
  let dz := Patt1.invert_at_limits z z0 (Patt1.z_neg limits) (Patt1.z_pos limits) dz in
  Patt1.mkMove x y z (x + dx) (y + dy) (z + dz).

(** The displacement a segment of [move_random_xyz] samples, from draw
    [ns] on. *)
Definition xyz_delta (max_xyz : Q * Q * Q) (ans : Patt1.Answers) (ns : nat) : Q * Q * Q :=
  let '(max_x, max_y, max_z) := max_xyz in
  (Patt1.samples ans ns (- max_x) max_x,
   Patt1.samples ans (S ns) (- max_y) max_y,
   Patt1.samples ans (S (S ns)) (- max_z) max_z).

(** The displacement a segment of [move_random_limits] samples, from draw
    [ns] on (the fourth draw, [velocity], is not used). *)
Definition spherical_delta (cos sin : Q -> Q) (pi max_r : Q) (ans : Patt1.Answers)
    (ns : nat) : Q * Q * Q :=
  let r := Patt1.samples ans ns (0.5 * max_r) max_r in
  let theta := Patt1.samples ans (S ns) 0 pi in
  let phi := Patt1.samples ans (S (S ns)) 0 (2 * pi) in
  (r * sin theta * sin phi, r * sin theta * cos phi, r * cos theta).

(** Position [p] is inside the box [limits] around [(x0, y0, z0)]. *)
Definition inside (x0 y0 z0 : Q) (limits : Patt1.Limits) (x y z : Q) : Prop :=
  (x0 + Patt1.x_neg limits <= x /\ x <= x0 + Patt1.x_pos limits) /\
  (y0 + Patt1.y_neg limits <= y /\ y <= y0 + Patt1.y_pos limits) /\
  (z0 + Patt1.z_neg limits <= z /\ z <= z0 + Patt1.z_pos limits).

Definition position_inside (x0 y0 z0 : Q) (limits : Patt1.Limits) (p : Q * Q * Q * Q)
    : Prop :=
  let '(_, x, y, z) := p in inside x0 y0 z0 limits x y z.

Definition target_inside (x0 y0 z0 : Q) (limits : Patt1.Limits) (m : Patt1.Move) : Prop :=
  inside x0 y0 z0 limits (Patt1.to_x m) (Patt1.to_y m) (Patt1.to_z m).

(** On each axis the displacement is at most half the width of the box. *)
Definition within_half_width (limits : Patt1.Limits) (d : Q * Q * Q) : Prop :=
  let '(dx, dy, dz) := d in
  2 * Qabs dx <= Patt1.x_pos limits - Patt1.x_neg limits /\
  2 * Qabs dy <= Patt1.y_pos limits - Patt1.y_neg limits /\
  2 * Qabs dz <= Patt1.z_pos limits - Patt1.z_neg limits.

(** The two random walks. *)
Inductive Walk : Type :=
| UniformXYZ (max_xyz : Q * Q * Q)              (* move_random_xyz *)
| Spherical (cos sin : Q -> Q) (pi max_r : Q).  (* move_random_limits *)

Definition walk_program (v : Walk) (limits : Patt1.Limits) (vel delay : Q) (segments : Z)
    (write_note : bool) : Patt1.Prog unit :=
  match v with
  | UniformXYZ max_xyz => Patt1.move_random_xyz max_xyz limits vel delay segments write_note
  | Spherical cos sin pi max_r =>
      Patt1.move_random_limits cos sin pi max_r limits vel delay segments write_note
  end.

(** The displacement segment [i] samples: [move_random_xyz] draws three
    numbers per segment, [move_random_limits] four. *)
Definition walk_delta (v : Walk) (ans : Patt1.Answers) (i : nat) : Q * Q * Q :=
  match v with
  | UniformXYZ max_xyz => xyz_delta max_xyz ans (3 * i)
  | Spherical cos sin pi max_r => spherical_delta cos sin pi max_r ans (4 * i)
  end.

(** The moves of a random walk: the calibration legs from the position
    read at entry, then one move per segment from the position read at the
    start of that segment. *)
Definition walk_moves (v : Walk) (limits : Patt1.Limits) (segments : Z)
    (ans : Patt1.Answers) : list Patt1.Move :=
  let '(_, x0, y0, z0) := Patt1.positions ans 0 in
  calibration_moves x0 y0 z0 limits ++
  map (fun i => segment_move x0 y0 z0 limits (Patt1.positions ans (1 + i))
                  (walk_delta v ans i))
      (seq 0 (Z.to_nat segments)).

(** The box and the step sizes [main] of [drone_flight_patt1.py] uses. *)
Definition main_limits : Patt1.Limits :=
  Patt1.mkLimits (-0.1) 0.1 (-1.5) 1.5 (-0.1) 0.1.
Definition main_max_xyz : Q * Q * Q := (0.0, 1.0, 0.0).

(** Draws that give the middle of the range, and draws that give its
    lower end. *)
Definition middle_draw (n : nat) (a b : Q) : Q := (a + b) / 2.
Definition low_draw (n : nat) (a b : Q) : Q := a.

(** A vehicle that hovers at (0, 0, 1), and one that has drifted 0.3 m
    along X by the time the first segment starts. *)
Definition hovering_answers (draw : nat -> Q -> Q -> Q) : Patt1.Answers :=
  Patt1.mkAnswers (fun _ => (0, 0, 0, 1)) draw.
Definition drifted_answers : Patt1.Answers :=
  Patt1.mkAnswers (fun n => if Nat.eqb n 0 then (0, 0, 0, 1) else (1, 0.3, 0, 1))
    middle_draw.

(** A vehicle that is 1 m to the side (Y = -1) at the start of every
    segment, with draws at the lower end: each segment samples -1 on Y. *)
Definition edge_answers : Patt1.Answers :=
  Patt1.mkAnswers (fun n => if Nat.eqb n 0 then (0, 0, 0, 1) else (1, 0, -1, 1)) low_draw.

(** Polynomials that agree with the cosine and the sine at 0. *)
Definition cos_near_0 (t : Q) : Q := 1 - t * t / 2.
Definition sin_near_0 (t : Q) : Q := t.

(** The four sweeps. *)
Inductive simple_sweep : Patt1.Prog unit -> Prop :=
| sweep_x (del_x vel delay : Q) (repeats : Z) :
    simple_sweep (Patt1.move_x_simple del_x vel delay repeats)
| sweep_y (del_y vel delay : Q) (repeats : Z) :
    simple_sweep (Patt1.move_y_simple del_y vel delay repeats)
| sweep_z (del_z vel delay : Q) (repeats : Z) :
    simple_sweep (Patt1.move_z_simple del_z vel delay repeats)
| sweep_yz (del_y del_z vel delay : Q) (repeats : Z) (write_note : bool) :
    simple_sweep (Patt1.move_yz_simple del_y del_z vel delay repeats write_note).

(** Where a move starts. *)
Definition move_start (m : Patt1.Move) : Q * Q * Q :=
  (Patt1.from_x m, Patt1.from_y m, Patt1.from_z m).

(** The place of a position reading. *)
Definition place (p : Q * Q * Q * Q) : Q * Q * Q :=
  let '(_, x, y, z) := p in (x, y, z).

(** A vehicle that climbs 5 cm between two position reads, on a clock
    that advances a quarter of a second between two readings. *)
Definition climbing_feeds : Feeds :=
  mkFeeds (fun n => (0, 0, 0, 1 + 0.05 * inject_Z (Z.of_nat n)))
    (fun _ => 80) (fun _ => 25) (fun _ => (0, 0))
    (fun n => inject_Z (Z.of_nat n) / 4) (fun _ => 0) (fun _ a _ => a).

Definition climbing_world : World :=
  mkWorld (airborne (Options.init false)) climbing_feeds (fun _ => O) [].

(** ** A pattern run on the class *)

(** What a pattern asks of the controller and of [random], one request
    at a time. *)
Inductive Request : Type :=
| ReqPosition
| ReqVerifiedMove (x0 y0 z0 x1 y1 z1 vel min_delay complete : Q) (pattern : string)
    (write_note : bool)
| ReqHold (t_hover t_sleep : Q) (pattern : string) (write_note : bool)
| ReqUniform (a b : Q).

(** The requests of a pattern, in order, under the answers [ans]. *)
Fixpoint requests {A} (p : Patt1.Prog A) (ans : Patt1.Answers) (np ns : nat)
    : list Request :=
  match p with
  | Patt1.Ret _ => []
  | Patt1.GetPositionData k =>
      ReqPosition :: requests (k (Patt1.positions ans np)) ans (S np) ns
  | Patt1.SendAbsPosVerif x0 y0 z0 x1 y1 z1 vel d c pat n k =>
      ReqVerifiedMove x0 y0 z0 x1 y1 z1 vel d c pat n :: requests k ans np ns
  | Patt1.HoverWDel th ts pat n k => ReqHold th ts pat n :: requests k ans np ns
  | Patt1.RandomUniform a b k =>
      ReqUniform a b :: requests (k (Patt1.samples ans ns a b)) ans np (S ns)
  end.


(* ===================================================================== *)
(** * Vocabulary of the further properties *)
(* ===================================================================== *)

(** ** The controller object *)

(** The operations that move the vehicle or log, as opposed to those that
    pair, take off, land or calibrate. *)
Definition is_motion (op : Op) : bool :=
  match op with
  | CallGetDroneCal | CallMovXyzAbs _ _ | CallMoveXyzSimple _ _
  | CallSendAbsPosWOutput _ _ _ _ _ _ _ _
  | CallSendAbsPosVerif _ _ _ _ _ _ _ _ _ _ _ | CallHoverWDel _ _ _ _
  | CallOutputPosition _ | CallPattern _ => true
  | _ => false
  end.

(** The flight state is consistent: a controller that has taken off is
    paired. *)
Definition flight_state_ok (d : DroneCalibrated) : Prop :=
  takeoff d = true -> paired d = true.

(** No [set_drone_cal] on a list long enough to reach its last line. *)
Definition no_full_set_drone_cal (op : Op) (w : World) : Prop :=
  match op with
  | CallSetDroneCal l => (List.length l < 8)%nat
  | _ => True
  end.

(** What of the controller object no calibration touches. *)
Definition flags (d : DroneCalibrated) : bool * bool * bool * Q :=
  (paired d, takeoff d, write_datafile d, dwell d).

(** A paired controller on the ground, on a vehicle that climbs. *)
Definition paired_world : World :=
  mkWorld (Options.with_paired true (Options.init false)) climbing_feeds (fun _ => O) [].

(** A computation that ends by assigning to the object, and does not touch
    it before. *)
Definition assigns_last {A} (f : DroneCalibrated -> DroneCalibrated) (m : M A) : Prop :=
  forall w, self (snd (m w)) = self w \/ self (snd (m w)) = f (self w).

(** A new controller on a vehicle that climbs, and the same after
    [drone_pair] and [drone_takeoff]. *)
Definition new_world : World :=
  mkWorld (Options.init false) climbing_feeds (fun _ => O) [].

Definition flown_world : World :=
  snd (perform 20 (CallDroneTakeoff 0.5) (snd (perform 0 CallDronePair new_world))).

(** ** Calibration *)

(** What one trial of [move_cal] sends up to its division. *)
Definition trial_commands (power_lev duration : Q) : list Command :=
  [CSetThrottle 0; CSetRoll 0; CSetPitch power_lev; CHover 2; CMove duration; CHover 2;
   CSetPitch (- power_lev); CMove duration; CHover 2].

(** ** Composite moves *)

(** A controller that writes its data file, on the quiet vehicle. *)
Definition logging_world : World :=
  mkWorld (Options.init true) quiet_feeds (fun _ => O) [].

(** The positions a computation reads for the rows it logs: [n] when the
    data file is written, none otherwise. *)
Definition logged_reads (d : DroneCalibrated) (n : nat) : nat :=
  if write_datafile d then n else O.

(** On a controller object [d], the computation returns, keeps the object,
    sends exactly [cs] and reads the position for [n] logged rows. *)
Definition returns_sending (d : DroneCalibrated) (m : M unit) (cs : list Command) (n : nat)
    : Prop :=
  forall w, self w = d ->
    exists w', m w = (Ok tt, w') /\ self w' = d /\
               commands (trace w') = commands (trace w) ++ cs /\
               reads w' ChPosition = (reads w ChPosition + logged_reads d n)%nat.

(** The targets of one cycle of [move_xyz_simple] around [(x0, y0, z0)]. *)
Definition simple_cycle (x0 y0 z0 dist velocity : Q) : list Command :=
  [target_command (x0 + dist) y0 z0 velocity; target_command (x0 - dist) y0 z0 velocity;
   target_command x0 y0 z0 velocity;
   target_command x0 (y0 + dist) z0 velocity; target_command x0 (y0 - dist) z0 velocity;
   target_command x0 y0 z0 velocity;
   target_command x0 y0 (z0 + dist) velocity; target_command x0 y0 (z0 - dist) velocity;
   target_command x0 y0 z0 velocity].

(** The commands of one call of [send_abs_pos_w_output]. *)
Definition segment_commands (x0 y0 z0 x1 y1 z1 velocity : Q) : list Command :=
  let n := planned_segments x0 y0 z0 x1 y1 z1 velocity in
  map (segment_command x0 y0 z0 x1 y1 z1 velocity n) (range n).

(** The commands of one cycle of [mov_xyz_abs] around [(x0, y0, z0)]: on
    each axis out, across and back, with a hover after the first two. *)
Definition abs_cycle (x0 y0 z0 movement_lim velocity : Q) : list Command :=
  let z1 := fadd z0 movement_lim in
  let z2 := fsub z0 movement_lim in
  let y1 := fadd y0 movement_lim in
  let y2 := fsub y0 movement_lim in
  let x1 := fadd x0 movement_lim in
  let x2 := fsub x0 movement_lim in
  segment_commands x0 y0 z0 x0 y0 z1 velocity ++ [CHover 1] ++
  segment_commands x0 y0 z1 x0 y0 z2 velocity ++ [CHover 1] ++
  segment_commands x0 y0 z2 x0 y0 z0 velocity ++
  segment_commands x0 y0 z0 x0 y1 z0 velocity ++ [CHover 1] ++
  segment_commands x0 y1 z0 x0 y2 z0 velocity ++ [CHover 1] ++
  segment_commands x0 y2 z0 x0 y0 z0 velocity ++
  segment_commands x0 y0 z0 x1 y0 z0 velocity ++ [CHover 1] ++
  segment_commands x1 y0 z0 x2 y0 z0 velocity ++ [CHover 1] ++
  segment_commands x2 y0 z0 x0 y0 z0 velocity.

(** How many segment commands one cycle holds: all its commands but the
    six hovers. *)
Definition abs_cycle_segments (x0 y0 z0 movement_lim velocity : Q) : nat :=
  (List.length (abs_cycle x0 y0 z0 movement_lim velocity) - 6)%nat.

(** ** Pattern Generators *)

(** Every draw of [random.uniform(a, b)] lies between [a] and [b]. *)
Definition draws_in_range (ans : Patt1.Answers) : Prop :=
  forall k a b, a <= b -> a <= Patt1.samples ans k a b /\ Patt1.samples ans k a b <= b.

(** The largest step a walk can sample on each axis, and what that takes:
    maxima that are not negative, and a cosine and a sine within [-1, 1]. *)
Definition step_bound (v : Walk) : Q * Q * Q :=
  match v with
  | UniformXYZ max_xyz => max_xyz
  | Spherical _ _ _ max_r => (max_r, max_r, max_r)
  end.

Definition walk_well_formed (v : Walk) : Prop :=
  match v with
  | UniformXYZ (max_x, max_y, max_z) => 0 <= max_x /\ 0 <= max_y /\ 0 <= max_z
  | Spherical cos sin pi max_r =>
      0 <= max_r /\ forall t, Qabs (cos t) <= 1 /\ Qabs (sin t) <= 1
  end.

(** The move displaces the vehicle by at most [b] on each axis. *)
Definition step_within (b : Q * Q * Q) (m : Patt1.Move) : Prop :=
  let '(bx, by_, bz) := b in
  Qabs (Patt1.to_x m - Patt1.from_x m) <= bx /\
  Qabs (Patt1.to_y m - Patt1.from_y m) <= by_ /\
  Qabs (Patt1.to_z m - Patt1.from_z m) <= bz.

(** What the rounding of the product [0.75 * z0], and of a sum or a
    difference with it, can add to a factor of [z0]. *)
Definition sweep_rounding : Q := 1 # 2 ^ 51.

(** A vehicle that hovers at the height 0.4. *)
Definition low_hover_answers : Patt1.Answers :=
  Patt1.mkAnswers (fun _ => (0, 0, 0, binary64 0.4)) middle_draw.

(** The move starts and ends at a height between [lo] and [hi]. *)
Definition height_between (lo hi : Q) (m : Patt1.Move) : Prop :=
  (lo <= Patt1.from_z m /\ Patt1.from_z m <= hi) /\
  (lo <= Patt1.to_z m /\ Patt1.to_z m <= hi).

(** [P] holds of every request the pattern can make, whatever it is
    answered. *)
Fixpoint always {A} (P : Request -> Prop) (p : Patt1.Prog A) : Prop :=
  match p with
  | Patt1.Ret _ => True
  | Patt1.GetPositionData k => P ReqPosition /\ forall r, always P (k r)
  | Patt1.SendAbsPosVerif x0 y0 z0 x1 y1 z1 vel d c pat n k =>
      P (ReqVerifiedMove x0 y0 z0 x1 y1 z1 vel d c pat n) /\ always P k
  | Patt1.HoverWDel th ts pat n k => P (ReqHold th ts pat n) /\ always P k
  | Patt1.RandomUniform a b k => P (ReqUniform a b) /\ forall r, always P (k r)
  end.

(** A verified move at speed [vel], with minimum delay [delay] and the
    default completion fraction; a hold of [hold] seconds. *)
Definition as_asked (vel delay hold : Q) (r : Request) : Prop :=
  match r with
  | ReqVerifiedMove _ _ _ _ _ _ v d c _ _ =>
      v = vel /\ d = delay /\ c = Options.default_complete
  | ReqHold t_hover t_sleep _ _ => t_hover + t_sleep == hold
  | _ => True
  end.

(** The six patterns called with speed [vel] and delay [delay], and how
    long each holds between two moves. *)
Inductive pattern_call (vel delay : Q) : Q -> Patt1.Prog unit -> Prop :=
| call_x (del_x : Q) (repeats : Z) :
    pattern_call vel delay 3 (Patt1.move_x_simple del_x vel delay repeats)
| call_y (del_y : Q) (repeats : Z) :
    pattern_call vel delay 3 (Patt1.move_y_simple del_y vel delay repeats)
| call_z (del_z : Q) (repeats : Z) :
    pattern_call vel delay 3 (Patt1.move_z_simple del_z vel delay repeats)
| call_yz (del_y del_z : Q) (repeats : Z) (write_note : bool) :
    pattern_call vel delay 3 (Patt1.move_yz_simple del_y del_z vel delay repeats write_note)
| call_random_limits (cos sin : Q -> Q) (pi max_r : Q) (limits : Patt1.Limits)
    (segments : Z) (write_note : bool) :
    pattern_call vel delay 2
      (Patt1.move_random_limits cos sin pi max_r limits vel delay segments write_note)
| call_random_xyz (max_xyz : Q * Q * Q) (limits : Patt1.Limits) (num_segs : Z)
    (write_note : bool) :
    pattern_call vel delay 2
      (Patt1.move_random_xyz max_xyz limits vel delay num_segs write_note).

(** An absolute-position command with heading and rotation 0. *)
Definition is_position_command (c : Command) : Prop :=
  match c with
  | CSendAbsolutePosition _ _ _ _ heading rot => heading = 0 /\ rot = 0
  | _ => False
  end.

(** ** The data file *)

(** The rows of a trace, in order. *)
Definition rows (t : list Event) : list (list Cell) :=
  flat_map (fun e => match e with WriteRow row => [row] | _ => [] end) t.

(** On a controller that does not log, the computation writes no row and
    leaves the controller not logging, however it ends. *)
Definition writes_nothing {A} (m : M A) : Prop :=
  forall w, write_datafile (self w) = false ->
    write_datafile (self (snd (m w))) = false /\
    rows (trace (snd (m w))) = rows (trace w).

(** ** The main programs *)

(** What [main] of [drone_flight_patt1.py] sends between takeoff and
    landing: positions, and the 3 s hover that ends the takeoff. *)
Definition in_flight_command (c : Command) : Prop :=
  is_position_command c \/ c = CHover 3.

(** What [option_select] makes of one line of the keyboard: a selection
    from 1 to 7, a line it asks again for, or a line that [isdigit] lets
    through and [int] does not convert. *)
Inductive LineClass : Type :=
| Accepted (selected : Z)
| Rejected
| NotANumber.

Definition classify (s : string) : LineClass :=
  if OptionsMain.isdigit s then
    if forallb OptionsMain.is_decimal (list_ascii_of_string s) then
      let n := OptionsMain.decimal_value s in
      if (1 <=? n)%Z && (n <=? 7)%Z then Accepted n else Rejected
    else NotANumber
  else Rejected.

(** The two worlds differ by console output only. *)
Definition only_printed (w w' : World) : Prop :=
  self w' = self w /\ feeds w' = feeds w /\ reads w' = reads w /\
  commands (trace w') = commands (trace w) /\ rows (trace w') = rows (trace w).

(** The menu and the prompt. *)
Definition menu : M unit :=
  OptionsMain.display_menu ;; print "Select option (1 - 7): " [].

(** One round of a session: the menu, then the method selected, if any. *)
Definition menu_round (fuel : nat) (selected : Z) : M unit :=
  menu ;;
  match OptionsMain.dispatch fuel selected with
  | Some method => method
  | None => ret tt
  end.

(** A session of [main] of [drone_flight_options.py] in which the
    methods of [selections] are called, in order: the data file is opened
    if [-f] is given, the controller is built, the menu is shown once, and
    then once more before each method. *)
Definition session (fuel : nat) (argv : list string) (selections : list Z) : M unit :=
  write_datafile <- Patt1Main.open_datafile argv "drone_path" ;;
  Main.new_drone_calibrated write_datafile ;;
  menu ;;
  for_each selections (menu_round fuel).

(** A keyboard on which the digits 2, 1, 2, 6, 7 are typed, and then 7
    for ever. *)
Definition typed_keyboard : OptionsMain.Keyboard :=
  fun n => match n with
           | 0%nat => "2" | 1%nat => "1" | 2%nat => "2" | 3%nat => "6" | _ => "7"
           end%string.
(* ===================================================================== *)
(** * Properties *)
(* ===================================================================== *)

(** ** Running computations *)

Lemma commands_app (t u : list Event) : commands (t ++ u) = commands t ++ commands u.
Proof. unfold commands. now rewrite flat_map_app. Qed.

Lemma bind_ok {A B} (m : M A) (k : A -> M B) (w w1 : World) (a : A) :
  m w = (Ok a, w1) -> bind m k w = k a w1.
Proof. intros H. unfold bind. now rewrite H. Qed.

Lemma bind_raise {A B} (m : M A) (k : A -> M B) (w w1 : World) (e : PyExn) :
  m w = (Raise e, w1) -> bind m k w = (Raise e, w1).
Proof. intros H. unfold bind. now rewrite H. Qed.

Lemma while_unfold {S} (fuel : nat) (cond : S -> bool) (body : S -> M S) (s : S) :
  while (Datatypes.S fuel) cond body s =
  if cond s then bind (body s) (while fuel cond body) else ret s.
Proof. reflexivity. Qed.

(** ** Polling loops *)

Lemma while_done {S} (fuel : nat) (cond : S -> bool) (body : S -> M S) (s : S) :
  cond s = false -> while fuel cond body s = ret s.
Proof. intros H. destruct fuel; simpl; now rewrite H. Qed.

Section PollingLoop.
Context {S : Type}.
Variables (cond : S -> bool) (body : S -> M S).

(** [Inv j s w]: the locals and the world after [j] passes.  [stop j]: what
    pass [j] (from 0) computed lets the loop end. *)
Variable Inv : nat -> S -> World -> Prop.
Variable stop : nat -> Prop.

Hypothesis body_run :
  forall j s w, Inv j s w -> cond s = true ->
    exists s' w', body s w = (Ok s', w') /\ Inv (Datatypes.S j) s' w'.
Hypothesis cond_stop :
  forall j s w, Inv (Datatypes.S j) s w -> (cond s = false <-> stop j).

(** A loop whose passes all return ends after the first pass that lets it
    end, and is cut if none does within the budget. *)
Lemma while_first_stop (fuel : nat) :
  forall j s w, Inv j s w -> cond s = true ->
    match while fuel cond body s w with
    | (Ok s', w') =>
        exists k, (j <= k < j + fuel)%nat /\ stop k /\
          (forall i, (j <= i < k)%nat -> ~ stop i) /\ Inv (Datatypes.S k) s' w'
    | (OutOfFuel, w') =>
        (forall i, (j <= i < j + fuel)%nat -> ~ stop i) /\
        exists s', Inv (j + fuel) s' w'
    | (Raise _, _) => False
    end.
Proof.
  induction fuel as [|fuel IH]; intros j s w HI Hc.
  - simpl. rewrite Hc. unfold out_of_fuel. split; [intros i Hi; lia|].
    exists s. now rewrite Nat.add_0_r.
  - rewrite while_unfold, Hc.
    destruct (body_run j s w HI Hc) as (s1 & w1 & Hrun & HI1).
    rewrite (bind_ok _ _ _ _ _ Hrun).
    destruct (cond s1) eqn:Hc1.
    + assert (Hnot : ~ stop j).
      { intros Hs. apply (cond_stop j s1 w1 HI1) in Hs. congruence. }
      specialize (IH (Datatypes.S j) s1 w1 HI1 Hc1).
      destruct (while fuel cond body s1 w1) as [[s' | e |] w'].
      * destruct IH as (k & Hk & Hstop & Hbefore & HIk).
        exists k. split; [lia|]. split; [assumption|]. split; [|assumption].
        intros i Hi. destruct (Nat.eq_dec i j) as [-> | Hne]; [assumption|].
        apply Hbefore. lia.
      * exact IH.
      * destruct IH as (Hbefore & s' & HI'). split.
        -- intros i Hi. destruct (Nat.eq_dec i j) as [-> | Hne]; [assumption|].
           apply Hbefore. lia.
        -- exists s'. now rewrite <- Nat.add_succ_comm.
    + rewrite (while_done _ _ _ _ Hc1). unfold ret.
      exists j. split; [lia|]. split; [now apply (cond_stop j s1 w1 HI1)|].
      split; [intros i Hi; lia | assumption].
Qed.

End PollingLoop.

Lemma repeat_snoc {A} (a : A) (n : nat) : repeat a n ++ [a] = repeat a (Datatypes.S n).
Proof. now rewrite <- repeat_cons. Qed.

(** ** Verified Move *)

Section VerifiedMove.
Variables (x0 y0 z0 x1 y1 z1 vel min_delay complete : Q).
Variables (pattern : string) (write_note : bool).

Local Abbreviation arrived := (arrived x0 y0 z0 x1 y1 z1 complete).
Local Abbreviation time_expired := (time_expired min_delay).
Local Abbreviation done_at := (done_at x0 y0 z0 x1 y1 z1 min_delay complete).
Local Abbreviation target_command := (target_command x1 y1 z1 vel).

Lemma movement_complete_test_iff (f : Feeds) (n : nat) :
  (let '(_, x, y, z) := position_feed f n in
   Options.movement_complete_test x0 y0 z0 x1 y1 z1 complete x y z) = true
  <-> arrived f n.
Proof.
  unfold arrived, Options.movement_complete_test, fabs.
  destruct (position_feed f n) as [[[t x] y] z].
  rewrite !andb_true_iff, !Qle_bool_iff. tauto.
Qed.

(** One pass of the loop body: what it reads, sends and computes. *)
Lemma verif_body_run (start_time : Q) (v : Options.VerifVars) (w : World) :
  exists w' te mc,
    Options.verif_body x0 y0 z0 x1 y1 z1 vel min_delay complete pattern write_note
      start_time v w = (Ok (te, mc, (snd v + 1)%Z), w') /\
    (te = true <-> time_expired (feeds w) start_time (reads w ChTime)) /\
    (mc = true <-> arrived (feeds w) (reads w ChPosition)) /\
    self w' = self w /\ feeds w' = feeds w /\
    reads w' ChPosition = S (reads w ChPosition) /\
    reads w' ChTime = S (reads w ChTime) /\
    commands (trace w') = commands (trace w) ++ [target_command].
Proof.
  destruct v as [[te0 mc0] it].
  pose proof (movement_complete_test_iff (feeds w) (reads w ChPosition)) as Hm.
  unfold arrived in *.
  unfold Options.verif_body, Options.send_absolute_position, Options.drone,
    Options.get_position_data, Options.write_poll_row, Options.date_time_str,
    datetime_now, time_time, writerow, when, get_self, ask, emit, bind, ret; simpl.
  destruct (position_feed (feeds w) (reads w ChPosition)) as [[[t x] y] z].
  cbn.
  destruct (write_datafile (self w)) eqn:E; cbn;
    (eexists; eexists; eexists; split; [reflexivity|]); cbn;
    rewrite ?commands_app; simpl; rewrite ?app_nil_r;
    (split; [unfold time_expired; apply Qle_bool_iff|]);
    (split; [exact Hm|]); repeat split; reflexivity.
Qed.

Lemma verif_cond_false (te mc : bool) (it : Z) :
  Options.verif_cond (te, mc, it) = false <-> te = true /\ mc = true.
Proof. unfold Options.verif_cond. destruct te, mc; simpl; intuition congruence. Qed.

(** The loop from a state in which its test holds: it ends on the first
    pass that finds the delay passed and the move complete, and on no
    other. *)
Lemma verif_loop_run (start_time : Q) (fuel : nat) (v : Options.VerifVars) (w : World) :
  Options.verif_cond v = true ->
  let f := feeds w in
  let np := reads w ChPosition in
  let nt := reads w ChTime in
  match while fuel Options.verif_cond
          (Options.verif_body x0 y0 z0 x1 y1 z1 vel min_delay complete pattern
             write_note start_time) v w with
  | (Ok _, w') =>
      exists k, (k < fuel)%nat /\
        done_at f start_time (np + k) (nt + k) /\
        (forall j, (j < k)%nat -> ~ done_at f start_time (np + j) (nt + j)) /\
        self w' = self w /\ feeds w' = f /\
        reads w' ChPosition = (np + S k)%nat /\
        reads w' ChTime = (nt + S k)%nat /\
        commands (trace w') = commands (trace w) ++ repeat target_command (S k)
  | (OutOfFuel, w') =>
      (forall j, (j < fuel)%nat -> ~ done_at f start_time (np + j) (nt + j)) /\
      commands (trace w') = commands (trace w) ++ repeat target_command fuel
  | (Raise _, _) => False
  end.
Proof.
  intros Hc f np nt.
  pose (Inv := fun (j : nat) (v' : Options.VerifVars) (w' : World) =>
    self w' = self w /\ feeds w' = f /\
    reads w' ChPosition = (np + j)%nat /\ reads w' ChTime = (nt + j)%nat /\
    commands (trace w') = commands (trace w) ++ repeat target_command j /\
    match j with
    | O => True
    | S i => (fst (fst v') = true <-> time_expired f start_time (nt + i)) /\
             (snd (fst v') = true <-> arrived f (np + i))
    end).
  pose (stop := fun i : nat => done_at f start_time (np + i) (nt + i)).
  assert (Hbody : forall j s w', Inv j s w' -> Options.verif_cond s = true ->
            exists s' w'',
              Options.verif_body x0 y0 z0 x1 y1 z1 vel min_delay complete pattern
                write_note start_time s w' = (Ok s', w'') /\ Inv (S j) s' w'').
  { intros j s w' (Hs & Hf & Hp & Ht & Hcmd & _) _.
    destruct (verif_body_run start_time s w')
      as (w'' & te & mc & Hrun & Hte & Hmc & Hs' & Hf' & Hp' & Ht' & Hcmd').
    exists (te, mc, (snd s + 1)%Z), w''. split; [exact Hrun|].
    rewrite Hf, Hp, Ht in *. unfold Inv. cbn [fst snd].
    split; [congruence|]. split; [congruence|].
    split; [rewrite Hp'; lia|]. split; [rewrite Ht'; lia|].
    split; [|split; assumption].
    rewrite Hcmd', Hcmd, <- app_assoc, repeat_snoc. reflexivity. }
  assert (Hstop : forall j s w', Inv (S j) s w' ->
            (Options.verif_cond s = false <-> stop j)).
  { intros j [[te mc] it] w' (_ & _ & _ & _ & _ & Hte & Hmc). cbn [fst snd] in *.
    rewrite verif_cond_false. unfold stop, done_at. tauto. }
  assert (H0 : Inv O v w).
  { unfold Inv. rewrite app_nil_r, !Nat.add_0_r. repeat split. }
  pose proof (while_first_stop Options.verif_cond _ Inv stop Hbody Hstop fuel O v w H0 Hc)
    as H.
  destruct (while fuel _ _ v w) as [[v' | e |] w'].
  - destruct H as (k & Hk & Hdone & Hbefore & Hs & Hf & Hp & Ht & Hcmd & _).
    exists k. split; [lia|]. split; [exact Hdone|].
    split; [intros j Hj; apply Hbefore; lia|].
    repeat (split; [assumption|]). assumption.
  - exact H.
  - destruct H as (Hbefore & s' & _ & _ & _ & _ & Hcmd & _).
    split; [intros j Hj; apply Hbefore; lia | exact Hcmd].
Qed.

End VerifiedMove.

(** C1.  [send_abs_pos_verif] starts by reading the clock and then runs
    its loop.  It returns exactly when some pass [k] (counted from 1, within
    the iteration budget) is the first on which both tests hold at once:
    the clock read on that pass is at least [min_delay] after the start,
    and the position read on that pass is, on each of the three axes, at
    least [complete] times the intended displacement away from the start.
    Up to then every pass sent the absolute-position command toward the
    target and polled the position once; it raises nothing, and it runs out
    of budget only if no pass within the budget found both tests true.  An
    axis whose start and target coincide passes its test whatever the
    reading. *)
Theorem send_abs_pos_verif_returns_on_first_done :
  (forall (fuel : nat) (x0 y0 z0 x1 y1 z1 vel min_delay complete : Q) (pattern : string)
          (write_note : bool) (w : World),
    let f := feeds w in
    let np := reads w ChPosition in
    let nt := reads w ChTime in
    let cmd := target_command x1 y1 z1 vel in
    let done i :=
      done_at x0 y0 z0 x1 y1 z1 min_delay complete f (time_feed f nt)
        (np + Nat.pred i) (nt + i) in
    match Options.send_abs_pos_verif fuel x0 y0 z0 x1 y1 z1 vel min_delay complete
            pattern write_note w with
    | (Ok _, w') =>
        exists k, (1 <= k <= fuel)%nat /\ done k /\
          (forall i, (1 <= i < k)%nat -> ~ done i) /\
          commands (trace w') = commands (trace w) ++ repeat cmd k /\
          reads w' ChPosition = (np + k)%nat /\
          self w' = self w
    | (OutOfFuel, w') =>
        (forall i, (1 <= i <= fuel)%nat -> ~ done i) /\
        commands (trace w') = commands (trace w) ++ repeat cmd fuel
    | (Raise _, _) => False
    end)
  /\
  (forall complete a b : Q, complete * Qabs (a - a) <= Qabs (b - a)).
Proof.
  split.
  - intros. unfold Options.send_abs_pos_verif.
    set (w1 := mkWorld (self w) (feeds w) (bump ChTime (reads w)) (trace w)).
    assert (Hstart : time_time w = (Ok (time_feed f nt), w1)) by reflexivity.
    rewrite (bind_ok _ _ _ _ _ Hstart).
    pose proof (verif_loop_run x0 y0 z0 x1 y1 z1 vel min_delay complete pattern
                  write_note (time_feed f nt) fuel (false, false, 0%Z) w1 eq_refl) as H.
    cbv zeta in H. unfold bind.
    change (feeds w1) with f in H. change (self w1) with (self w) in H.
    change (trace w1) with (trace w) in H.
    change (reads w1 ChPosition) with np in H.
    change (reads w1 ChTime) with (S nt) in H.
    destruct (while fuel _ _ _ w1) as [[v' | e |] w'].
    + destruct H as (k & Hk & Hdone & Hbefore & Hs & Hf & Hp & Ht & Hc).
      exists (S k). subst done. cbn [Nat.pred].
      rewrite <- Nat.add_succ_comm.
      split; [lia|]. split; [assumption|]. split.
      { intros i Hi. destruct i as [|i]; [lia|]. cbn [Nat.pred].
        rewrite <- Nat.add_succ_comm. apply Hbefore. lia. }
      split; [assumption|]. split; [rewrite Hp; lia | assumption].
    + exact H.
    + destruct H as [Hbefore Hc]. split; [|assumption].
      intros i Hi. subst done. destruct i as [|i]; [lia|]. cbn [Nat.pred].
      rewrite <- Nat.add_succ_comm. apply Hbefore. lia.
  - intros complete a b.
    assert (E : complete * Qabs (a - a) == 0).
    { assert (E0 : a - a == 0) by ring. rewrite E0. simpl. ring. }
    rewrite E. apply Qabs_nonneg.
Qed.

(** ** Calibration Estimator *)


Lemma div_nonzero (a b : Q) : ~ b == 0 -> div a b = ret (a / b).
Proof.
  intros H. unfold div. destruct (Qeq_bool b 0) eqn:E; [|reflexivity].
  apply Qeq_bool_iff in E. contradiction.
Qed.

Lemma div_zero (a b : Q) : b == 0 -> div a b = raise ZeroDivisionError.
Proof. intros H. unfold div. apply Qeq_bool_iff in H. now rewrite H. Qed.

Ltac destruct_feed :=
  match goal with
  | |- context [position_feed ?f ?n] =>
      destruct (position_feed f n) as [[[? ?] ?] ?] eqn:?
  end.

(** One calibration trial: three position reads; it appends the ratio of
    the forward to the backward displacement, or stops on the division
    when the backward one is zero.  It does not touch [self]. *)
Lemma cal_trial_run (power_lev duration : Q) (l : list Q) (w : World) :
  let y n := feed_y (feeds w) (reads w ChPosition + n) in
  exists w',
    self w' = self w /\ feeds w' = feeds w /\
    reads w' ChPosition = (reads w ChPosition + 3)%nat /\
    Options.cal_trial power_lev duration l w =
      (if Qeq_bool (y 2%nat - y 1%nat) 0 then Raise ZeroDivisionError
       else Ok (l ++ [(y 1%nat - y 0%nat) / (y 2%nat - y 1%nat)]), w').
Proof.
  cbv zeta. unfold feed_y. rewrite Nat.add_0_r.
  replace (reads w ChPosition + 1)%nat with (S (reads w ChPosition)) by lia.
  replace (reads w ChPosition + 2)%nat with (S (S (reads w ChPosition))) by lia.
  unfold Options.cal_trial, Options.drone, Options.get_position_data, print, time_sleep,
    ask, emit, bind, ret, div, raise; cbn.
  repeat (destruct_feed; cbn).
  match goal with |- context [Qeq_bool ?a 0] => destruct (Qeq_bool a 0) end; cbn;
    (eexists; split; [|split; [|split; [|reflexivity]]]); cbn; try reflexivity; lia.
Qed.

Lemma range_2 : range 2 = [0%Z; 1%Z].
Proof. reflexivity. Qed.

(** The two trials of [move_cal] on a feed whose backward displacements
    are not zero. *)
Lemma cal_trials_run (power_lev duration : Q) (w : World) :
  let y n := feed_y (feeds w) (reads w ChPosition + n) in
  ~ y 2%nat - y 1%nat == 0 ->
  ~ y 5%nat - y 4%nat == 0 ->
  exists w',
    self w' = self w /\ feeds w' = feeds w /\
    for_fold (range 2) (fun _ => Options.cal_trial power_lev duration) [] w =
      (Ok [(y 1%nat - y 0%nat) / (y 2%nat - y 1%nat);
           (y 4%nat - y 3%nat) / (y 5%nat - y 4%nat)], w').
Proof.
  cbv zeta. intros H1 H2. rewrite range_2. cbn [for_fold].
  destruct (cal_trial_run power_lev duration [] w) as (w1 & Hs1 & Hf1 & Hp1 & Hr1).
  cbv zeta in Hr1.
  destruct (Qeq_bool _ 0) eqn:E1 in Hr1; [apply Qeq_bool_iff in E1; contradiction|].
  rewrite (bind_ok _ _ _ _ _ Hr1).
  destruct (cal_trial_run power_lev duration
              ([] ++ [(feed_y (feeds w) (reads w ChPosition + 1) -
                       feed_y (feeds w) (reads w ChPosition + 0)) /
                      (feed_y (feeds w) (reads w ChPosition + 2) -
                       feed_y (feeds w) (reads w ChPosition + 1))]) w1)
    as (w2 & Hs2 & Hf2 & Hp2 & Hr2).
  cbv zeta in Hr2. rewrite Hf1, Hp1 in Hr2.
  replace (reads w ChPosition + 3 + 0)%nat with (reads w ChPosition + 3)%nat in Hr2 by lia.
  replace (reads w ChPosition + 3 + 1)%nat with (reads w ChPosition + 4)%nat in Hr2 by lia.
  replace (reads w ChPosition + 3 + 2)%nat with (reads w ChPosition + 5)%nat in Hr2 by lia.
  destruct (Qeq_bool _ 0) eqn:E2 in Hr2; [apply Qeq_bool_iff in E2; contradiction|].
  rewrite (bind_ok _ _ _ _ _ Hr2).
  exists w2. unfold ret. cbn [app].
  split; [congruence|]. split; [congruence|]. reflexivity.
Qed.

(** [set_drone_cal] on a list of six: the six assignments are made, the
    read of index 6 raises, and the flag is not reached. *)
Lemma set_drone_cal_six (a0 a1 a2 a3 a4 a5 : Q) (w : World) :
  Options.set_drone_cal [a0; a1; a2; a3; a4; a5] w =
  (Raise IndexError,
   mkWorld
     (Options.with_throttle_d a5 (Options.with_throttle_u a4 (Options.with_roll_l a3
        (Options.with_roll_r a2 (Options.with_pitch_b a1
           (Options.with_pitch_f a0 (self w)))))))
     (feeds w) (reads w) (trace w)).
Proof. reflexivity. Qed.

(** [move_cal] where its precondition fails: one console line. *)
Lemma move_cal_illegal_run (power_lev duration : Q) (w : World) :
  paired (self w) && takeoff (self w) = false ->
  Options.move_cal power_lev duration w =
    (Ok tt,
     mkWorld (self w) (feeds w) (reads w)
       (trace w ++
        [Print "The drone must be paired, and must have taken off, before calibration."
           []])).
Proof. intros H. unfold Options.move_cal, get_self, bind. rewrite H. reflexivity. Qed.

(** C8.  Called while not (paired and taken off), [move_cal] prints that
    the operation is illegal and does nothing else: it returns normally,
    the trace gains that one console line and no vehicle command, no
    telemetry is read, and [self] (the eight factors and the [calibrated]
    flag with it) is unchanged. *)
Theorem move_cal_not_airborne_is_noop (power_lev duration : Q) (w : World) :
  paired (self w) && takeoff (self w) = false ->
  Options.move_cal power_lev duration w =
    (Ok tt,
     mkWorld (self w) (feeds w) (reads w)
       (trace w ++
        [Print "The drone must be paired, and must have taken off, before calibration."
           []]))
  /\ commands (trace (snd (Options.move_cal power_lev duration w))) = commands (trace w).
Proof.
  intros H. pose proof (move_cal_illegal_run power_lev duration w H) as E.
  split; [exact E|]. rewrite E. cbn [snd trace]. rewrite commands_app. cbn.
  now rewrite app_nil_r.
Qed.

Lemma move_cal_not_airborne_is_noop_witness :
  fst (Options.move_cal 20 2 fresh_world) = Ok tt /\
  self (snd (Options.move_cal 20 2 fresh_world)) = Options.init false.
Proof.
  destruct (move_cal_not_airborne_is_noop 20 2 fresh_world eq_refl) as [E _].
  rewrite E. split; reflexivity.
Defined.

(** C10.  Called while paired and taken off, on telemetry whose two
    backward displacements are not zero (so both trials complete),
    [move_cal] gives [set_drone_cal] a list of six values; the setter
    assigns the first six fields and raises [IndexError] on index 6, before
    the line that sets [calibrated].  So [move_cal] ends in [IndexError];
    [calibrated] keeps the value it had (False unless an earlier
    [set_drone_cal] on eight values set it); [pitch_f] is 1, [pitch_b] the
    mean of the two ratios; the roll and throttle factors are 0.0, the
    mean of their empty trial lists; the yaw factors are untouched. *)
Theorem move_cal_ends_in_index_error (power_lev duration : Q) (w : World) :
  let y n := feed_y (feeds w) (reads w ChPosition + n) in
  paired (self w) && takeoff (self w) = true ->
  ~ y 2%nat - y 1%nat == 0 ->
  ~ y 5%nat - y 4%nat == 0 ->
  exists w',
    Options.move_cal power_lev duration w = (Raise IndexError, w') /\
    calibrated (self w') = calibrated (self w) /\
    (calibrated (self w) = false -> calibrated (self w') = false) /\
    pitch_f (self w') == 1 /\
    pitch_b (self w') ==
      ((y 1%nat - y 0%nat) / (y 2%nat - y 1%nat) +
       (y 4%nat - y 3%nat) / (y 5%nat - y 4%nat)) / 2 /\
    roll_r (self w') == 0 /\ roll_l (self w') == 0 /\
    throttle_u (self w') == 0 /\ throttle_d (self w') == 0 /\
    yaw_cw (self w') = yaw_cw (self w) /\ yaw_ccw (self w') = yaw_ccw (self w).
Proof.
  cbv zeta. intros Hpre H1 H2.
  destruct (cal_trials_run power_lev duration w H1 H2) as (w2 & Hs & Hf & Hrun).
  unfold Options.move_cal, get_self. unfold bind at 1. rewrite Hpre. cbn [negb].
  rewrite (bind_ok _ _ _ _ _ Hrun).
  unfold print, emit, div, bind, ret.
  cbn -[Qdiv Qplus Qminus Qmult sum].
  eexists. split; [reflexivity|].
  cbn -[Qdiv Qplus Qminus Qmult sum]. rewrite Hs.
  split; [reflexivity|]. split; [auto|]. split; [reflexivity|].
  split; [unfold sum; cbn [fold_left]; change (inject_Z 2) with 2; unfold Qdiv; ring|].
  repeat (split; [reflexivity|]). reflexivity.
Qed.


Lemma move_cal_ends_in_index_error_witness :
  exists w',
    Options.move_cal 20 2 there_and_back_world = (Raise IndexError, w') /\
    calibrated (self w') = false /\ roll_r (self w') == 0.
Proof.
  destruct (move_cal_ends_in_index_error 20 2 there_and_back_world)
    as (w' & E & Hc & _ & _ & _ & Hr & _).
  - reflexivity.
  - vm_compute. discriminate.
  - vm_compute. discriminate.
  - exists w'. split; [exact E|]. split; [rewrite Hc; reflexivity | exact Hr].
Defined.

(** The trials of [move_cal] on a feed with a zero backward displacement:
    the division of that trial raises, and [self] is as it was. *)
Lemma cal_trials_zero_run (power_lev duration : Q) (w : World) :
  let y n := feed_y (feeds w) (reads w ChPosition + n) in
  y 2%nat - y 1%nat == 0 \/ (~ y 2%nat - y 1%nat == 0 /\ y 5%nat - y 4%nat == 0) ->
  exists w',
    self w' = self w /\
    for_fold (range 2) (fun _ => Options.cal_trial power_lev duration) [] w =
      (Raise ZeroDivisionError, w').
Proof.
  cbv zeta. intros H. rewrite range_2. cbn [for_fold].
  destruct (cal_trial_run power_lev duration [] w) as (w1 & Hs1 & Hf1 & Hp1 & Hr1).
  cbv zeta in Hr1.
  destruct H as [H | [H1 H2]].
  - apply Qeq_bool_iff in H. rewrite H in Hr1.
    rewrite (bind_raise _ _ _ _ _ Hr1). now exists w1.
  - destruct (Qeq_bool _ 0) eqn:E1 in Hr1; [apply Qeq_bool_iff in E1; contradiction|].
    rewrite (bind_ok _ _ _ _ _ Hr1).
    match goal with |- context [Options.cal_trial _ _ ?l] =>
      destruct (cal_trial_run power_lev duration l w1) as (w2 & Hs2 & Hf2 & Hp2 & Hr2)
    end.
    cbv zeta in Hr2. rewrite Hf1, Hp1 in Hr2.
    replace (reads w ChPosition + 3 + 1)%nat with (reads w ChPosition + 4)%nat in Hr2 by lia.
    replace (reads w ChPosition + 3 + 2)%nat with (reads w ChPosition + 5)%nat in Hr2 by lia.
    apply Qeq_bool_iff in H2. rewrite H2 in Hr2.
    rewrite (bind_raise _ _ _ _ _ Hr2). exists w2. split; [congruence | reflexivity].
Qed.

(** [move_cal] on a zero backward displacement: the division raises and
    [self] is as it was. *)
Lemma move_cal_zero_run (power_lev duration : Q) (w : World) :
  paired (self w) && takeoff (self w) = true ->
  zero_back_displacement w ->
  exists w',
    Options.move_cal power_lev duration w = (Raise ZeroDivisionError, w') /\
    self w' = self w.
Proof.
  intros Hpre H.
  destruct (cal_trials_zero_run power_lev duration w H) as (w' & Hs & Hrun).
  unfold Options.move_cal, get_self. unfold bind at 1. rewrite Hpre. cbn [negb].
  rewrite (bind_raise _ _ _ _ _ Hrun). now exists w'.
Qed.

(** C3, as the code has it.  [move_cal] has no guard on the backward
    displacement.  Called while paired and taken off, on telemetry whose
    first or second trial measures a backward displacement of zero, it
    evaluates [delta_y_forward / delta_y_back] and ends in Python's
    [ZeroDivisionError] at that trial; it stops before the profile is
    assigned, so the eight factors and the [calibrated] flag are unchanged
    and no factor computed from a zero denominator is stored. *)
Theorem move_cal_zero_back_raises_zero_division (power_lev duration : Q) (w : World) :
  let y n := feed_y (feeds w) (reads w ChPosition + n) in
  paired (self w) && takeoff (self w) = true ->
  y 2%nat - y 1%nat == 0 \/ (~ y 2%nat - y 1%nat == 0 /\ y 5%nat - y 4%nat == 0) ->
  exists w',
    Options.move_cal power_lev duration w = (Raise ZeroDivisionError, w') /\
    self w' = self w.
Proof.
  cbv zeta. intros Hpre H. now apply move_cal_zero_run.
Qed.

Lemma move_cal_zero_back_raises_zero_division_witness :
  exists w',
    Options.move_cal 20 2 stalled_world = (Raise ZeroDivisionError, w') /\
    self w' = self stalled_world.
Proof.
  apply (move_cal_zero_back_raises_zero_division 20 2 stalled_world).
  - reflexivity.
  - left. reflexivity.
Defined.

(** C3 as stated fails: on the stalled vehicle the first trial's backward
    displacement is zero, and [move_cal] does divide by it; what the
    caller gets is [ZeroDivisionError], the only failure the code has
    there. *)
Lemma move_cal_divides_by_zero :
  paired (self stalled_world) && takeoff (self stalled_world) = true /\
  feed_y stalled_feeds 2 - feed_y stalled_feeds 1 == 0 /\
  fst (Options.move_cal 20 2 stalled_world) = Raise ZeroDivisionError.
Proof. vm_compute. repeat split. Qed.

(** ** What a computation leaves as it is *)

Section Keeps.
Context {X : Type} (proj : World -> X).

Lemma keeps_ret {A} (a : A) : keeps proj (ret a).
Proof. intros w. reflexivity. Qed.

Lemma keeps_raise {A} (e : PyExn) : keeps proj (@raise A e).
Proof. intros w. reflexivity. Qed.

Lemma keeps_out_of_fuel {A} : keeps proj (@out_of_fuel A).
Proof. intros w. reflexivity. Qed.

Lemma keeps_bind {A B} (m : M A) (k : A -> M B) :
  keeps proj m -> (forall a, keeps proj (k a)) -> keeps proj (bind m k).
Proof.
  intros Hm Hk w. unfold bind. specialize (Hm w).
  destruct (m w) as [[a | e |] w1]; cbn [snd] in *; try assumption.
  rewrite <- Hm. apply Hk.
Qed.

Lemma keeps_fdiv (a b : Q) : keeps proj (fdiv a b).
Proof. unfold fdiv. destruct (Qeq_bool b 0); intros w; reflexivity. Qed.

Lemma keeps_when (b : bool) (m : M unit) : keeps proj m -> keeps proj (when b m).
Proof. intros H. destruct b; [exact H | apply keeps_ret]. Qed.

Lemma keeps_for_each {A} (l : list A) (body : A -> M unit) :
  (forall x, keeps proj (body x)) -> keeps proj (for_each l body).
Proof.
  intros H. induction l as [|x l IH]; cbn [for_each]; [apply keeps_ret|].
  apply keeps_bind; [apply H | intros _; exact IH].
Qed.

Lemma keeps_for_fold {A S} (l : list A) (body : A -> S -> M S) (s : S) :
  (forall x s', keeps proj (body x s')) -> keeps proj (for_fold l body s).
Proof.
  intros H. revert s. induction l as [|x l IH]; intros s; cbn [for_fold];
    [apply keeps_ret|].
  apply keeps_bind; [apply H | intros s'; apply IH].
Qed.

Lemma keeps_while {S} (fuel : nat) (cond : S -> bool) (body : S -> M S) (s : S) :
  (forall s', keeps proj (body s')) -> keeps proj (while fuel cond body s).
Proof.
  intros H. revert s. induction fuel as [|fuel IH]; intros s; cbn [while];
    destruct (cond s); try apply keeps_ret; try apply keeps_out_of_fuel.
  apply keeps_bind; [apply H | intros s'; apply IH].
Qed.

End Keeps.

Create HintDb keeps.

(** Takes a goal [keeps proj m] apart along the structure of [m]; a
    primitive effect is settled by computation. *)
Ltac keeps :=
  repeat first
    [ match goal with |- keeps _ (fdiv _ _) => apply keeps_fdiv end
    | solve [auto with keeps]
    | apply keeps_bind; [|intros]
    | apply keeps_when
    | apply keeps_for_each; intros
    | apply keeps_for_fold; intros
    | apply keeps_while; intros
    | match goal with
      | |- keeps _ (if ?b then _ else _) => destruct b
      | |- keeps _ (match ?p with _ => _ end) => destruct p
      | |- keeps _ (let '_ := ?p in _) => destruct p
      | |- keeps _ (ret _) => apply keeps_ret
      | |- keeps _ (raise _) => apply keeps_raise
      | |- keeps _ out_of_fuel => apply keeps_out_of_fuel
      | |- keeps _ (emit _) => intros ?; reflexivity
      | |- keeps _ (ask _ _) => intros ?; reflexivity
      | |- keeps _ get_self => intros ?; reflexivity
      | |- keeps _ (modify_self _) => intros ?; reflexivity
      end
    | progress unfold print, writerow, time_time, datetime_now, Py.random_uniform,
        div, sqrt, time_sleep,
        Options.drone, Options.get_position_data, Options.get_battery,
        Options.get_temperature, Options.get_trim, Options.send_absolute_position,
        Options.date_time_str, Options.write_poll_row, Options.output_position ].

Lemma keeps_send_abs_pos_verif {X} (proj : World -> X) fuel x0 y0 z0 x1 y1 z1 vel
    min_delay complete pattern write_note :
  (forall w e, proj (snd (emit e w)) = proj w) ->
  (forall A ch (feed : Feeds -> nat -> A) w, proj (snd (ask ch feed w)) = proj w) ->
  keeps proj
    (Options.send_abs_pos_verif fuel x0 y0 z0 x1 y1 z1 vel min_delay complete pattern
       write_note).
Proof.
  intros Hemit Hask.
  assert (He : forall e, keeps proj (emit e)) by (intros e w; apply Hemit).
  assert (Ha : forall A ch (feed : Feeds -> nat -> A), keeps proj (ask ch feed))
    by (intros A ch feed w; apply Hask).
  unfold Options.send_abs_pos_verif, Options.verif_body.
  repeat first
    [ apply keeps_bind; [|intros] | apply keeps_when | apply keeps_while; intros
    | apply He | apply Ha | apply keeps_ret
    | match goal with
      | |- keeps _ (let '_ := ?p in _) => destruct p
      | |- keeps _ get_self => intros ?; reflexivity
      end
    | progress unfold writerow, time_time, datetime_now, Options.drone,
        Options.get_position_data, Options.send_absolute_position,
        Options.date_time_str, Options.write_poll_row ].
Qed.

Lemma keeps_hover_w_del {X} (proj : World -> X) fuel t_hover t_sleep pattern write_note :
  (forall w e, proj (snd (emit e w)) = proj w) ->
  (forall A ch (feed : Feeds -> nat -> A) w, proj (snd (ask ch feed w)) = proj w) ->
  keeps proj (Options.hover_w_del fuel t_hover t_sleep pattern write_note).
Proof.
  intros Hemit Hask.
  assert (He : forall e, keeps proj (emit e)) by (intros e w; apply Hemit).
  assert (Ha : forall A ch (feed : Feeds -> nat -> A), keeps proj (ask ch feed))
    by (intros A ch feed w; apply Hask).
  unfold Options.hover_w_del, Options.hover_body.
  repeat first
    [ apply keeps_bind; [|intros] | apply keeps_when | apply keeps_while; intros
    | apply He | apply Ha | apply keeps_ret
    | match goal with
      | |- keeps _ (let '_ := ?p in _) => destruct p
      | |- keeps _ get_self => intros ?; reflexivity
      end
    | progress unfold writerow, time_time, datetime_now, Options.drone,
        Options.get_position_data, Options.send_absolute_position,
        Options.date_time_str, Options.write_poll_row ].
Qed.

(** ** The scale factors *)

Lemma factors_send_abs_pos_verif fuel x0 y0 z0 x1 y1 z1 vel min_delay complete pattern
    write_note :
  keeps_factors
    (Options.send_abs_pos_verif fuel x0 y0 z0 x1 y1 z1 vel min_delay complete pattern
       write_note).
Proof. apply keeps_send_abs_pos_verif; intros; reflexivity. Qed.

Lemma factors_hover_w_del fuel t_hover t_sleep pattern write_note :
  keeps_factors (Options.hover_w_del fuel t_hover t_sleep pattern write_note).
Proof. apply keeps_hover_w_del; intros; reflexivity. Qed.

#[local] Hint Resolve factors_send_abs_pos_verif factors_hover_w_del : keeps.

Lemma keeps_get_drone_cal : keeps_factors Options.get_drone_cal.
Proof. unfold Options.get_drone_cal. keeps. Qed.

Lemma keeps_drone_pair : keeps_factors Options.drone_pair.
Proof. unfold Options.drone_pair. keeps. Qed.

Lemma keeps_drone_takeoff fuel delta_z : keeps_factors (Options.drone_takeoff fuel delta_z).
Proof. unfold Options.drone_takeoff. keeps. Qed.

Lemma keeps_drone_land fuel : keeps_factors (Options.drone_land fuel).
Proof. unfold Options.drone_land. keeps. Qed.

Lemma keeps_send_abs_pos_w_output x0 y0 z0 x1 y1 z1 velocity pattern :
  keeps_factors (Options.send_abs_pos_w_output x0 y0 z0 x1 y1 z1 velocity pattern).
Proof.
  unfold Options.send_abs_pos_w_output. keeps.
Qed.

#[local] Hint Resolve keeps_send_abs_pos_w_output : keeps.

Lemma keeps_mov_xyz_abs movement_lim velocity :
  keeps_factors (Options.mov_xyz_abs movement_lim velocity).
Proof. unfold Options.mov_xyz_abs. keeps. Qed.

Lemma keeps_move_xyz_simple dist velocity :
  keeps_factors (Options.move_xyz_simple dist velocity).
Proof. unfold Options.move_xyz_simple, Options.simple_leg. keeps. Qed.

Lemma keeps_run {A} fuel (p : Patt1.Prog A) : keeps_factors (Patt1.run fuel p).
Proof.
  induction p; cbn [Patt1.run]; keeps; auto.
Qed.

Lemma factors_positive_iff (d : DroneCalibrated) :
  factors_positive d <->
  0 < pitch_f d /\ 0 < pitch_b d /\ 0 < roll_r d /\ 0 < roll_l d /\
  0 < throttle_u d /\ 0 < throttle_d d /\ 0 < yaw_cw d /\ 0 < yaw_ccw d.
Proof.
  unfold factors_positive, factors. split.
  - intros H.
    repeat (match goal with
            | H : Forall _ (_ :: _) |- _ =>
                let H1 := fresh in
                pose proof (Forall_inv H) as H1; apply Forall_inv_tail in H
            end).
    tauto.
  - intros H. repeat (apply Forall_cons; [tauto|]). apply Forall_nil.
Qed.

(** One assignment of [set_drone_cal]: [self.field = cal_param_list[i]]. *)
Lemma assign_positive (l : list Q) (i : nat)
    (f : Q -> DroneCalibrated -> DroneCalibrated) (rest : M unit) :
  (i < 8)%nat ->
  Forall (fun v => 0 < v) (firstn 8 l) ->
  (forall v d, 0 < v -> factors_positive d -> factors_positive (f v d)) ->
  keeps_positive_m rest ->
  keeps_positive_m (v <- index l i ;; modify_self (f v) ;; rest).
Proof.
  intros Hi Hl Hf Hrest w Hw. unfold bind, index, modify_self.
  destruct (nth_error l i) as [v|] eqn:E; cbn; [|exact Hw].
  apply Hrest. cbn. apply Hf; [|exact Hw].
  rewrite Forall_forall in Hl. apply Hl.
  apply nth_error_In with (n := i). rewrite nth_error_firstn.
  destruct (Nat.ltb_spec i 8); [exact E | lia].
Qed.

(** [set_drone_cal] on positive values leaves positive factors, whether
    it gets through the list or stops on a missing index. *)
Lemma set_drone_cal_positive (l : list Q) (w : World) :
  Forall (fun v => 0 < v) (firstn 8 l) ->
  factors_positive (self w) ->
  factors_positive (self (snd (Options.set_drone_cal l w))).
Proof.
  intros Hl. revert w. change (keeps_positive_m (Options.set_drone_cal l)).
  unfold Options.set_drone_cal.
  repeat (apply assign_positive;
          [lia | exact Hl
          | intros v d Hv Hd; apply factors_positive_iff in Hd;
            apply factors_positive_iff; cbn; tauto |]).
  intros w Hw. exact Hw.
Qed.

Lemma keeps_positive {A} (m : M A) (w : World) :
  keeps_factors m -> factors_positive (self w) -> factors_positive (self (snd (m w))).
Proof. unfold factors_positive, keeps. intros H Hw. now rewrite H. Qed.

(** Every operation that [positive_calibration] admits keeps the factors
    positive. *)
Lemma perform_keeps_positive (fuel : nat) (op : Op) (w : World) :
  positive_calibration op w ->
  factors_positive (self w) ->
  factors_positive (self (snd (perform fuel op w))).
Proof.
  intros Hop Hw.
  destruct op; cbn [perform positive_calibration] in *;
    try (solve [apply keeps_positive; [keeps; auto using keeps_get_drone_cal,
           keeps_drone_pair, keeps_drone_takeoff, keeps_drone_land, keeps_mov_xyz_abs,
           keeps_move_xyz_simple, keeps_run | assumption]]).
  - now apply set_drone_cal_positive.
  - destruct (paired (self w) && takeoff (self w)) eqn:Hpre.
    + destruct Hop as [Hop | Hop]; [discriminate|].
      destruct (move_cal_zero_run power_lev duration w Hpre Hop) as (w' & E & Hs).
      rewrite E. cbn [snd]. now rewrite Hs.
    + rewrite (move_cal_illegal_run power_lev duration w Hpre). exact Hw.
Qed.

(** C4, as the code has it.  The eight factors are 1.0 in a new
    controller, and only [set_drone_cal] assigns them (called by the
    user, or by [move_cal] at its end): every other public operation, a
    pattern run, and a [move_cal] that stops at its precondition or at a
    zero backward displacement, leave them as they are, and
    [set_drone_cal] on positive values stores positive values.  So the
    factors are strictly positive in every state reached by public
    operations among which [set_drone_cal] is only given positive values
    and [move_cal] does not get to its final assignment. *)
Theorem factors_positive_short_of_calibration (w : World) :
  reachable_when positive_calibration w -> factors_positive (self w).
Proof.
  induction 1 as [wd f | w fuel op Hreach IH Hop].
  - unfold factors_positive, factors. cbn. repeat constructor.
  - now apply perform_keeps_positive.
Qed.

Lemma factors_positive_short_of_calibration_witness :
  factors_positive
    (self (snd (perform 0 (CallMoveCal 20 2)
                  (snd (perform 0 (CallSetDroneCal [1; 2; 1; 1; 1; 1; 1; 1])
                          fresh_world))))).
Proof.
  apply factors_positive_short_of_calibration.
  apply reachable_step.
  - apply reachable_step.
    + exact (reachable_init positive_calibration false quiet_feeds).
    + cbn. repeat constructor.
  - left. reflexivity.
Defined.

(** C4 as stated fails.  Pair, take off, calibrate, as the menu of
    [drone_flight_options.py] offers them, on a vehicle that goes 1 m
    forward and 1 m back in each trial: the backward displacement is
    negative, so the factor stored in [pitch_b] is -1 (and the roll and
    throttle factors are 0). *)
Lemma calibration_stores_nonpositive_factor :
  reachable after_calibration /\
  pitch_b (self after_calibration) == -1 /\
  roll_r (self after_calibration) == 0 /\
  ~ factors_positive (self after_calibration).
Proof.
  split; [|split; [|split]].
  - exact (reachable_step _ _ 10 (CallMoveCal 20 2)
             (reachable_step _ _ 10 (CallDroneTakeoff 0.15)
                (reachable_step _ _ 10 CallDronePair
                   (reachable_init _ false flight_feeds) I) I) I).
  - vm_compute. reflexivity.
  - vm_compute. reflexivity.
  - unfold factors_positive, factors. intros H.
    apply Forall_inv_tail, Forall_inv in H. vm_compute in H. discriminate H.
Qed.

(** ** Numbers *)

Lemma round_zero (q : Q) : q == 0 -> round q = 0%Z.
Proof.
  intros H. unfold round.
  assert (E : Qfloor q = 0%Z) by (rewrite H; reflexivity).
  rewrite E.
  assert (E1 : q - inject_Z 0 == 0) by (rewrite H; reflexivity).
  rewrite E1. reflexivity.
Qed.

(** [round] is within a half of its argument. *)
Lemma round_close (x : Q) : Qabs (inject_Z (round x) - x) <= 1 # 2.
Proof.
  unfold round.
  pose proof (Qfloor_le x) as Hl. pose proof (Qlt_floor x) as Hu.
  rewrite inject_Z_plus in Hu.
  set (f := Qfloor x) in *.
  assert (E1 : inject_Z 1 == 1) by reflexivity.
  destruct (Qcompare (x - inject_Z f) (1 # 2)) eqn:E.
  - apply Qeq_alt in E.
    destruct (Z.even f); [|rewrite inject_Z_plus]; apply Qabs_Qle_condition; split; lra.
  - apply Qlt_alt in E. apply Qabs_Qle_condition; split; lra.
  - apply Qgt_alt in E. rewrite inject_Z_plus. apply Qabs_Qle_condition; split; lra.
Qed.

Lemma round_nonneg (x : Q) : 0 <= x -> (0 <= round x)%Z.
Proof.
  intros H. unfold round.
  assert (Hf : (0 <= Qfloor x)%Z).
  { change 0%Z with (Qfloor 0). apply Qfloor_resp_le. exact H. }
  destruct (Qcompare _ _); [destruct (Z.even _)| |]; lia.
Qed.

Lemma round_nonpos (q : Q) : q <= 0 -> (round q <= 0)%Z.
Proof.
  intros H. unfold round.
  pose proof (Qfloor_le q) as Hf. pose proof (Qlt_floor q) as Hlt.
  assert (H0 : (Qfloor q <= 0)%Z).
  { rewrite Zle_Qle. eapply Qle_trans; eassumption. }
  assert (Hup : 1 # 2 <= q - inject_Z (Qfloor q) -> (Qfloor q + 1 <= 0)%Z).
  { intros Hr. destruct (Z.eq_dec (Qfloor q) 0) as [E|E]; [|lia].
    exfalso. rewrite E in Hr. change (inject_Z 0) with 0 in Hr. lra. }
  destruct (Qcompare (q - inject_Z (Qfloor q)) (1 # 2)) eqn:E.
  - apply Qeq_alt in E. destruct (Z.even (Qfloor q)); [exact H0|].
    apply Hup. rewrite E. apply Qle_refl.
  - exact H0.
  - apply Qgt_alt in E. apply Hup. apply Qlt_le_weak. exact E.
Qed.

Lemma two_power_pos (k : Z) : 0 < 2 ^ k.
Proof. apply Qpower_0_lt. reflexivity. Qed.

(** [ilog2 q] is not above the exponent of [q]. *)
Lemma ilog2_le (q : Q) : ~ q == 0 -> 2 ^ ilog2 q <= Qabs q.
Proof.
  intros Hq. unfold ilog2.
  set (k := (Z.log2 (Z.abs (Qnum q)) - Z.log2 (Z.pos (Qden q)))%Z).
  destruct (Qle_bool (2 ^ k) (Qabs q)) eqn:E.
  - apply Qle_bool_iff. exact E.
  - destruct q as [n d]. cbn [Qnum Qden] in k.
    assert (Hn : (0 < Z.abs n)%Z).
    { destruct (Z.eq_dec n 0) as [->|]; [exfalso; apply Hq; reflexivity | lia]. }
    pose proof (Z.log2_spec _ Hn) as [Hn1 _].
    pose proof (Z.log2_spec (Z.pos d) (Pos2Z.is_pos d)) as [_ Hd2].
    pose proof (Z.log2_nonneg (Z.abs n)) as Ln.
    pose proof (Z.log2_nonneg (Z.pos d)) as Ld.
    set (ln := Z.log2 (Z.abs n)) in *. set (ld := Z.log2 (Z.pos d)) in *.
    assert (Ek : (k - 1 = ln + - (ld + 1))%Z) by (unfold k; lia).
    rewrite Ek, Qpower_plus, Qpower_opp by discriminate.
    assert (E1 : 2 ^ ln == inject_Z (2 ^ ln)) by (rewrite Zpower_Qpower by lia; reflexivity).
    assert (E2 : 2 ^ (ld + 1) == inject_Z (2 ^ (ld + 1)))
      by (rewrite Zpower_Qpower by lia; reflexivity).
    assert (P1 : 0 < inject_Z (2 ^ (ld + 1))).
    { rewrite <- E2. apply two_power_pos. }
    rewrite E1, E2.
    apply Qle_shift_div_r; [exact P1|].
    unfold Qabs, Qle, Qmult, inject_Z. cbn [Qnum Qden].
    rewrite !Z.mul_1_r, Pos.mul_1_r.
    change (Z.succ ld) with (ld + 1)%Z in Hd2. nia.
Qed.

Lemma binary64_zero (q : Q) : q == 0 -> binary64 q = 0.
Proof.
  intros H. unfold binary64. apply Qeq_bool_iff in H. rewrite H. reflexivity.
Qed.

Lemma binary64_form (q : Q) :
  ~ q == 0 ->
  binary64 q ==
  inject_Z (round (Qred q / 2 ^ (ilog2 (Qred q) - 52))) * 2 ^ (ilog2 (Qred q) - 52).
Proof.
  intros H. unfold binary64.
  destruct (Qeq_bool q 0) eqn:E; [apply Qeq_bool_iff in E; contradiction|].
  cbv zeta. apply Qred_correct.
Qed.

(** Rounding to binary64 changes a number by at most 2^-53 of itself: half
    a unit of a significand that is at least 2^52. *)
Lemma binary64_accurate (q : Q) : Qabs (binary64 q - q) <= (1 # 2 ^ 53) * Qabs q.
Proof.
  destruct (Qeq_dec q 0) as [E | N].
  - rewrite (binary64_zero _ E), E. discriminate.
  - rewrite (binary64_form _ N).
    assert (Eq' : Qred q == q) by apply Qred_correct.
    assert (N' : ~ Qred q == 0) by (rewrite Eq'; exact N).
    pose proof (ilog2_le _ N') as Hl.
    set (q' := Qred q) in *. set (e := (ilog2 q' - 52)%Z) in *.
    pose proof (two_power_pos e) as Hu.
    assert (El : 2 ^ ilog2 q' == 2 ^ e * 2 ^ 52).
    { rewrite <- Qpower_plus by discriminate. unfold e.
      replace (ilog2 q' - 52 + 52)%Z with (ilog2 q') by lia. reflexivity. }
    pose proof (round_close (q' / 2 ^ e)) as Hr.
    set (s := q' / 2 ^ e) in *.
    assert (Es : q == s * 2 ^ e).
    { unfold s. rewrite <- Eq'. field. lra. }
    assert (Ed : inject_Z (round s) * 2 ^ e - q == (inject_Z (round s) - s) * 2 ^ e)
      by (rewrite Es; ring).
    rewrite Ed, Qabs_Qmult, (Qabs_pos (2 ^ e)) by lra.
    rewrite <- Eq'. rewrite El in Hl.
    change (2 ^ 52) with (inject_Z (2 ^ 52)) in Hl.
    set (c := Qabs q') in *. set (r := Qabs (inject_Z (round s) - s)) in *.
    set (u := 2 ^ e) in *.
    assert (H1 : r * u <= (1 # 2) * u) by (apply Qmult_le_compat_r; lra).
    change (inject_Z (2 ^ 52)) with (4503599627370496 # 1) in Hl.
    change (1 # 2 ^ 53) with (1 # 9007199254740992).
    lra.
Qed.

Lemma binary64_nonneg (q : Q) : 0 <= q -> 0 <= binary64 q.
Proof.
  intros H. destruct (Qeq_dec q 0) as [E | N].
  - rewrite (binary64_zero _ E). apply Qle_refl.
  - rewrite (binary64_form _ N).
    assert (Eq' : Qred q == q) by apply Qred_correct.
    set (q' := Qred q) in *. set (u := 2 ^ (ilog2 q' - 52)).
    pose proof (two_power_pos (ilog2 q' - 52)) as Hu. fold u in Hu.
    apply Qmult_le_0_compat; [|lra].
    change 0 with (inject_Z 0). rewrite <- Zle_Qle. apply round_nonneg.
    apply Qle_shift_div_l; [exact Hu|]. lra.
Qed.

Lemma binary64_nonpos (q : Q) : q <= 0 -> binary64 q <= 0.
Proof.
  intros H. destruct (Qeq_dec q 0) as [E | N].
  - rewrite (binary64_zero _ E). apply Qle_refl.
  - rewrite (binary64_form _ N).
    assert (Eq' : Qred q == q) by apply Qred_correct.
    set (q' := Qred q) in *. set (u := 2 ^ (ilog2 q' - 52)).
    pose proof (two_power_pos (ilog2 q' - 52)) as Hu. fold u in Hu.
    assert (Hr : inject_Z (round (q' / u)) <= 0).
    { change 0 with (inject_Z 0). rewrite <- Zle_Qle. apply round_nonpos.
      apply Qle_shift_div_r; [exact Hu|]. lra. }
    assert (H0 : 0 <= (- inject_Z (round (q' / u))) * u)
      by (apply Qmult_le_0_compat; lra).
    lra.
Qed.

Lemma sqrt_value_nonneg (x : Q) : 0 <= sqrt_value x.
Proof.
  unfold sqrt_value. destruct (Qle_bool x 0); [apply Qle_refl|]. cbv zeta.
  rewrite Qred_correct.
  set (u := 2 ^ (ilog2 (Qred x) / 2 - 52)).
  pose proof (two_power_pos (ilog2 (Qred x) / 2 - 52)) as Hu. fold u in Hu.
  set (m := Z.sqrt _).
  assert (Hm : (0 <= m)%Z) by apply Z.sqrt_nonneg.
  apply Qmult_le_0_compat; [|lra].
  change 0 with (inject_Z 0). rewrite <- Zle_Qle.
  destruct (match _ with Eq => _ | Lt => _ | Gt => _ end); lia.
Qed.

Lemma sqrt_value_zero (x : Q) : x == 0 -> sqrt_value x = 0.
Proof.
  intros H. unfold sqrt_value.
  assert (E : Qle_bool x 0 = true) by (apply Qle_bool_iff; rewrite H; apply Qle_refl).
  rewrite E. reflexivity.
Qed.

(** ** Segment Planner *)

Lemma bind_ret_l {A B} (a : A) (k : A -> M B) : bind (ret a) k = k a.
Proof. reflexivity. Qed.

Lemma sqrt_run (x : Q) : 0 <= x -> sqrt x = ret (sqrt_value x).
Proof.
  intros H. unfold sqrt. destruct (Qlt_le_dec x 0) as [Hneg|]; [|reflexivity].
  exfalso. apply (Qlt_irrefl 0). eapply Qle_lt_trans; eassumption.
Qed.

Lemma fdiv_nonzero (a b : Q) : ~ b == 0 -> fdiv a b = ret (binary64 (a / b)).
Proof.
  intros H. unfold fdiv. destruct (Qeq_bool b 0) eqn:E; [|reflexivity].
  apply Qeq_bool_iff in E. contradiction.
Qed.

Lemma fdiv_zero (a b : Q) : b == 0 -> fdiv a b = raise ZeroDivisionError.
Proof. intros H. unfold fdiv. apply Qeq_bool_iff in H. now rewrite H. Qed.

(** The rounded sum of the rounded squares is not negative, so
    [math.sqrt] is never given a negative number. *)
Lemma sum_of_squares_nonneg (a b c : Q) :
  0 <= fadd (fadd (fsquare a) (fsquare b)) (fsquare c).
Proof.
  assert (H : forall q : Q, 0 <= fsquare q).
  { intros q. apply binary64_nonneg. simpl. nra. }
  pose proof (H a). pose proof (H b). pose proof (H c).
  apply binary64_nonneg.
  assert (0 <= fadd (fsquare a) (fsquare b)) by (apply binary64_nonneg; lra).
  lra.
Qed.

Lemma delta_t_nonzero : ~ Options.delta_t == 0.
Proof. vm_compute. discriminate. Qed.

Lemma delta_t_positive : 0 < Options.delta_t.
Proof. vm_compute. reflexivity. Qed.

(** The segment loop: one command per index, in order, and one reading of
    the position per index when the data file is written. *)
Lemma segment_loop_run (cmd : Z -> Command) (pattern : string) (l : list Z) :
  forall w, exists w',
    for_each l (fun i =>
      emit (Drone (cmd i)) ;;
      me <- get_self ;;
      when (write_datafile me)
        (stamp <- Options.date_time_str Slashed ;;
         '(t, x, y, z) <- Options.get_position_data ;;
         writerow [CStr pattern; stamp; CNum t; CNum x; CNum y; CNum z])) w = (Ok tt, w') /\
    commands (trace w') = commands (trace w) ++ map cmd l /\
    self w' = self w /\
    reads w' ChPosition =
      (reads w ChPosition + if write_datafile (self w) then List.length l else 0)%nat.
Proof.
  induction l as [|i l IH]; intros w; cbn [for_each map].
  - exists w. rewrite app_nil_r. repeat split.
    destruct (write_datafile (self w)); cbn [List.length]; lia.
  - unfold bind at 1.
    match goal with |- context [bind ?m ?k w] => destruct (bind m k w) as [r w1] eqn:E end.
    assert (H : r = Ok tt /\ commands (trace w1) = commands (trace w) ++ [cmd i] /\
                self w1 = self w /\
                reads w1 ChPosition =
                  (reads w ChPosition + if write_datafile (self w) then 1 else 0)%nat).
    { revert E. unfold bind, emit, get_self, when, Options.date_time_str, datetime_now,
        Options.get_position_data, writerow, ask, emit, ret; cbn.
      destruct (write_datafile (self w)); cbn;
        [destruct (position_feed (feeds w) (reads w ChPosition)) as [[[t x] y] z]; cbn|];
        intros E; injection E as <- <-; cbn; rewrite !commands_app; cbn;
        rewrite ?app_nil_r; repeat split; unfold bump; cbn; lia. }
    destruct H as (-> & Hc & Hs & Hr).
    destruct (IH w1) as (w' & Hrun & Hc' & Hs' & Hr'). exists w'.
    split; [exact Hrun|]. split; [|split; [congruence|]].
    + rewrite Hc', Hc, <- app_assoc. reflexivity.
    + rewrite Hr', Hr, Hs. destruct (write_datafile (self w)); cbn [List.length]; lia.
Qed.

Lemma range_segments (n : Z) : List.length (range n) = Z.to_nat n.
Proof. unfold range. now rewrite length_map, length_seq. Qed.

(** [send_abs_pos_w_output] at a speed that is not zero: it returns, and
    what it sends is one command per segment index. *)
Lemma send_abs_pos_w_output_run (x0 y0 z0 x1 y1 z1 velocity : Q) (pattern : string)
    (w : World) :
  ~ velocity == 0 ->
  let n := planned_segments x0 y0 z0 x1 y1 z1 velocity in
  exists w',
    Options.send_abs_pos_w_output x0 y0 z0 x1 y1 z1 velocity pattern w = (Ok tt, w') /\
    commands (trace w') =
      commands (trace w) ++ map (segment_command x0 y0 z0 x1 y1 z1 velocity n) (range n) /\
    self w' = self w /\
    reads w' ChPosition =
      (reads w ChPosition + if write_datafile (self w) then Z.to_nat n else 0)%nat.
Proof.
  intros Hv. unfold planned_segments, planned_distance, Options.send_abs_pos_w_output.
  cbv zeta.
  rewrite (sqrt_run _ (sum_of_squares_nonneg _ _ _)), bind_ret_l.
  rewrite (fdiv_nonzero _ _ Hv), bind_ret_l.
  rewrite (fdiv_nonzero _ _ delta_t_nonzero), bind_ret_l.
  match goal with |- context [round ?q] => generalize (round q) end.
  intros n.
  assert (Hd : forall a0 a1 : Q,
             (if (n =? 0)%Z then ret 0 else fdiv (fsub a1 a0) (inject_Z n)) =
             ret (segment_delta a0 a1 n)).
  { intros a0 a1. unfold segment_delta. destruct (Z.eqb_spec n 0) as [|Hn]; [reflexivity|].
    apply fdiv_nonzero. intros E. apply Hn.
    unfold Qeq in E. cbn in E. lia. }
  rewrite !Hd, !bind_ret_l. rewrite <- (range_segments n).
  apply (segment_loop_run (segment_command x0 y0 z0 x1 y1 z1 velocity n) pattern (range n) w).
Qed.

Lemma planned_segments_same_place (x0 y0 z0 x1 y1 z1 velocity : Q) :
  x1 == x0 -> y1 == y0 -> z1 == z0 ->
  planned_segments x0 y0 z0 x1 y1 z1 velocity = 0%Z.
Proof.
  intros Hx Hy Hz. unfold planned_segments, planned_distance, fsub.
  assert (Z0 : forall a b : Q, a == b -> fsquare (binary64 (a - b)) = 0).
  { intros a b E. rewrite (binary64_zero (a - b)) by (rewrite E; ring). reflexivity. }
  rewrite (Z0 _ _ Hx), (Z0 _ _ Hy), (Z0 _ _ Hz).
  apply round_zero. reflexivity.
Qed.

Lemma Qabs_sum_le (x y bx b : Q) : Qabs x <= bx -> bx + Qabs y <= b -> Qabs (x + y) <= b.
Proof.
  intros Hx Hy. eapply Qle_trans; [apply Qabs_triangle|]. lra.
Qed.

Lemma scaled_le (k n c b : Q) : 0 <= k -> k <= n -> 0 <= c -> n * c <= b -> k * c <= b.
Proof.
  intros. assert (k * c <= n * c) by (apply Qmult_le_compat_r; assumption). lra.
Qed.

(** The position of command [i] on one axis, four roundings away from
    [start + i/n * (target - start)]: the difference, the division by [n],
    the product by [i] and the sum with the start each change their result
    by at most 2^-53 of it. *)
Lemma segment_position_close (a0 a1 : Q) (n i : Z) :
  (0 <= i < n)%Z ->
  close_to a0 a1 n i (fadd a0 (fmul (inject_Z i) (segment_delta a0 a1 n))).
Proof.
  intros Hi. unfold close_to, segment_delta.
  destruct (Z.eqb_spec n 0) as [|_]; [lia|].
  unfold fadd, fmul, fsub, segment_point, rounding_bound.
  assert (HK : 0 <= inject_Z i) by (change 0 with (inject_Z 0); rewrite <- Zle_Qle; lia).
  assert (HKN : inject_Z i <= inject_Z n) by (rewrite <- Zle_Qle; lia).
  assert (HN : 0 < inject_Z n) by (change 0 with (inject_Z 0); rewrite <- Zlt_Qlt; lia).
  set (K := inject_Z i) in *. set (N := inject_Z n) in *.
  set (D := a1 - a0).
  pose proof (binary64_accurate D) as H1. set (d := binary64 D) in *.
  pose proof (binary64_accurate (d / N)) as H2. set (dl := binary64 (d / N)) in *.
  pose proof (binary64_accurate (K * dl)) as H3. set (t := binary64 (K * dl)) in *.
  pose proof (binary64_accurate (a0 + t)) as H4. set (p := binary64 (a0 + t)) in *.
  change (1 # 2 ^ 53) with (1 # 9007199254740992) in *.
  change (1 # 2 ^ 50) with (1 # 1125899906842624).
  pose proof (Qabs_nonneg D) as PA. pose proof (Qabs_nonneg a0) as Pa.
  pose proof (Qabs_nonneg dl) as PC. pose proof (Qabs_nonneg d) as PB.
  pose proof (Qabs_nonneg (dl - d / N)) as P2. pose proof (Qabs_nonneg (d - D)) as P1.
  assert (HB : Qabs d <= Qabs (d - D) + Qabs D).
  { setoid_replace d with ((d - D) + D) at 1 by ring. apply Qabs_triangle. }
  assert (EdN : Qabs (d / N) * N == Qabs d).
  { unfold Qdiv. rewrite Qabs_Qmult, Qabs_Qinv, (Qabs_pos N) by lra. field. lra. }
  assert (HC : Qabs dl <= Qabs (dl - d / N) + Qabs (d / N)).
  { setoid_replace dl with ((dl - d / N) + d / N) at 1 by ring. apply Qabs_triangle. }
  assert (EK : Qabs (K * dl) == K * Qabs dl)
    by (rewrite Qabs_Qmult, (Qabs_pos K) by lra; reflexivity).
  assert (HT : Qabs t <= Qabs (t - K * dl) + Qabs (K * dl)).
  { setoid_replace t with ((t - K * dl) + K * dl) at 1 by ring. apply Qabs_triangle. }
  assert (Hat : Qabs (a0 + t) <= Qabs a0 + Qabs t) by apply Qabs_triangle.
  assert (Esplit : p - (a0 + K / N * D) ==
                   (p - (a0 + t)) + ((t - K * dl) + (K * (dl - d / N) + K / N * (d - D))))
    by (field; lra).
  rewrite Esplit.
  assert (E2 : Qabs (K * (dl - d / N)) == K * Qabs (dl - d / N))
    by (rewrite Qabs_Qmult, (Qabs_pos K) by lra; reflexivity).
  assert (HKN' : 0 <= K / N) by (apply Qle_shift_div_l; lra).
  assert (E1 : Qabs (K / N * (d - D)) == K / N * Qabs (d - D))
    by (rewrite Qabs_Qmult, (Qabs_pos (K / N)) by lra; reflexivity).
  set (A := Qabs D) in *. set (a := Qabs a0) in *. set (B := Qabs d) in *.
  set (C := Qabs dl) in *. set (T := Qabs t) in *.
  set (BN := Qabs (d / N)) in *.
  set (e1 := Qabs (d - D)) in *. set (e2 := Qabs (dl - d / N)) in *.
  set (e3 := Qabs (t - K * dl)) in *. set (e4 := Qabs (p - (a0 + t))) in *.
  set (u := 1 # 9007199254740992) in *.
  assert (Hu : u == 1 # 9007199254740992) by reflexivity.
  assert (HKC : K * C <= (1 + u) * B).
  { apply (scaled_le K N); try lra.
    assert (N * e2 <= u * B).
    { rewrite <- EdN. assert (N * e2 <= N * (u * BN)) by (apply Qmult_le_l; lra). lra. }
    assert (N * C <= N * (e2 + BN)) by (apply Qmult_le_l; lra). lra. }
  assert (HKe2 : K * e2 <= u * B).
  { apply (scaled_le K N); try lra.
    rewrite <- EdN. assert (N * e2 <= N * (u * BN)) by (apply Qmult_le_l; lra). lra. }
  assert (HKe1 : K / N * e1 <= u * A).
  { assert (K / N <= 1) by (apply Qle_shift_div_r; lra).
    assert (K / N * e1 <= 1 * e1) by (apply Qmult_le_compat_r; lra). lra. }
  apply (Qabs_sum_le _ _ e4); [apply Qle_refl|].
  assert (G3 : Qabs (t - K * dl + (K * (dl - d / N) + K / N * (d - D)))
               <= e3 + (K * e2 + K / N * e1)).
  { apply (Qabs_sum_le _ _ e3); [apply Qle_refl|].
    apply Qplus_le_r. eapply Qle_trans; [apply Qabs_triangle|].
    rewrite E2, E1. apply Qle_refl. }
  rewrite EK in *.
  set (KC := K * C) in *. set (Ke2 := K * e2) in *. set (Ke1 := K / N * e1) in *.
  set (G := Qabs _) in *.
  rewrite Hu in *.
  clearbody A a B C T BN e1 e2 e3 e4 KC Ke2 Ke1 G.
  clear -PA Pa PB H1 H3 H4 HB HT Hat HKC HKe2 HKe1 G3.
  lra.
Qed.

Lemma nth_error_range (n i : Z) :
  (0 <= i < n)%Z -> nth_error (range n) (Z.to_nat i) = Some i.
Proof.
  intros H. unfold range. rewrite nth_error_map, nth_error_seq.
  assert (E : (Z.to_nat i <? Z.to_nat n)%nat = true) by (apply Nat.ltb_lt; lia).
  rewrite E. cbn [option_map Nat.add]. now rewrite Z2Nat.id by lia.
Qed.

Lemma sent_since_app (w w' : World) (cs : list Command) :
  commands (trace w') = commands (trace w) ++ cs -> sent_since w w' = cs.
Proof.
  intros H. unfold sent_since. rewrite H, skipn_app, skipn_all, Nat.sub_diag. reflexivity.
Qed.

(** C5, as the code has it.  At a speed above zero [send_abs_pos_w_output]
    returns; what it has sent, read off the trace, is [num_segments]
    commands, and the command of index [i] is, on each axis, within
    [rounding_bound] of [start + i/n * (target - start)]: the same bound
    for every index, so no rounding error builds up along the line.  When
    start and target coincide, [num_segments] is 0 and nothing is sent. *)
Theorem segments_lie_on_the_line (x0 y0 z0 x1 y1 z1 velocity : Q) (pattern : string)
    (w : World) :
  0 < velocity ->
  let n := planned_segments x0 y0 z0 x1 y1 z1 velocity in
  let run := Options.send_abs_pos_w_output x0 y0 z0 x1 y1 z1 velocity pattern w in
  let sent := sent_since w (snd run) in
  fst run = Ok tt /\
  commands (trace (snd run)) = commands (trace w) ++ sent /\
  List.length sent = Z.to_nat n /\
  (forall i : Z, (0 <= i < n)%Z ->
     exists x y z : Q,
       nth_error sent (Z.to_nat i) = Some (CSendAbsolutePosition x y z velocity 0 0) /\
       close_to x0 x1 n i x /\ close_to y0 y1 n i y /\ close_to z0 z1 n i z) /\
  (x1 == x0 -> y1 == y0 -> z1 == z0 -> n = 0%Z /\ sent = []).
Proof.
  intros Hv n run sent.
  assert (Hv' : ~ velocity == 0) by (intros E; rewrite E in Hv; discriminate Hv).
  destruct (send_abs_pos_w_output_run x0 y0 z0 x1 y1 z1 velocity pattern w Hv')
    as (w' & Hrun & Hc & _).
  fold n in Hc.
  assert (Es : sent = map (segment_command x0 y0 z0 x1 y1 z1 velocity n) (range n)).
  { subst sent run. rewrite Hrun. cbn [snd]. apply sent_since_app. exact Hc. }
  subst run. rewrite Hrun. cbn [fst snd]. rewrite Es.
  split; [reflexivity|]. split; [exact Hc|].
  split; [now rewrite length_map, range_segments|]. split.
  - intros i Hi. do 3 eexists. split.
    + rewrite nth_error_map, (nth_error_range n i Hi). reflexivity.
    + repeat split; apply segment_position_close; exact Hi.
  - intros Hx Hy Hz.
    assert (E : n = 0%Z) by now apply planned_segments_same_place.
    split; [exact E|]. rewrite E. reflexivity.
Qed.

Lemma segments_lie_on_the_line_witness :
  0 < 1 # 2 /\
  let run := Options.send_abs_pos_w_output 0 0 1 0 0 (3 # 2) (1 # 2) "XYZ_abs"
               fresh_world in
  fst run = Ok tt /\
  List.length (sent_since fresh_world (snd run)) = 20%nat /\
  exists x y z : Q,
    nth_error (sent_since fresh_world (snd run)) 10 =
      Some (CSendAbsolutePosition x y z (1 # 2) 0 0) /\
    close_to 1 (3 # 2) 20 10 z.
Proof.
  split; [reflexivity|].
  assert (E : planned_segments 0 0 1 0 0 (3 # 2) (1 # 2) = 20%Z) by (vm_compute; reflexivity).
  destruct (segments_lie_on_the_line 0 0 1 0 0 (3 # 2) (1 # 2) "XYZ_abs" fresh_world
              eq_refl) as (Hok & _ & Hlen & Hnear & _).
  rewrite E in Hlen, Hnear.
  split; [exact Hok|]. split; [exact Hlen|].
  destruct (Hnear 10%Z ltac:(lia)) as (x & y & z & Hn & _ & _ & Hz).
  exists x, y, z. split; [exact Hn | exact Hz].
Defined.

(** C5 as stated fails, in three ways.  From (0, 0, 0) to (0, 0, 1/64) at
    1 m/s the start and the target differ and the speed is positive, but
    the segment count rounds to 0 and nothing is sent.  From (0, 0, 0) to
    (0, 0, 1) at 1 m/s there are 20 segments, and the command of index 1 is
    at the binary64 value nearest to 1/20, which is not 1/20: it is not at
    [start + 1/20 * (target - start)], and 20 steps of that length are not
    the displacement of 1.  From (0, 0, 0) to (0, 0, 3/8) at 5 m/s the
    program divides 0.075 by 0.05 to a little under 1.5 and sends one
    command; the quotient as the specification words it is 1.5 and rounds
    to 2. *)
Lemma segments_not_exactly_on_the_line :
  (0 < 1 /\ ~ (1 # 64) == 0 /\
   planned_segments 0 0 0 0 0 (1 # 64) 1 = 0%Z /\
   sent_since fresh_world
     (snd (Options.send_abs_pos_w_output 0 0 0 0 0 (1 # 64) 1 "Movement" fresh_world))
   = []) /\
  (planned_segments 0 0 0 0 0 1 1 = 20%Z /\
   nth_error
     (sent_since fresh_world
        (snd (Options.send_abs_pos_w_output 0 0 0 0 0 1 1 "Movement" fresh_world))) 1
   = Some (CSendAbsolutePosition 0 0 (3602879701896397 # 72057594037927936) 1 0 0) /\
   ~ (3602879701896397 # 72057594037927936) == segment_point 0 1 20 1 /\
   ~ 20 * (3602879701896397 # 72057594037927936) == 1 - 0) /\
  (planned_segments 0 0 0 0 0 (3 # 8) 5 = 1%Z /\
   spec_segments (3 # 8) 5 = 2%Z /\
   List.length
     (sent_since fresh_world
        (snd (Options.send_abs_pos_w_output 0 0 0 0 0 (3 # 8) 5 "Movement" fresh_world)))
   = 1%nat).
Proof.
  split; [|split].
  - split; [reflexivity|]. split; [discriminate|]. split; vm_compute; reflexivity.
  - split; [vm_compute; reflexivity|]. split; [vm_compute; reflexivity|].
    split; vm_compute; discriminate.
  - split; [vm_compute; reflexivity|]. split; vm_compute; reflexivity.
Qed.

(** C6, as the code has it.  When the segment count is 0 (the speed not
    being zero), [send_abs_pos_w_output] returns without any effect: no
    command is sent, the target included, no telemetry is read and nothing
    is logged. *)
Theorem zero_segments_send_nothing (x0 y0 z0 x1 y1 z1 velocity : Q) (pattern : string)
    (w : World) :
  ~ velocity == 0 ->
  planned_segments x0 y0 z0 x1 y1 z1 velocity = 0%Z ->
  Options.send_abs_pos_w_output x0 y0 z0 x1 y1 z1 velocity pattern w = (Ok tt, w).
Proof.
  intros Hv. unfold planned_segments, planned_distance, Options.send_abs_pos_w_output.
  rewrite (sqrt_run _ (sum_of_squares_nonneg _ _ _)), bind_ret_l.
  rewrite (fdiv_nonzero _ _ Hv), bind_ret_l.
  rewrite (fdiv_nonzero _ _ delta_t_nonzero), bind_ret_l.
  match goal with |- context [round ?q] => generalize (round q) end.
  intros n ->. reflexivity.
Qed.

Lemma zero_segments_send_nothing_witness :
  Options.send_abs_pos_w_output 0 0 0 (1 # 100) 0 0 1 "Movement" fresh_world
  = (Ok tt, fresh_world).
Proof.
  apply zero_segments_send_nothing.
  - discriminate.
  - vm_compute. reflexivity.
Defined.

(** C6 as stated fails: from (0, 0, 0) to (0.01, 0, 0) at 1 m/s the
    displacement is not zero and the segment count is 0, and the commands
    sent are none, not the one command to the target. *)
Lemma short_move_sends_no_target :
  ~ (1 # 100) == 0 /\
  planned_segments 0 0 0 (1 # 100) 0 0 1 = 0%Z /\
  commands (trace (snd (Options.send_abs_pos_w_output 0 0 0 (1 # 100) 0 0 1 "Movement"
                          fresh_world))) = [] /\
  commands (trace (snd (Options.send_abs_pos_w_output 0 0 0 (1 # 100) 0 0 1 "Movement"
                          fresh_world))) <> [CSendAbsolutePosition (1 # 100) 0 0 1 0 0].
Proof.
  assert (E : commands (trace (snd (Options.send_abs_pos_w_output 0 0 0 (1 # 100) 0 0 1
                                      "Movement" fresh_world))) = [])
    by (vm_compute; reflexivity).
  rewrite E.
  split; [discriminate|]. split; [vm_compute; reflexivity|].
  split; [reflexivity | discriminate].
Qed.

(** ** Pattern Generators *)

Lemma moves_pbind {A B} (p : Patt1.Prog A) (f : A -> Patt1.Prog B) (ans : Patt1.Answers) :
  forall np ns,
    Patt1.moves (Patt1.pbind p f) ans np ns =
    Patt1.moves p ans np ns ++
    (let '(a, np', ns') := outcome p ans np ns in Patt1.moves (f a) ans np' ns').
Proof.
  induction p as [a | k IH | ? ? ? ? ? ? ? ? ? ? ? k IH | ? ? ? ? k IH | a b k IH];
    intros np ns; cbn [Patt1.pbind Patt1.moves outcome app].
  - reflexivity.
  - apply IH.
  - now rewrite IH.
  - apply IH.
  - apply IH.
Qed.

Lemma position_reads_pbind {A B} (p : Patt1.Prog A) (f : A -> Patt1.Prog B)
    (ans : Patt1.Answers) :
  forall np ns,
    Patt1.position_reads (Patt1.pbind p f) ans np ns =
    (Patt1.position_reads p ans np ns +
     (let '(a, np', ns') := outcome p ans np ns in Patt1.position_reads (f a) ans np' ns'))%nat.
Proof.
  induction p as [a | k IH | ? ? ? ? ? ? ? ? ? ? ? k IH | ? ? ? ? k IH | a b k IH];
    intros np ns; cbn [Patt1.pbind Patt1.position_reads outcome Nat.add].
  - reflexivity.
  - now rewrite IH.
  - apply IH.
  - apply IH.
  - apply IH.
Qed.

(** A loop whose body reads nothing and always asks for the same legs. *)
Lemma moves_for_each_fixed {A} (l : list A) (body : A -> Patt1.Prog unit)
    (legs : list Patt1.Move) (ans : Patt1.Answers) (np ns : nat) :
  (forall x, Patt1.moves (body x) ans np ns = legs) ->
  (forall x, outcome (body x) ans np ns = (tt, np, ns)) ->
  (forall x, Patt1.position_reads (body x) ans np ns = O) ->
  Patt1.moves (Patt1.for_each l body) ans np ns = concat (map (fun _ => legs) l) /\
  outcome (Patt1.for_each l body) ans np ns = (tt, np, ns) /\
  Patt1.position_reads (Patt1.for_each l body) ans np ns = O.
Proof.
  intros Hm Ho Hr. induction l as [|x l (IHm & IHo & IHr)]; cbn [Patt1.for_each map concat].
  - repeat split.
  - rewrite moves_pbind, position_reads_pbind, Ho, Hm, Hr, IHm, IHr.
    repeat split.
    clear -Ho IHo. revert IHo. generalize (Patt1.for_each l body). intros q Hq.
    assert (G : forall (p : Patt1.Prog unit) np0 ns0,
               outcome (Patt1.pbind p (fun _ => q)) ans np0 ns0 =
               (let '(_, np', ns') := outcome p ans np0 ns0 in outcome q ans np' ns')).
    { induction p; intros; cbn [Patt1.pbind outcome]; auto. }
    rewrite G, Ho. exact Hq.
Qed.

Lemma move_x_simple_moves (del_x vel delay : Q) (repeats : Z) (ans : Patt1.Answers) :
  let '(_, x0, y0, z0) := Patt1.positions ans 0 in
  Patt1.moves (Patt1.move_x_simple del_x vel delay repeats) ans 0 0 =
    cycles repeats (x_sweep x0 y0 z0 del_x) /\
  Patt1.position_reads (Patt1.move_x_simple del_x vel delay repeats) ans 0 0 = 1%nat.
Proof.
  unfold Patt1.move_x_simple, Patt1.get_position_data, cycles.
  cbn [Patt1.pbind Patt1.moves Patt1.position_reads].
  destruct (Patt1.positions ans 0) as [[[t x0] y0] z0].
  match goal with
  | |- Patt1.moves (Patt1.for_each ?l ?body) _ ?np ?ns = _ /\ _ =>
      destruct (moves_for_each_fixed l body (x_sweep x0 y0 z0 del_x) ans np ns)
        as (Hm & _ & Hr); [intros; reflexivity ..|]
  end.
  now rewrite Hm, Hr.
Qed.

Lemma move_y_simple_moves (del_y vel delay : Q) (repeats : Z) (ans : Patt1.Answers) :
  let '(_, x0, y0, z0) := Patt1.positions ans 0 in
  Patt1.moves (Patt1.move_y_simple del_y vel delay repeats) ans 0 0 =
    cycles repeats (y_sweep x0 y0 z0 del_y) /\
  Patt1.position_reads (Patt1.move_y_simple del_y vel delay repeats) ans 0 0 = 1%nat.
Proof.
  unfold Patt1.move_y_simple, Patt1.get_position_data, cycles.
  cbn [Patt1.pbind Patt1.moves Patt1.position_reads].
  destruct (Patt1.positions ans 0) as [[[t x0] y0] z0].
  match goal with
  | |- Patt1.moves (Patt1.for_each ?l ?body) _ ?np ?ns = _ /\ _ =>
      destruct (moves_for_each_fixed l body (y_sweep x0 y0 z0 del_y) ans np ns)
        as (Hm & _ & Hr); [intros; reflexivity ..|]
  end.
  now rewrite Hm, Hr.
Qed.

Lemma move_z_simple_moves (del_z vel delay : Q) (repeats : Z) (ans : Patt1.Answers) :
  let '(_, x0, y0, z0) := Patt1.positions ans 0 in
  Patt1.moves (Patt1.move_z_simple del_z vel delay repeats) ans 0 0 =
    cycles repeats (z_sweep x0 y0 z0 (Patt1.reduced_del_z del_z z0)) /\
  Patt1.position_reads (Patt1.move_z_simple del_z vel delay repeats) ans 0 0 = 1%nat.
Proof.
  unfold Patt1.move_z_simple, Patt1.get_position_data, cycles.
  cbn [Patt1.pbind Patt1.moves Patt1.position_reads].
  destruct (Patt1.positions ans 0) as [[[t x0] y0] z0].
  match goal with
  | |- Patt1.moves (Patt1.for_each ?l ?body) _ ?np ?ns = _ /\ _ =>
      destruct (moves_for_each_fixed l body
                  (z_sweep x0 y0 z0 (Patt1.reduced_del_z del_z z0)) ans np ns)
        as (Hm & _ & Hr); [intros; reflexivity ..|]
  end.
  now rewrite Hm, Hr.
Qed.

Lemma move_yz_simple_moves (del_y del_z vel delay : Q) (repeats : Z) (write_note : bool)
    (ans : Patt1.Answers) :
  let '(_, x0, y0, z0) := Patt1.positions ans 0 in
  Patt1.moves (Patt1.move_yz_simple del_y del_z vel delay repeats write_note) ans 0 0 =
    cycles repeats
      (y_sweep x0 y0 z0 del_y ++ z_sweep x0 y0 z0 (Patt1.reduced_del_z del_z z0)) /\
  Patt1.position_reads (Patt1.move_yz_simple del_y del_z vel delay repeats write_note)
    ans 0 0 = 1%nat.
Proof.
  unfold Patt1.move_yz_simple, Patt1.get_position_data, cycles.
  cbn [Patt1.pbind Patt1.moves Patt1.position_reads].
  destruct (Patt1.positions ans 0) as [[[t x0] y0] z0].
  match goal with
  | |- Patt1.moves (Patt1.for_each ?l ?body) _ ?np ?ns = _ /\ _ =>
      destruct (moves_for_each_fixed l body
                  (y_sweep x0 y0 z0 del_y ++
                   z_sweep x0 y0 z0 (Patt1.reduced_del_z del_z z0)) ans np ns)
        as (Hm & _ & Hr); [intros; reflexivity ..|]
  end.
  now rewrite Hm, Hr.
Qed.

Lemma reduced_del_z_is_min (del_z z0 : Q) :
  Patt1.reduced_del_z del_z z0 == Qmin del_z (fmul 0.75 z0).
Proof.
  unfold Patt1.reduced_del_z. destruct (Qlt_le_dec del_z (fmul 0.75 z0)) as [H | H].
  - symmetry. apply Q.min_l. now apply Qlt_le_weak.
  - symmetry. now apply Q.min_r.
Qed.

(** C7, as the code has it.  Both vertical sweeps read the position once,
    at entry, and use the same vertical displacement [delta_z], which is
    the smaller of the requested [del_z] and the binary64 product
    [0.75 * z0] for the height [z0] just read, a product within 2^-53 of
    itself of the exact one: the moves [move_z_simple] asks for are, cycle
    after cycle, up to [z0 + delta_z], back, down to [z0 - delta_z], back,
    and those of [move_yz_simple] are the four Y legs followed by the same
    four Z legs.  For [z0 = 0.4] and [del_z = 1.0] the displacement is
    5404319552844596 * 2^-54, which Python prints as
    0.30000000000000004. *)
Theorem vertical_sweeps_use_reduced_del_z :
  (forall del_z z0 : Q,
     Patt1.reduced_del_z del_z z0 == Qmin del_z (fmul 0.75 z0) /\
     Qabs (fmul 0.75 z0 - 0.75 * z0) <= (1 # 2 ^ 53) * Qabs (0.75 * z0)) /\
  Patt1.reduced_del_z 1.0 (binary64 0.4) == 5404319552844596 # 2 ^ 54 /\
  (forall (del_z vel delay : Q) (repeats : Z) (ans : Patt1.Answers),
     let '(_, x0, y0, z0) := Patt1.positions ans 0 in
     Patt1.moves (Patt1.move_z_simple del_z vel delay repeats) ans 0 0 =
       cycles repeats (z_sweep x0 y0 z0 (Patt1.reduced_del_z del_z z0))) /\
  (forall (del_y del_z vel delay : Q) (repeats : Z) (write_note : bool)
          (ans : Patt1.Answers),
     let '(_, x0, y0, z0) := Patt1.positions ans 0 in
     Patt1.moves (Patt1.move_yz_simple del_y del_z vel delay repeats write_note) ans 0 0 =
       cycles repeats
         (y_sweep x0 y0 z0 del_y ++ z_sweep x0 y0 z0 (Patt1.reduced_del_z del_z z0))).
Proof.
  split; [|split; [vm_compute; reflexivity|split]].
  - intros del_z z0. split; [apply reduced_del_z_is_min | apply binary64_accurate].
  - intros. pose proof (move_z_simple_moves del_z vel delay repeats ans) as H.
    destruct (Patt1.positions ans 0) as [[[t x0] y0] z0]. apply H.
  - intros. pose proof (move_yz_simple_moves del_y del_z vel delay repeats write_note ans) as H.
    destruct (Patt1.positions ans 0) as [[[t x0] y0] z0]. apply H.
Qed.

(** C7 as stated fails in its instance: at the height 0.4 (the binary64
    value Python reads the literal as) and [del_z = 1.0] the displacement
    is the binary64 product of 0.75 and 0.4, which is above 0.3 and is not
    the binary64 value nearest to 0.3 either; [move_z_simple] then asks
    for the heights 0.4 + 0.30000000000000004 and
    0.4 - 0.30000000000000004, the second being below 0.1. *)
Lemma vertical_sweep_delta_is_not_three_tenths :
  0.3 < Patt1.reduced_del_z 1.0 (binary64 0.4) /\
  ~ Patt1.reduced_del_z 1.0 (binary64 0.4) == 0.3 /\
  ~ Patt1.reduced_del_z 1.0 (binary64 0.4) == binary64 0.3 /\
  map (fun m => Qred (Patt1.to_z m))
    (Patt1.moves (Patt1.move_z_simple 1.0 0.5 0 1) low_hover_answers 0 0) =
    [6305039478318695 # 9007199254740992; 3602879701896397 # 9007199254740992;
     900719925474099 # 9007199254740992; 3602879701896397 # 9007199254740992] /\
  (900719925474099 # 9007199254740992) < 0.1.
Proof.
  repeat split; try (vm_compute; reflexivity); vm_compute; discriminate.
Qed.

(** One segment of [move_random_xyz]: one position, three draws, one
    move. *)
Lemma random_xyz_segment_run (x0 y0 z0 : Q) (max_xyz : Q * Q * Q) (limits : Patt1.Limits)
    (vel delay : Q) (pattern : string) (write_note : bool) (ans : Patt1.Answers)
    (np ns : nat) :
  let p := Patt1.random_xyz_segment x0 y0 z0 max_xyz limits vel delay pattern write_note in
  Patt1.moves p ans np ns =
    [segment_move x0 y0 z0 limits (Patt1.positions ans np) (xyz_delta max_xyz ans ns)] /\
  outcome p ans np ns = (tt, S np, (3 + ns)%nat) /\
  Patt1.position_reads p ans np ns = 1%nat.
Proof.
  unfold Patt1.random_xyz_segment, segment_move, xyz_delta.
  destruct max_xyz as [[max_x max_y] max_z].
  cbn [Patt1.pbind Patt1.moves Patt1.position_reads outcome Patt1.get_position_data
       Patt1.random_uniform].
  destruct (Patt1.positions ans np) as [[[t x] y] z].
  repeat split.
Qed.

(** One segment of [move_random_limits]: one position, four draws, one
    move. *)
Lemma random_limits_segment_run (cos sin : Q -> Q) (pi x0 y0 z0 max_r : Q)
    (limits : Patt1.Limits) (vel delay : Q) (pattern : string) (write_note : bool)
    (ans : Patt1.Answers) (np ns : nat) :
  let p := Patt1.random_limits_segment cos sin pi x0 y0 z0 max_r limits vel delay pattern
             write_note in
  Patt1.moves p ans np ns =
    [segment_move x0 y0 z0 limits (Patt1.positions ans np)
       (spherical_delta cos sin pi max_r ans ns)] /\
  outcome p ans np ns = (tt, S np, (4 + ns)%nat) /\
  Patt1.position_reads p ans np ns = 1%nat.
Proof.
  unfold Patt1.random_limits_segment, segment_move, spherical_delta.
  cbn [Patt1.pbind Patt1.moves Patt1.position_reads outcome Patt1.get_position_data
       Patt1.random_uniform].
  destruct (Patt1.positions ans np) as [[[t x] y] z].
  repeat split.
Qed.

(** A loop whose body reads one position and [k] draws and asks for one
    move. *)
Lemma moves_for_each_segments {A} (l : list A) (body : A -> Patt1.Prog unit)
    (k : nat) (move : nat -> nat -> Patt1.Move) (ans : Patt1.Answers) :
  (forall x np ns,
     Patt1.moves (body x) ans np ns = [move np ns] /\
     outcome (body x) ans np ns = (tt, S np, (k + ns)%nat) /\
     Patt1.position_reads (body x) ans np ns = 1%nat) ->
  forall np ns,
    Patt1.moves (Patt1.for_each l body) ans np ns =
      map (fun i => move (np + i)%nat (ns + k * i)%nat) (seq 0 (List.length l)) /\
    Patt1.position_reads (Patt1.for_each l body) ans np ns = List.length l.
Proof.
  intros Hbody. induction l as [|x l IH]; intros np ns; cbn [Patt1.for_each List.length].
  - split; reflexivity.
  - destruct (Hbody x np ns) as (Hm & Ho & Hr).
    rewrite moves_pbind, position_reads_pbind, Hm, Ho, Hr.
    destruct (IH (S np) (k + ns)%nat) as [IHm IHr]. rewrite IHm, IHr.
    split; [|reflexivity].
    cbn [seq map app]. rewrite Nat.add_0_r, Nat.mul_0_r, Nat.add_0_r. f_equal.
    rewrite <- seq_shift, map_map. apply map_ext. intros i.
    f_equal; lia.
Qed.

(** What the random walks ask for. *)
Lemma walk_program_moves (v : Walk) (limits : Patt1.Limits) (vel delay : Q) (segments : Z)
    (write_note : bool) (ans : Patt1.Answers) :
  Patt1.moves (walk_program v limits vel delay segments write_note) ans 0 0 =
    walk_moves v limits segments ans /\
  Patt1.position_reads (walk_program v limits vel delay segments write_note) ans 0 0 =
    (1 + Z.to_nat segments)%nat.
Proof.
  unfold walk_moves.
  destruct v as [max_xyz | cos sin pi max_r]; cbn [walk_program walk_delta].
  - unfold Patt1.move_random_xyz.
    cbn [Patt1.pbind Patt1.moves Patt1.position_reads Patt1.get_position_data].
    destruct (Patt1.positions ans 0) as [[[t x0] y0] z0].
    rewrite moves_pbind, position_reads_pbind.
    cbn [Patt1.calibration_legs Patt1.pbind Patt1.moves Patt1.position_reads outcome
         Patt1.send_abs_pos_verif Patt1.hover_w_del app Nat.add].
    match goal with
    | |- context [Patt1.for_each ?l ?body] =>
        destruct (moves_for_each_segments l body 3
                    (fun np ns => segment_move x0 y0 z0 limits (Patt1.positions ans np)
                                    (xyz_delta max_xyz ans ns)) ans) with (np := 1%nat)
          (ns := 0%nat) as [Hm Hr];
          [intros; apply random_xyz_segment_run|]
    end.
    rewrite Hm, Hr, range_segments. split; reflexivity.
  - unfold Patt1.move_random_limits.
    cbn [Patt1.pbind Patt1.moves Patt1.position_reads Patt1.get_position_data].
    destruct (Patt1.positions ans 0) as [[[t x0] y0] z0].
    rewrite moves_pbind, position_reads_pbind.
    cbn [Patt1.calibration_legs Patt1.pbind Patt1.moves Patt1.position_reads outcome
         Patt1.send_abs_pos_verif Patt1.hover_w_del app Nat.add].
    match goal with
    | |- context [Patt1.for_each ?l ?body] =>
        destruct (moves_for_each_segments l body 4
                    (fun np ns => segment_move x0 y0 z0 limits (Patt1.positions ans np)
                                    (spherical_delta cos sin pi max_r ans ns)) ans)
          with (np := 1%nat) (ns := 0%nat) as [Hm Hr];
          [intros; apply random_limits_segment_run|]
    end.
    rewrite Hm, Hr, range_segments. split; reflexivity.
Qed.

(** The sign inversion on one axis: from a position inside the limits, a
    displacement of at most half their width is turned into one that ends
    inside the limits. *)
Lemma invert_at_limits_inside (c c0 neg pos d : Q) :
  c0 + neg <= c -> c <= c0 + pos ->
  2 * Qabs d <= pos - neg ->
  c0 + neg <= c + Patt1.invert_at_limits c c0 neg pos d /\
  c + Patt1.invert_at_limits c c0 neg pos d <= c0 + pos.
Proof.
  intros Hlo Hhi Hd. unfold Patt1.invert_at_limits, fabs.
  destruct (Qlt_le_dec (c + d) (c0 + neg)) as [H1 | H1];
    [|destruct (Qlt_le_dec (c0 + pos) (c + d)) as [H2 | H2]];
    revert Hd; apply (Qabs_case d); intros Hs Hd; split; lra.
Qed.

Lemma segment_move_inside (x0 y0 z0 : Q) (limits : Patt1.Limits) (p : Q * Q * Q * Q)
    (d : Q * Q * Q) :
  position_inside x0 y0 z0 limits p ->
  within_half_width limits d ->
  target_inside x0 y0 z0 limits (segment_move x0 y0 z0 limits p d).
Proof.
  destruct p as [[[t x] y] z], d as [[dx dy] dz].
  unfold position_inside, within_half_width, target_inside, inside, segment_move.
  cbn [Patt1.to_x Patt1.to_y Patt1.to_z].
  intros ((Hx1 & Hx2) & (Hy1 & Hy2) & (Hz1 & Hz2)) (Hdx & Hdy & Hdz).
  repeat split; now apply invert_at_limits_inside.
Qed.

(** X24.  In both random walks, segment by segment: a segment that reads
    a position inside the box around the position read at entry, and
    samples a displacement that is on each axis at most half the width of
    the box, asks for a move whose target is inside the box, whatever the
    other segments read and sample.  (The sign of the displacement is
    inverted on each axis where the sum would leave the box; the target is
    not clipped.) *)
Theorem random_walk_segment_inside_box (v : Walk) (limits : Patt1.Limits) (vel delay : Q)
    (segments : Z) (write_note : bool) (ans : Patt1.Answers) (t0 x0 y0 z0 : Q) (i : nat) :
  Patt1.positions ans 0 = (t0, x0, y0, z0) ->
  (i < Z.to_nat segments)%nat ->
  position_inside x0 y0 z0 limits (Patt1.positions ans (1 + i)) ->
  within_half_width limits (walk_delta v ans i) ->
  exists m,
    nth_error (Patt1.moves (walk_program v limits vel delay segments write_note) ans 0 0)
      (3 + i) = Some m /\
    m = segment_move x0 y0 z0 limits (Patt1.positions ans (1 + i)) (walk_delta v ans i) /\
    target_inside x0 y0 z0 limits m.
Proof.
  intros Href Hi Hp Hd.
  destruct (walk_program_moves v limits vel delay segments write_note ans) as [-> _].
  unfold walk_moves. rewrite Href.
  eexists. split; [|split; [reflexivity|]].
  - change (3 + i)%nat with (List.length (calibration_moves x0 y0 z0 limits) + i)%nat.
    rewrite nth_error_app2 by lia.
    replace (List.length (calibration_moves x0 y0 z0 limits) + i
             - List.length (calibration_moves x0 y0 z0 limits))%nat with i by lia.
    rewrite nth_error_map, nth_error_seq.
    assert (E : (i <? Z.to_nat segments)%nat = true) by (apply Nat.ltb_lt; exact Hi).
    rewrite E. reflexivity.
  - now apply segment_move_inside.
Qed.

Lemma random_walk_segment_inside_box_witness :
  (2 < Z.to_nat 20)%nat /\
  position_inside 0 0 1 main_limits (Patt1.positions edge_answers (1 + 2)) /\
  within_half_width main_limits (walk_delta (UniformXYZ main_max_xyz) edge_answers 2) /\
  Patt1.invert_at_limits (-1) 0 (-1.5) 1.5 (-1) == 1 /\
  exists m,
    nth_error (Patt1.moves (walk_program (UniformXYZ main_max_xyz) main_limits 0.5 2.0 20
                              false) edge_answers 0 0) (3 + 2) = Some m /\
    m = segment_move 0 0 1 main_limits (Patt1.positions edge_answers (1 + 2))
          (walk_delta (UniformXYZ main_max_xyz) edge_answers 2) /\
    target_inside 0 0 1 main_limits m.
Proof.
  assert (Hi : (2 < Z.to_nat 20)%nat) by (vm_compute; lia).
  assert (Hp : position_inside 0 0 1 main_limits (Patt1.positions edge_answers (1 + 2))).
  { cbn. unfold inside. cbn. repeat split; discriminate. }
  assert (Hd : within_half_width main_limits
                 (walk_delta (UniformXYZ main_max_xyz) edge_answers 2)).
  { cbn. repeat split; discriminate. }
  split; [exact Hi|]. split; [exact Hp|]. split; [exact Hd|]. split; [reflexivity|].
  exact (random_walk_segment_inside_box (UniformXYZ main_max_xyz) main_limits 0.5 2.0 20
           false edge_answers 0 0 0 1 2 eq_refl Hi Hp Hd).
Defined.

(** C2.  The documentation of [move_random_xyz] says the vehicle should
    not move outside the box around the position read at entry; the code
    does not keep that promise.  With the box and the step sizes of
    [main], on a vehicle that has drifted 0.3 m along X when the first
    segment starts, the displacement sampled on X is 0, the inverted one is
    0 too, and the target keeps the 0.3 m offset, outside the 0.1 m limit.
    And from a position inside the limits a large displacement is inverted
    into one that leaves them on the other side: from 0 in [-0.5, 0.5], the
    displacement -0.6 becomes 0.6. *)
Lemma random_walk_target_outside_box :
  (exists m,
     nth_error (Patt1.moves (Patt1.move_random_xyz main_max_xyz main_limits 0.5 2.0 1 false)
                  drifted_answers 0 0) 3 = Some m /\
     Patt1.to_x m == 0.3 /\ Patt1.x_pos main_limits == 0.1 /\
     ~ target_inside 0 0 1 main_limits m) /\
  (0 + -0.5 <= 0 /\ 0 <= 0 + 0.5 /\
   0 + Patt1.invert_at_limits 0 0 (-0.5) 0.5 (-0.6) == 0.6 /\
   ~ 0 + Patt1.invert_at_limits 0 0 (-0.5) 0.5 (-0.6) <= 0 + 0.5).
Proof.
  split.
  - eexists. split; [vm_compute; reflexivity|].
    split; [reflexivity|]. split; [reflexivity|].
    unfold target_inside, inside. cbn [Patt1.to_x Patt1.to_y Patt1.to_z].
    intros ((_ & H) & _). vm_compute in H. apply H. reflexivity.
  - split; [discriminate|]. split; [discriminate|].
    split; [reflexivity|]. intros H. vm_compute in H. apply H. reflexivity.
Qed.

(** A sweep reads the position once, and what it asks for is fixed by
    that reading. *)
Lemma simple_sweep_moves (p : Patt1.Prog unit) (ans ans' : Patt1.Answers) :
  simple_sweep p ->
  Patt1.positions ans 0 = Patt1.positions ans' 0 ->
  Patt1.position_reads p ans 0 0 = 1%nat /\
  Patt1.moves p ans 0 0 = Patt1.moves p ans' 0 0.
Proof.
  intros Hp Href. destruct Hp.
  - pose proof (move_x_simple_moves del_x vel delay repeats ans) as H.
    pose proof (move_x_simple_moves del_x vel delay repeats ans') as H'.
    rewrite <- Href in H'. destruct (Patt1.positions ans 0) as [[[t x0] y0] z0].
    destruct H as [Hm Hr], H' as [Hm' _]. split; [exact Hr | congruence].
  - pose proof (move_y_simple_moves del_y vel delay repeats ans) as H.
    pose proof (move_y_simple_moves del_y vel delay repeats ans') as H'.
    rewrite <- Href in H'. destruct (Patt1.positions ans 0) as [[[t x0] y0] z0].
    destruct H as [Hm Hr], H' as [Hm' _]. split; [exact Hr | congruence].
  - pose proof (move_z_simple_moves del_z vel delay repeats ans) as H.
    pose proof (move_z_simple_moves del_z vel delay repeats ans') as H'.
    rewrite <- Href in H'. destruct (Patt1.positions ans 0) as [[[t x0] y0] z0].
    destruct H as [Hm Hr], H' as [Hm' _]. split; [exact Hr | congruence].
  - pose proof (move_yz_simple_moves del_y del_z vel delay repeats write_note ans) as H.
    pose proof (move_yz_simple_moves del_y del_z vel delay repeats write_note ans') as H'.
    rewrite <- Href in H'. destruct (Patt1.positions ans 0) as [[[t x0] y0] z0].
    destruct H as [Hm Hr], H' as [Hm' _]. split; [exact Hr | congruence].
Qed.

Lemma segment_move_start (x0 y0 z0 : Q) (limits : Patt1.Limits) (p : Q * Q * Q * Q)
    (d : Q * Q * Q) :
  move_start (segment_move x0 y0 z0 limits p d) = place p.
Proof. destruct p as [[[t x] y] z], d as [[dx dy] dz]. reflexivity. Qed.

(** C9, as the code has it.  The four sweeps (X, Y, Z and Y-Z) read the
    position once, at entry, and every move they ask for is fixed by that
    reading: two runs that read the same position at entry ask for the same
    moves.  The two random walks read the position once at entry, which
    fixes the three calibration legs and the box, and once more at the
    start of each segment; the move of a segment starts at the position
    read for that segment and goes to that position plus the sampled
    displacement (sign-inverted at the limits of the box). *)
Theorem patterns_and_their_reference :
  (forall (p : Patt1.Prog unit) (ans ans' : Patt1.Answers),
     simple_sweep p ->
     Patt1.positions ans 0 = Patt1.positions ans' 0 ->
     Patt1.position_reads p ans 0 0 = 1%nat /\
     Patt1.moves p ans 0 0 = Patt1.moves p ans' 0 0) /\
  (forall (v : Walk) (limits : Patt1.Limits) (vel delay : Q) (segments : Z)
          (write_note : bool) (ans : Patt1.Answers),
     let p := walk_program v limits vel delay segments write_note in
     Patt1.position_reads p ans 0 0 = (1 + Z.to_nat segments)%nat /\
     Patt1.moves p ans 0 0 = walk_moves v limits segments ans /\
     (forall i, (i < Z.to_nat segments)%nat ->
        exists m, nth_error (Patt1.moves p ans 0 0) (3 + i) = Some m /\
                  move_start m = place (Patt1.positions ans (1 + i)))).
Proof.
  split; [exact simple_sweep_moves|].
  intros v limits vel delay segments write_note ans p.
  destruct (walk_program_moves v limits vel delay segments write_note ans) as [Hm Hr].
  fold p in Hm, Hr. split; [exact Hr|]. split; [exact Hm|].
  intros i Hi. rewrite Hm. unfold walk_moves.
  destruct (Patt1.positions ans 0) as [[[t x0] y0] z0].
  cbn [calibration_moves app Nat.add nth_error].
  eexists. split.
  - apply map_nth_error. rewrite nth_error_seq.
    destruct (Nat.ltb_spec i (Z.to_nat segments)); [reflexivity | lia].
  - cbn [Nat.add]. apply segment_move_start.
Qed.

Lemma patterns_and_their_reference_witness :
  Patt1.moves (Patt1.move_yz_simple 0.75 0.5 0.5 2.0 2 false) (hovering_answers middle_draw)
    0 0 =
  Patt1.moves (Patt1.move_yz_simple 0.75 0.5 0.5 2.0 2 false) drifted_answers 0 0.
Proof.
  apply (proj1 patterns_and_their_reference).
  - apply sweep_yz.
  - reflexivity.
Defined.

(** C9 as stated fails for the random walks.  Two runs of
    [move_random_xyz] that read the same position at entry and draw the
    same samples, one on a vehicle that hovers and one on a vehicle that has
    drifted by the first segment, ask for different moves: the segment
    starts from, and aims relative to, the position read during the
    pattern.  The position is read twice for one segment, not once. *)
Lemma random_walk_follows_live_telemetry :
  Patt1.positions (hovering_answers middle_draw) 0 = Patt1.positions drifted_answers 0 /\
  Patt1.samples (hovering_answers middle_draw) = Patt1.samples drifted_answers /\
  Patt1.moves (Patt1.move_random_xyz main_max_xyz main_limits 0.5 2.0 1 false)
    (hovering_answers middle_draw) 0 0 <>
  Patt1.moves (Patt1.move_random_xyz main_max_xyz main_limits 0.5 2.0 1 false)
    drifted_answers 0 0 /\
  Patt1.position_reads (Patt1.move_random_xyz main_max_xyz main_limits 0.5 2.0 1 false)
    drifted_answers 0 0 = 2%nat.
Proof.
  split; [reflexivity|]. split; [reflexivity|]. split; [|reflexivity].
  intros H.
  apply (f_equal (fun l => match nth_error l 3 with
                           | Some m => Qnum (Patt1.to_x m)
                           | None => 0%Z
                           end)) in H.
  vm_compute in H. discriminate H.
Qed.

(** ** Runs on concrete vehicles *)

(** A verified climb of 15 cm to the default fraction of 0.75, with a
    delay of half a second: the delay has passed on the second pass, the
    vehicle is 11.25 cm up on the fourth, and the call returns there. *)
Example send_abs_pos_verif_climb :
  let run := Options.send_abs_pos_verif 10 0 0 1 0 0 1.15 0.2 0.5 Options.default_complete
               "Takeoff" false climbing_world in
  fst run = Ok tt /\
  commands (trace (snd run)) = repeat (CSendAbsolutePosition 0 0 1.15 0.2 0 0) 4 /\
  reads (snd run) ChPosition = 4%nat.
Proof. vm_compute. repeat split. Qed.

(** The same climb with a budget of three passes is cut. *)
Example send_abs_pos_verif_cut :
  fst (Options.send_abs_pos_verif 3 0 0 1 0 0 1.15 0.2 0.5 Options.default_complete
         "Takeoff" false climbing_world) = OutOfFuel.
Proof. vm_compute. reflexivity. Qed.

(** The Y sweep of the specification's scenario: from (0, 0, 1) with
    [del_y = 0.75], one cycle. *)
Example move_y_simple_legs :
  Patt1.moves (Patt1.move_y_simple 0.75 0.5 2.0 1) (hovering_answers middle_draw) 0 0 =
  [Patt1.mkMove 0 0 1 0 (0 + 0.75) 1; Patt1.mkMove 0 (0 + 0.75) 1 0 0 1;
   Patt1.mkMove 0 0 1 0 (0 - 0.75) 1; Patt1.mkMove 0 (0 - 0.75) 1 0 0 1].
Proof. reflexivity. Qed.

(** A Z sweep of no height on the class: every verified move is complete
    on its first pass, every hold lasts until the clock has advanced three
    seconds. *)
Example move_z_simple_runs :
  let run := Patt1.run 20 (Patt1.move_z_simple 0 0.2 0 1) fresh_world in
  fst run = Ok tt /\ List.length (commands (trace (snd run))) = 13%nat.
Proof. vm_compute. repeat split. Qed.

(** ** Hold Controller *)

(** One pass of the loop body of [hover_w_del]. *)
Lemma hover_body_run (x0 y0 z0 t_hover t_sleep : Q) (pattern : string) (write_note : bool)
    (start_time : Q) (v : Options.HoverVars) (w : World) :
  exists w' te,
    Options.hover_body x0 y0 z0 t_hover t_sleep pattern write_note start_time v w =
      (Ok (te, (snd v + 1)%Z), w') /\
    (te = true <-> t_hover + t_sleep <= time_feed (feeds w) (reads w ChTime) - start_time) /\
    self w' = self w /\ feeds w' = feeds w /\
    reads w' ChPosition = S (reads w ChPosition) /\
    reads w' ChTime = S (reads w ChTime) /\
    commands (trace w') = commands (trace w) ++ [CSendAbsolutePosition x0 y0 z0 0.1 0 0].
Proof.
  destruct v as [te0 it].
  unfold Options.hover_body, Options.send_absolute_position, Options.drone,
    Options.get_position_data, Options.write_poll_row, Options.date_time_str,
    datetime_now, time_time, writerow, when, get_self, ask, emit, bind, ret; simpl.
  destruct (position_feed (feeds w) (reads w ChPosition)) as [[[t x] y] z].
  cbn.
  destruct (write_datafile (self w)) eqn:E; cbn;
    (eexists; eexists; split; [reflexivity|]); cbn;
    rewrite ?commands_app; simpl; rewrite ?app_nil_r;
    (split; [apply Qle_bool_iff|]); repeat split; reflexivity.
Qed.

(** X1.  [hover_w_del] reads the clock and the position, and then sends the
    position it has read, at 0.1 m/s, pass after pass; it returns exactly
    after the first pass whose clock reading is at least
    [t_hover + t_sleep] after the start, whatever the vehicle does. *)
Theorem hover_w_del_returns_on_first_expiry (fuel : nat) (t_hover t_sleep : Q)
    (pattern : string) (write_note : bool) (w : World) :
  let f := feeds w in
  let np := reads w ChPosition in
  let nt := reads w ChTime in
  let expired i := t_hover + t_sleep <= time_feed f (nt + i) - time_feed f nt in
  let '(_, x0, y0, z0) := position_feed f np in
  let cmd := CSendAbsolutePosition x0 y0 z0 0.1 0 0 in
  match Options.hover_w_del fuel t_hover t_sleep pattern write_note w with
  | (Ok _, w') =>
      exists k, (1 <= k <= fuel)%nat /\ expired k /\
        (forall i, (1 <= i < k)%nat -> ~ expired i) /\
        commands (trace w') = commands (trace w) ++ repeat cmd k /\
        reads w' ChPosition = (np + 1 + k)%nat /\
        self w' = self w
  | (OutOfFuel, w') =>
      (forall i, (1 <= i <= fuel)%nat -> ~ expired i) /\
      commands (trace w') = commands (trace w) ++ repeat cmd fuel
  | (Raise _, _) => False
  end.
Proof.
  cbv zeta.
  unfold Options.hover_w_del, time_time, Options.get_position_data.
  unfold bind at 1. unfold ask at 1. unfold bind at 1. unfold ask at 1.
  cbn [self feeds reads trace].
  change (bump ChTime (reads w) ChPosition) with (reads w ChPosition).
  destruct (position_feed (feeds w) (reads w ChPosition)) as [[[t x0] y0] z0] eqn:Epos.
  set (f := feeds w). set (np := reads w ChPosition). set (nt := reads w ChTime).
  set (expired := fun i : nat =>
         t_hover + t_sleep <= time_feed f (nt + i) - time_feed f nt).
  set (w1 := mkWorld (self w) f (bump ChPosition (bump ChTime (reads w))) (trace w)).
  set (cmd := CSendAbsolutePosition x0 y0 z0 0.1 0 0).
  set (start_time := time_feed f nt).
  pose (Inv := fun (j : nat) (v' : Options.HoverVars) (w' : World) =>
    self w' = self w /\ feeds w' = f /\
    reads w' ChPosition = (np + 1 + j)%nat /\ reads w' ChTime = (nt + 1 + j)%nat /\
    commands (trace w') = commands (trace w) ++ repeat cmd j /\
    match j with
    | O => True
    | S i => (fst v' = true <-> expired (S i))
    end).
  pose (stop := fun i : nat => expired (S i)).
  assert (Hbody : forall j s w', Inv j s w' -> negb (fst s) = true ->
            exists s' w'',
              Options.hover_body x0 y0 z0 t_hover t_sleep pattern write_note start_time
                s w' = (Ok s', w'') /\ Inv (S j) s' w'').
  { intros j s w' (Hs & Hf & Hp & Ht & Hcmd & _) _.
    destruct (hover_body_run x0 y0 z0 t_hover t_sleep pattern write_note start_time s w')
      as (w'' & te & Hrun & Hte & Hs' & Hf' & Hp' & Ht' & Hcmd').
    exists (te, (snd s + 1)%Z), w''. split; [exact Hrun|].
    rewrite Hf, Ht in *. unfold Inv. cbn [fst snd].
    split; [congruence|]. split; [congruence|].
    split; [rewrite Hp', Hp; lia|]. split; [rewrite Ht'; lia|].
    split.
    - rewrite Hcmd', Hcmd, <- app_assoc, repeat_snoc. reflexivity.
    - unfold expired. replace (nt + S j)%nat with (nt + 1 + j)%nat by lia. exact Hte. }
  assert (Hstop : forall j s w', Inv (S j) s w' -> (negb (fst s) = false <-> stop j)).
  { intros j [te it] w' (_ & _ & _ & _ & _ & Hte). cbn [fst] in *.
    unfold stop. rewrite <- Hte. destruct te; simpl; intuition congruence. }
  assert (H0 : Inv O (false, 0%Z) w1).
  { unfold Inv, w1. cbn. rewrite app_nil_r, !Nat.add_0_r.
    repeat split; lia. }
  pose proof (while_first_stop (fun v : Options.HoverVars => negb (fst v)) _ Inv stop
                Hbody Hstop fuel O (false, 0%Z) w1 H0 eq_refl) as H.
  unfold bind, ret. subst w1 start_time.
  match type of H with
  | match ?X with _ => _ end => destruct X as [[v' | e |] w']
  end; cbv beta iota.
  - destruct H as (k & Hk & Hdone & Hbefore & Hs & Hf & Hp & Ht & Hcmd & _).
    exists (S k). split; [lia|]. split; [exact Hdone|]. split.
    { intros i Hi. destruct i as [|i]; [lia|]. apply (Hbefore i). lia. }
    split; [exact Hcmd|]. split; [rewrite Hp; lia | exact Hs].
  - exact H.
  - destruct H as (Hbefore & s' & _ & _ & _ & _ & Hcmd & _). split; [|exact Hcmd].
    intros i Hi. destruct i as [|i]; [lia|]. apply (Hbefore i). lia.
Qed.

(** ** Further properties of the class and of the patterns *)

(** X3.  A Y sweep reads the position once and asks, cycle after cycle, for
    the four legs out to [y0 + del_y], back, out to [y0 - del_y], back, each
    leg a verified move with that leg's own start and target; from
    (0, 0, 1) with [del_y = 0.75] and one cycle these are the legs of the
    specification's scenario. *)
Theorem y_sweep_leg_sequence :
  (forall (del_y vel delay : Q) (repeats : Z) (ans : Patt1.Answers),
     let '(_, x0, y0, z0) := Patt1.positions ans 0 in
     Patt1.moves (Patt1.move_y_simple del_y vel delay repeats) ans 0 0 =
       cycles repeats (y_sweep x0 y0 z0 del_y) /\
     Patt1.position_reads (Patt1.move_y_simple del_y vel delay repeats) ans 0 0 = 1%nat) /\
  Patt1.moves (Patt1.move_y_simple 0.75 0.5 2.0 1) (hovering_answers middle_draw) 0 0 =
    [Patt1.mkMove 0 0 1 0 (0 + 0.75) 1; Patt1.mkMove 0 (0 + 0.75) 1 0 0 1;
     Patt1.mkMove 0 0 1 0 (0 - 0.75) 1; Patt1.mkMove 0 (0 - 0.75) 1 0 0 1].
Proof. split; [exact move_y_simple_moves | reflexivity]. Qed.

(** X4.  A verified move whose first pass already finds the delay passed and
    the move complete sends its command once and returns. *)
Theorem send_abs_pos_verif_one_pass (fuel : nat)
    (x0 y0 z0 x1 y1 z1 vel min_delay complete : Q) (pattern : string) (write_note : bool)
    (w : World) :
  let f := feeds w in
  let np := reads w ChPosition in
  let nt := reads w ChTime in
  (1 <= fuel)%nat ->
  done_at x0 y0 z0 x1 y1 z1 min_delay complete f (time_feed f nt) np (nt + 1) ->
  exists w',
    Options.send_abs_pos_verif fuel x0 y0 z0 x1 y1 z1 vel min_delay complete pattern
      write_note w = (Ok tt, w') /\
    commands (trace w') = commands (trace w) ++ [target_command x1 y1 z1 vel] /\
    reads w' ChPosition = (np + 1)%nat.
Proof.
  intros f np nt Hfuel Hdone. unfold Options.send_abs_pos_verif.
  set (w1 := mkWorld (self w) (feeds w) (bump ChTime (reads w)) (trace w)).
  assert (Hstart : time_time w = (Ok (time_feed f nt), w1)) by reflexivity.
  rewrite (bind_ok _ _ _ _ _ Hstart).
  pose proof (verif_loop_run x0 y0 z0 x1 y1 z1 vel min_delay complete pattern
                write_note (time_feed f nt) fuel (false, false, 0%Z) w1 eq_refl) as H.
  cbv zeta in H. unfold bind, ret.
  change (feeds w1) with f in H. change (trace w1) with (trace w) in H.
  change (reads w1 ChPosition) with np in H.
  change (reads w1 ChTime) with (S nt) in H.
  assert (Hdone0 : done_at x0 y0 z0 x1 y1 z1 min_delay complete f (time_feed f nt)
                     (np + 0) (S nt + 0)).
  { rewrite !Nat.add_0_r. replace (S nt) with (nt + 1)%nat by lia. exact Hdone. }
  destruct (while fuel _ _ _ w1) as [[v' | e |] w'].
  - destruct H as (k & Hk & _ & Hbefore & _ & _ & Hp & _ & Hc).
    destruct k as [|k]; [|exfalso; apply (Hbefore 0%nat); [lia | exact Hdone0]].
    exists w'. split; [reflexivity|]. split; [exact Hc | exact Hp].
  - contradiction.
  - destruct H as [Hbefore _]. exfalso. apply (Hbefore 0%nat); [lia | exact Hdone0].
Qed.

Lemma send_abs_pos_verif_one_pass_witness :
  exists w',
    Options.send_abs_pos_verif 1 0 0 0 0 0 0 (1 # 2) 0 Options.default_complete "Movement"
      false fresh_world = (Ok tt, w') /\
    commands (trace w') = [CSendAbsolutePosition 0 0 0 (1 # 2) 0 0].
Proof.
  destruct (send_abs_pos_verif_one_pass 1 0 0 0 0 0 0 (1 # 2) 0 Options.default_complete
              "Movement" false fresh_world) as (w' & E & Hc & _).
  - lia.
  - vm_compute. repeat split; discriminate.
  - exists w'. split; [exact E | exact Hc].
Defined.

(* ===================================================================== *)
(** * Further properties *)
(* ===================================================================== *)

(** ** What the operations do to the controller object *)

Lemma self_send_abs_pos_verif fuel x0 y0 z0 x1 y1 z1 vel min_delay complete pattern
    write_note :
  keeps self
    (Options.send_abs_pos_verif fuel x0 y0 z0 x1 y1 z1 vel min_delay complete pattern
       write_note).
Proof. apply keeps_send_abs_pos_verif; intros; reflexivity. Qed.

Lemma self_hover_w_del fuel t_hover t_sleep pattern write_note :
  keeps self (Options.hover_w_del fuel t_hover t_sleep pattern write_note).
Proof. apply keeps_hover_w_del; intros; reflexivity. Qed.

#[local] Hint Resolve self_send_abs_pos_verif self_hover_w_del : keeps.

Lemma self_send_abs_pos_w_output x0 y0 z0 x1 y1 z1 velocity pattern :
  keeps self (Options.send_abs_pos_w_output x0 y0 z0 x1 y1 z1 velocity pattern).
Proof. unfold Options.send_abs_pos_w_output. keeps. Qed.

#[local] Hint Resolve self_send_abs_pos_w_output : keeps.

Lemma self_run {A} fuel (p : Patt1.Prog A) : keeps self (Patt1.run fuel p).
Proof. induction p; cbn [Patt1.run]; keeps; auto. Qed.

Lemma self_get_drone_cal : keeps self Options.get_drone_cal.
Proof. unfold Options.get_drone_cal. keeps. Qed.

Lemma self_mov_xyz_abs movement_lim velocity :
  keeps self (Options.mov_xyz_abs movement_lim velocity).
Proof. unfold Options.mov_xyz_abs. keeps. Qed.

Lemma self_move_xyz_simple dist velocity :
  keeps self (Options.move_xyz_simple dist velocity).
Proof. unfold Options.move_xyz_simple, Options.simple_leg. keeps. Qed.

Lemma self_output_position pattern : keeps self (Options.output_position pattern).
Proof. unfold Options.output_position. keeps. Qed.

#[local] Hint Resolve self_get_drone_cal self_mov_xyz_abs self_move_xyz_simple
  self_output_position self_run : keeps.

(** X6.  Moving, holding, logging the position, reading the factors and
    running a pattern never change the controller object: the pairing and
    takeoff flags, the [calibrated] flag, the eight factors, the logging
    switch and the dwell time are after the operation what they were
    before it, whether it returns, raises or is cut. *)
Theorem motion_keeps_self (fuel : nat) (op : Op) (w : World) :
  is_motion op = true -> self (snd (perform fuel op w)) = self w.
Proof.
  intros H. revert w. change (keeps self (perform fuel op)).
  destruct op; try discriminate H; cbn [perform]; keeps.
Qed.

Lemma motion_keeps_self_witness :
  self (snd (perform 5 (CallMoveXyzSimple 0.5 0.5) there_and_back_world)) =
  self there_and_back_world.
Proof. apply motion_keeps_self. reflexivity. Defined.

Lemma flags_set_drone_cal l : keeps (fun w => flags (self w)) (Options.set_drone_cal l).
Proof. unfold Options.set_drone_cal, index. keeps. Qed.

Lemma calibrated_set_drone_cal_short l :
  (List.length l < 8)%nat ->
  keeps (fun w => calibrated (self w)) (Options.set_drone_cal l).
Proof.
  intros H. do 8 (destruct l as [|? l]; [intros w; reflexivity|]).
  cbn [List.length] in H. lia.
Qed.

Lemma flags_move_cal power_lev duration :
  keeps (fun w => (flags (self w), calibrated (self w)))
    (Options.move_cal power_lev duration).
Proof.
  assert (Hset : forall a b c d e f,
             keeps (fun w => (flags (self w), calibrated (self w)))
               (Options.set_drone_cal [a; b; c; d; e; f]))
    by (intros a b c d e f w; reflexivity).
  unfold Options.move_cal, Options.cal_trial. keeps.
Qed.

(** [drone_pair] sets the pairing flag and nothing else of the object. *)
Lemma drone_pair_self w :
  self (snd (Options.drone_pair w)) = Options.with_paired true (self w).
Proof.
  set (rest := (batt <- Options.get_battery ;;
     drone_temp <- Options.get_temperature ;;
     ' (t, x, y, z) <- Options.get_position_data ;;
     print "Temperature = {:.2f}\tBattery = {:.2f}" [drone_temp; batt] ;;
     me <- get_self ;;
     when (write_datafile me)
       (stamp <- Options.date_time_str Slashed ;;
        writerow [CStr "Pairing"; stamp; CStr "temp"; CNum drone_temp; CStr "battery";
                  CNum batt; CStr "position"; CNum t; CNum x; CNum y; CNum z]))).
  assert (H : keeps self rest) by (unfold rest; keeps).
  pose (w3 := snd ((print "Pairing drone ..." [] ;; Options.drone CPair ;;
                    modify_self (Options.with_paired true)) w)).
  transitivity (self (snd (rest w3))); [reflexivity|].
  rewrite (H w3). reflexivity.
Qed.

(** ** Polling loops as senders *)

(** A loop whose body always returns, keeps the object and the feeds, reads
    one position and sends [cmd] once: it sends [cmd] once per pass, and
    nothing else. *)
Lemma while_sends {S} (cond : S -> bool) (body : S -> M S) (cmd : Command) :
  (forall s w, exists s' w',
      body s w = (Ok s', w') /\ self w' = self w /\ feeds w' = feeds w /\
      reads w' ChPosition = Datatypes.S (reads w ChPosition) /\
      commands (trace w') = commands (trace w) ++ [cmd]) ->
  forall fuel s w,
    match while fuel cond body s w with
    | (Ok _, w') =>
        exists k, (k <= fuel)%nat /\ (cond s = true -> (1 <= k)%nat) /\
          self w' = self w /\ feeds w' = feeds w /\
          reads w' ChPosition = (reads w ChPosition + k)%nat /\
          commands (trace w') = commands (trace w) ++ repeat cmd k
    | (OutOfFuel, w') =>
        self w' = self w /\ feeds w' = feeds w /\
        commands (trace w') = commands (trace w) ++ repeat cmd fuel
    | (Raise _, _) => False
    end.
Proof.
  intros Hbody fuel. induction fuel as [|fuel IH]; intros s w.
  - cbn [while]. destruct (cond s).
    + cbn. rewrite app_nil_r. repeat split.
    + cbn. exists O. rewrite app_nil_r, Nat.add_0_r.
      repeat split; try reflexivity; try lia.
  - rewrite while_unfold. destruct (cond s) eqn:Ec.
    + destruct (Hbody s w) as (s' & w1 & Hrun & Hs & Hf & Hp & Hc).
      rewrite (bind_ok _ _ _ _ _ Hrun). specialize (IH s' w1).
      destruct (while fuel cond body s' w1) as [[v | e |] w'].
      * destruct IH as (k & Hk & _ & Hs' & Hf' & Hp' & Hc').
        exists (Datatypes.S k). split; [lia|]. split; [lia|].
        split; [congruence|]. split; [congruence|]. split; [lia|].
        rewrite Hc', Hc, <- app_assoc. reflexivity.
      * exact IH.
      * destruct IH as (Hs' & Hf' & Hc').
        split; [congruence|]. split; [congruence|].
        rewrite Hc', Hc, <- app_assoc. reflexivity.
    + cbn. exists O. rewrite app_nil_r, Nat.add_0_r.
      repeat split; try reflexivity; try lia.
Qed.

(** [send_abs_pos_verif] as a sender: the target command, once per pass and
    at least once, one position read per pass. *)
Lemma send_abs_pos_verif_sends fuel x0 y0 z0 x1 y1 z1 vel min_delay complete pattern
    write_note w :
  let cmd := target_command x1 y1 z1 vel in
  match Options.send_abs_pos_verif fuel x0 y0 z0 x1 y1 z1 vel min_delay complete pattern
          write_note w with
  | (Ok _, w') =>
      exists k, (1 <= k <= fuel)%nat /\
        self w' = self w /\ feeds w' = feeds w /\
        reads w' ChPosition = (reads w ChPosition + k)%nat /\
        commands (trace w') = commands (trace w) ++ repeat cmd k
  | (OutOfFuel, w') =>
      self w' = self w /\ feeds w' = feeds w /\
      commands (trace w') = commands (trace w) ++ repeat cmd fuel
  | (Raise _, _) => False
  end.
Proof.
  cbv zeta. unfold Options.send_abs_pos_verif.
  set (w1 := mkWorld (self w) (feeds w) (bump ChTime (reads w)) (trace w)).
  assert (Hstart : time_time w = (Ok (time_feed (feeds w) (reads w ChTime)), w1))
    by reflexivity.
  rewrite (bind_ok _ _ _ _ _ Hstart).
  pose proof (while_sends Options.verif_cond
                (Options.verif_body x0 y0 z0 x1 y1 z1 vel min_delay complete pattern
                   write_note (time_feed (feeds w) (reads w ChTime)))
                (target_command x1 y1 z1 vel)) as H.
  specialize (H ltac:(
    intros s w0;
    destruct (verif_body_run x0 y0 z0 x1 y1 z1 vel min_delay complete pattern write_note
                (time_feed (feeds w) (reads w ChTime)) s w0)
      as (w' & te & mc & Hrun & _ & _ & Hs & Hf & Hp & _ & Hc);
    eexists; exists w'; split; [exact Hrun|]; auto) fuel (false, false, 0%Z) w1).
  unfold bind.
  destruct (while fuel _ _ _ w1) as [[v' | e |] w'].
  - destruct H as (k & Hk & Hk1 & Hs & Hf & Hp & Hc). exists k.
    split; [split; [apply Hk1; reflexivity | exact Hk]|]. auto.
  - exact H.
  - exact H.
Qed.

(** [hover_w_del] as a sender: the position read at its start, at 0.1 m/s,
    once per pass and at least once. *)
Lemma hover_w_del_sends fuel t_hover t_sleep pattern write_note w :
  let '(_, x0, y0, z0) := position_feed (feeds w) (reads w ChPosition) in
  let cmd := CSendAbsolutePosition x0 y0 z0 0.1 0 0 in
  match Options.hover_w_del fuel t_hover t_sleep pattern write_note w with
  | (Ok _, w') =>
      exists k, (1 <= k <= fuel)%nat /\
        self w' = self w /\ feeds w' = feeds w /\
        reads w' ChPosition = (reads w ChPosition + 1 + k)%nat /\
        commands (trace w') = commands (trace w) ++ repeat cmd k
  | (OutOfFuel, w') =>
      self w' = self w /\ feeds w' = feeds w /\
      commands (trace w') = commands (trace w) ++ repeat cmd fuel
  | (Raise _, _) => False
  end.
Proof.
  unfold Options.hover_w_del, time_time, Options.get_position_data.
  unfold bind at 1. unfold ask at 1. unfold bind at 1. unfold ask at 1.
  cbn [self feeds reads trace].
  change (bump ChTime (reads w) ChPosition) with (reads w ChPosition).
  destruct (position_feed (feeds w) (reads w ChPosition)) as [[[t x0] y0] z0] eqn:Epos.
  set (w1 := mkWorld (self w) (feeds w) (bump ChPosition (bump ChTime (reads w)))
               (trace w)).
  pose proof (while_sends (fun v : Options.HoverVars => negb (fst v))
                (Options.hover_body x0 y0 z0 t_hover t_sleep pattern write_note
                   (time_feed (feeds w) (reads w ChTime)))
                (CSendAbsolutePosition x0 y0 z0 0.1 0 0)) as H.
  specialize (H ltac:(
    intros s w0;
    destruct (hover_body_run x0 y0 z0 t_hover t_sleep pattern write_note
                (time_feed (feeds w) (reads w ChTime)) s w0)
      as (w' & te & Hrun & _ & Hs & Hf & Hp & _ & Hc);
    eexists; exists w'; split; [exact Hrun|]; auto) fuel (false, 0%Z) w1).
  unfold bind, ret.
  match type of H with
  | match ?X with _ => _ end => destruct X as [[v' | e |] w']
  end; cbv beta iota.
  - destruct H as (k & Hk & Hk1 & Hs & Hf & Hp & Hc). exists k.
    split; [split; [apply Hk1; reflexivity | exact Hk]|].
    split; [exact Hs|]. split; [exact Hf|]. split; [|exact Hc].
    rewrite Hp. unfold w1. cbn. lia.
  - exact H.
  - exact H.
Qed.

(** ** Pairing, takeoff and landing *)

Lemma time_sleep_ok (s : Q) (w : World) :
  0 <= s ->
  time_sleep s w = (Ok tt, mkWorld (self w) (feeds w) (reads w) (trace w ++ [Sleep s])).
Proof.
  intros H. unfold time_sleep. destruct (Qlt_le_dec s 0) as [Hlt|_]; [|reflexivity].
  exfalso. apply (Qlt_irrefl 0). apply (Qle_lt_trans _ s); assumption.
Qed.

(** Runs the first statement of a sequence when it is a primitive that
    returns. *)
Ltac step := erewrite bind_ok by reflexivity; cbn [self feeds reads trace].
Ltac sleep H :=
  erewrite bind_ok by (apply time_sleep_ok; exact H); cbn [self feeds reads trace].

(** [drone_takeoff] on a paired controller. *)
Lemma drone_takeoff_run (fuel : nat) (delta_z : Q) (w : World) :
  paired (self w) = true ->
  0 <= dwell (self w) ->
  let '(_, x, y, z) := position_feed (feeds w) (reads w ChPosition) in
  let climb := target_command x y (z + delta_z) 0.2 in
  let '(r, w') := Options.drone_takeoff fuel delta_z w in
  self w' = Options.with_takeoff true (self w) /\
  match r with
  | Ok _ =>
      exists k, (1 <= k <= fuel)%nat /\
        commands (trace w') =
        commands (trace w) ++ [CSetTrim 0 0; CTakeoff] ++ repeat climb k ++ [CHover 3]
  | OutOfFuel =>
      commands (trace w') =
      commands (trace w) ++ [CSetTrim 0 0; CTakeoff] ++ repeat climb fuel
  | Raise _ => False
  end.
Proof.
  intros Hp Hd. unfold Options.drone_takeoff.
  rewrite (bind_ok get_self _ w w (self w) eq_refl).
  rewrite Hp. cbn [negb].
  unfold Options.drone, Options.get_trim, Options.get_position_data, print.
  step. step. destruct (trim_feed _ _) as [roll pitch]. step. step. step. step. step.
  cbn [self feeds reads trace].
  change (bump ChTrim (reads w) ChPosition) with (reads w ChPosition).
  destruct (position_feed (feeds w) (reads w ChPosition)) as [[[t x] y] z] eqn:Epos.
  sleep Hd. step.
  match goal with |- context [bind _ _ ?w0] => set (w6 := w0) end.
  assert (Hc6 : commands (trace w6) = commands (trace w) ++ [CSetTrim 0 0; CTakeoff]).
  { unfold w6. cbn [trace]. rewrite !commands_app. cbn. rewrite !app_nil_r.
    rewrite <- app_assoc. reflexivity. }
  pose proof (send_abs_pos_verif_sends fuel x y z x y (z + delta_z) 0.2 0.5
                Options.default_complete "Takeoff" false w6) as H.
  cbv zeta in H. unfold bind at 1.
  destruct (Options.send_abs_pos_verif fuel x y z x y (z + delta_z) 0.2 0.5
              Options.default_complete "Takeoff" false w6) as [[[] | e |] w7].
  - destruct H as (k & Hk & Hs & Hf & _ & Hc).
    step. destruct (position_feed (feeds w7) _) as [[[t' x'] y'] z'].
    assert (Hd7 : 0 <= dwell (self w)) by exact Hd.
    sleep Hd7.
    unfold Options.get_battery, Options.get_temperature, Options.date_time_str,
      datetime_now, writerow, when.
    destruct (write_datafile (self w)).
    + step. cbn. split; [exact Hs|].
      exists k. split; [exact Hk|].
      rewrite !commands_app, Hc, Hc6. cbn. rewrite !app_nil_r, <- !app_assoc.
      reflexivity.
    + step. cbn. split; [exact Hs|].
      exists k. split; [exact Hk|].
      rewrite !commands_app, Hc, Hc6. cbn. rewrite !app_nil_r, <- !app_assoc.
      reflexivity.
  - destruct H.
  - destruct H as (Hs & _ & Hc). split; [exact Hs|].
    rewrite Hc, Hc6, <- app_assoc. reflexivity.
Qed.

(** X7.  [drone_takeoff] on a controller that is not paired prints its
    message and does nothing else: no command, the object unchanged.  On a
    paired one (the dwell time not negative) it never raises; it sets the
    trim to zero, sends the takeoff command and from then on the takeoff
    flag is set, also when the climb that follows never completes; when it
    returns it has sent the climb target (the position read after takeoff,
    raised by [delta_z], at 0.2 m/s) at least once and then a 3 s hover, and
    nothing else. *)
Theorem drone_takeoff_guard_and_climb (fuel : nat) (delta_z : Q) (w : World) :
  0 <= dwell (self w) ->
  let '(_, x, y, z) := position_feed (feeds w) (reads w ChPosition) in
  let climb := target_command x y (z + delta_z) 0.2 in
  let '(r, w') := Options.drone_takeoff fuel delta_z w in
  if paired (self w) then
    self w' = Options.with_takeoff true (self w) /\
    match r with
    | Ok _ =>
        exists k, (1 <= k <= fuel)%nat /\
          commands (trace w') =
          commands (trace w) ++ [CSetTrim 0 0; CTakeoff] ++ repeat climb k ++ [CHover 3]
    | OutOfFuel =>
        commands (trace w') =
        commands (trace w) ++ [CSetTrim 0 0; CTakeoff] ++ repeat climb fuel
    | Raise _ => False
    end
  else r = Ok tt /\ self w' = self w /\ commands (trace w') = commands (trace w).
Proof.
  intros Hd. destruct (paired (self w)) eqn:Hp.
  - exact (drone_takeoff_run fuel delta_z w Hp Hd).
  - unfold Options.drone_takeoff.
    rewrite (bind_ok get_self _ w w (self w) eq_refl), Hp. cbn [negb].
    destruct (position_feed _ _) as [[[t x] y] z]. cbn.
    rewrite commands_app, app_nil_r. auto.
Qed.

Lemma drone_takeoff_guard_and_climb_witness :
  let '(_, x, y, z) := position_feed (feeds paired_world) (reads paired_world ChPosition) in
  let climb := target_command x y (z + 0.5) 0.2 in
  let '(r, w') := Options.drone_takeoff 20 0.5 paired_world in
  if paired (self paired_world) then
    self w' = Options.with_takeoff true (self paired_world) /\
    match r with
    | Ok _ =>
        exists k, (1 <= k <= 20)%nat /\
          commands (trace w') =
          commands (trace paired_world) ++
          [CSetTrim 0 0; CTakeoff] ++ repeat climb k ++ [CHover 3]
    | OutOfFuel =>
        commands (trace w') =
        commands (trace paired_world) ++ [CSetTrim 0 0; CTakeoff] ++ repeat climb 20
    | Raise _ => False
    end
  else r = Ok tt /\ self w' = self paired_world /\
       commands (trace w') = commands (trace paired_world).
Proof.
  apply (drone_takeoff_guard_and_climb 20 0.5 paired_world). unfold Qle. cbn. lia.
Defined.

(** [drone_land]: the hold, two land commands, the flag. *)
Lemma drone_land_run (fuel : nat) (w : World) :
  let '(_, x, y, z) := position_feed (feeds w) (reads w ChPosition) in
  let hold := CSendAbsolutePosition x y z 0.1 0 0 in
  let '(r, w') := Options.drone_land fuel w in
  match r with
  | Ok _ =>
      exists k, (1 <= k <= fuel)%nat /\
        commands (trace w') = commands (trace w) ++ repeat hold k ++ [CLand; CLand] /\
        self w' = Options.with_takeoff false (self w)
  | OutOfFuel =>
      commands (trace w') = commands (trace w) ++ repeat hold fuel /\ self w' = self w
  | Raise _ => False
  end.
Proof.
  pose proof (hover_w_del_sends fuel 2 1 "Hover" false w) as H.
  destruct (position_feed (feeds w) (reads w ChPosition)) as [[[t x] y] z] eqn:Epos.
  cbv zeta in *. unfold Options.drone_land. unfold bind at 1.
  destruct (Options.hover_w_del fuel 2 1 "Hover" false w) as [[[] | e |] w1].
  - destruct H as (k & Hk & Hs & Hf & _ & Hc).
    unfold Options.drone, Options.get_battery, Options.get_temperature,
      Options.get_position_data, print.
    step. step. step. step. step.
    destruct (position_feed (feeds w1) _) as [[[t' x'] y'] z'].
    rewrite range_2. cbn [for_each]. step.
    unfold Options.date_time_str, datetime_now, writerow, when. step.
    destruct (write_datafile (self w1)); step; cbn;
      (exists k; split; [exact Hk|]; split; [|rewrite Hs; reflexivity]);
      rewrite !commands_app, Hc; cbn; rewrite !app_nil_r, <- !app_assoc; reflexivity.
  - exact H.
  - destruct H as (Hs & _ & Hc). split; [exact Hc | exact Hs].
Qed.

(** X8.  [drone_land] has no guard: whatever the flags, it holds the
    position it reads at its start until 3 s have passed, then sends the
    land command twice and clears the takeoff flag.  It never raises; if
    the hold never ends, no land command is sent and the flag stays. *)
Theorem drone_land_holds_then_lands_twice (fuel : nat) (w : World) :
  let '(_, x, y, z) := position_feed (feeds w) (reads w ChPosition) in
  let hold := CSendAbsolutePosition x y z 0.1 0 0 in
  let '(r, w') := Options.drone_land fuel w in
  match r with
  | Ok _ =>
      exists k, (1 <= k <= fuel)%nat /\
        commands (trace w') = commands (trace w) ++ repeat hold k ++ [CLand; CLand] /\
        self w' = Options.with_takeoff false (self w)
  | OutOfFuel =>
      commands (trace w') = commands (trace w) ++ repeat hold fuel /\ self w' = self w
  | Raise _ => False
  end.
Proof. exact (drone_land_run fuel w). Qed.

(** ** What every operation does to the flags *)

(** [drone_takeoff] sets the takeoff flag when the controller is paired,
    and touches nothing else of the object, however it ends. *)
Lemma drone_takeoff_self fuel delta_z w :
  self (snd (Options.drone_takeoff fuel delta_z w)) =
  if paired (self w) then Options.with_takeoff true (self w) else self w.
Proof.
  unfold Options.drone_takeoff.
  rewrite (bind_ok get_self _ w w (self w) eq_refl).
  destruct (paired (self w)); cbn [negb]; [|reflexivity].
  unfold Options.drone, Options.get_trim, print.
  step. step. destruct (trim_feed _ _) as [roll pitch]. step. step. step. step.
  match goal with
  | |- self (snd (?rest ?w0)) = _ =>
      assert (H : keeps self rest) by keeps; exact (H w0)
  end.
Qed.

Lemma assigns_last_bind {A B} f (m : M A) (k : A -> M B) :
  keeps self m -> (forall a, assigns_last f (k a)) -> assigns_last f (bind m k).
Proof.
  intros Hm Hk w. unfold bind. specialize (Hm w).
  destruct (m w) as [[a | e |] w1]; cbn [snd] in *; [|left; exact Hm ..].
  rewrite <- Hm. apply Hk.
Qed.

Lemma drone_land_self fuel : assigns_last (Options.with_takeoff false) (Options.drone_land fuel).
Proof.
  unfold Options.drone_land.
  repeat (apply assigns_last_bind; [keeps | intros]).
  repeat match goal with |- assigns_last _ (let '_ := ?p in _) => destruct p end.
  repeat (apply assigns_last_bind; [keeps | intros]).
  intros w. right. reflexivity.
Qed.

(** How one operation changes the flags of the object. *)
Lemma perform_flags fuel op w :
  let d := self w in
  let d' := self (snd (perform fuel op w)) in
  dwell d' = dwell d /\
  (paired d = true -> paired d' = true) /\
  (takeoff d' = true -> takeoff d = true \/ paired d' = true) /\
  (calibrated d' = calibrated d \/
   exists l, op = CallSetDroneCal l /\ (8 <= List.length l)%nat).
Proof.
  cbv zeta.
  assert (Hsame : self (snd (perform fuel op w)) = self w ->
                  dwell (self (snd (perform fuel op w))) = dwell (self w) /\
                  (paired (self w) = true -> paired (self (snd (perform fuel op w))) = true) /\
                  (takeoff (self (snd (perform fuel op w))) = true ->
                   takeoff (self w) = true \/ paired (self (snd (perform fuel op w))) = true) /\
                  (calibrated (self (snd (perform fuel op w))) = calibrated (self w) \/
                   exists l, op = CallSetDroneCal l /\ (8 <= List.length l)%nat)).
  { intros E. rewrite E. auto. }
  destruct op as [|l| |delta_z| |power_lev duration| | | | | | |]; cbn [perform] in *;
    try (apply Hsame; match goal with |- self (snd (?m w)) = _ =>
                        assert (K : keeps self m) by keeps; exact (K w) end).
  - (* set_drone_cal *)
    clear Hsame. pose proof (flags_set_drone_cal l w) as Hf. cbv beta in Hf.
    unfold flags in Hf. injection Hf as Hp Ht _ Hd.
    split; [exact Hd|]. split; [congruence|]. split; [left; congruence|].
    destruct (Nat.lt_ge_cases (List.length l) 8) as [Hl|Hl].
    + left. exact (calibrated_set_drone_cal_short l Hl w).
    + right. exists l. split; [reflexivity | exact Hl].
  - (* drone_pair *)
    clear Hsame. rewrite drone_pair_self. cbn. auto.
  - (* drone_takeoff *)
    clear Hsame. rewrite drone_takeoff_self.
    destruct (paired (self w)) eqn:Hp; cbn; rewrite ?Hp; auto.
  - (* drone_land *)
    destruct (drone_land_self fuel w) as [E|E]; [apply Hsame; exact E|].
    clear Hsame. rewrite E. cbn. repeat split; auto. discriminate.
  - (* move_cal *)
    clear Hsame. pose proof (flags_move_cal power_lev duration w) as Hf. cbv beta in Hf.
    unfold flags in Hf. injection Hf as Hp Ht _ Hd Hc.
    split; [exact Hd|]. split; [congruence|]. split; [left; congruence|]. left. exact Hc.
Qed.

(** X9.  In every state the class can reach from its constructor, by any
    sequence of its operations on any vehicle, a controller that has taken
    off is paired, and the dwell time is the 5 s of the constructor: so the
    [time.sleep(self.dwell)] of takeoff never raises. *)
Theorem reachable_flight_state (w : World) :
  reachable w -> flight_state_ok (self w) /\ dwell (self w) = 5.
Proof.
  unfold flight_state_ok. induction 1 as [wd f | w fuel op _ [IHf IHd] _].
  - cbn. split; [discriminate | reflexivity].
  - destruct (perform_flags fuel op w) as (Hd & Hp & Ht & _).
    split; [|congruence].
    intros H. destruct (Ht H) as [H'|H']; [auto | exact H'].
Qed.

Lemma reachable_flight_state_witness :
  flight_state_ok (self flown_world) /\ dwell (self flown_world) = 5.
Proof.
  apply reachable_flight_state.
  apply (reachable_step _ _ 20 (CallDroneTakeoff 0.5)); [|exact I].
  apply (reachable_step _ new_world 0 CallDronePair); [|exact I].
  apply reachable_init.
Defined.

(** X10.  The [calibrated] flag is set by [set_drone_cal] on a list of at
    least eight values and by nothing else: in a state reached without such a
    call it is still false.  In particular [move_cal], which calls
    [set_drone_cal] on six values, never marks the controller calibrated. *)
Theorem calibrated_only_by_full_set_drone_cal (w : World) :
  reachable_when no_full_set_drone_cal w -> calibrated (self w) = false.
Proof.
  induction 1 as [wd f | w fuel op _ IH Hallowed].
  - reflexivity.
  - destruct (perform_flags fuel op w) as (_ & _ & _ & [Hc | (l & -> & Hl)]).
    + congruence.
    + cbn in Hallowed. lia.
Qed.

Lemma calibrated_only_by_full_set_drone_cal_witness :
  calibrated (self (snd (perform 0 (CallMoveCal 20 1) flown_world))) = false.
Proof.
  apply calibrated_only_by_full_set_drone_cal.
  apply (reachable_step _ flown_world 0 (CallMoveCal 20 1)); [|exact I].
  apply (reachable_step _ _ 20 (CallDroneTakeoff 0.5)); [|exact I].
  apply (reachable_step _ new_world 0 CallDronePair); [|exact I].
  apply reachable_init.
Defined.

(** ** What a calibration sends *)

(** One trial: the nine commands up to its division and, when the
    division succeeds, the reset of the pitch. *)
Lemma cal_trial_sends (power_lev duration : Q) (l : list Q) (w : World) :
  let y n := feed_y (feeds w) (reads w ChPosition + n) in
  let zero := Qeq_bool (y 2%nat - y 1%nat) 0 in
  exists w' r,
    Options.cal_trial power_lev duration l w = (r, w') /\
    (if zero then r = Raise ZeroDivisionError else exists l', r = Ok l') /\
    feeds w' = feeds w /\
    reads w' ChPosition = (reads w ChPosition + 3)%nat /\
    commands (trace w') =
      commands (trace w) ++ trial_commands power_lev duration ++
      (if zero then [] else [CSetPitch 0]).
Proof.
  cbv zeta. unfold feed_y.
  replace (reads w ChPosition + 1)%nat with (S (reads w ChPosition)) by lia.
  replace (reads w ChPosition + 2)%nat with (S (S (reads w ChPosition))) by lia.
  unfold Options.cal_trial, Options.drone, Options.get_position_data, print, time_sleep,
    ask, emit, bind, ret, div, raise; cbn.
  repeat (destruct_feed; cbn).
  match goal with |- context [Qeq_bool ?a 0] => destruct (Qeq_bool a 0) end; cbn;
    (eexists; eexists; split; [reflexivity|]); cbn;
    (split; [try reflexivity; eexists; reflexivity|]);
    (split; [reflexivity|]); (split; [lia|]);
    rewrite !commands_app; cbn; rewrite !app_nil_r, <- !app_assoc; reflexivity.
Qed.

(** X11.  Called while paired and taken off, [move_cal] never returns
    normally, and what it has sent when it stops is fixed by where it
    stops.  A trial sends throttle 0, roll 0, pitch [power_lev], hover,
    move, hover, pitch [-power_lev], move, hover, and resets the pitch to 0
    only after its division.  So on [ZeroDivisionError] the last pitch sent
    is [-power_lev] and no reset follows; on [IndexError] both trials ran
    complete and nothing is sent after the second reset. *)
Theorem move_cal_stops_on_an_exception (power_lev duration : Q) (w : World) :
  paired (self w) && takeoff (self w) = true ->
  let trial := trial_commands power_lev duration in
  let '(r, w') := Options.move_cal power_lev duration w in
  match r with
  | Raise ZeroDivisionError =>
      commands (trace w') = commands (trace w) ++ trial \/
      commands (trace w') = commands (trace w) ++ trial ++ [CSetPitch 0] ++ trial
  | Raise IndexError =>
      commands (trace w') =
      commands (trace w) ++ trial ++ [CSetPitch 0] ++ trial ++ [CSetPitch 0]
  | _ => False
  end.
Proof.
  intros Hpre. cbv zeta.
  unfold Options.move_cal.
  rewrite (bind_ok get_self _ w w (self w) eq_refl). rewrite Hpre. cbn [negb].
  rewrite range_2. cbn [for_fold].
  destruct (cal_trial_sends power_lev duration [] w) as (w1 & r1 & E1 & Hr1 & _ & _ & Hc1).
  cbv zeta in Hr1, Hc1. unfold bind at 1. unfold bind at 1. rewrite E1.
  destruct (Qeq_bool _ 0) in Hr1, Hc1.
  { subst r1. left. rewrite Hc1, app_nil_r. reflexivity. }
  destruct Hr1 as [l1 ->].
  destruct (cal_trial_sends power_lev duration l1 w1) as (w2 & r2 & E2 & Hr2 & _ & _ & Hc2).
  cbv zeta in Hr2, Hc2. unfold bind at 1. rewrite E2.
  destruct (Qeq_bool _ 0) in Hr2, Hc2.
  { subst r2. right. rewrite Hc2, Hc1, app_nil_r, <- !app_assoc. reflexivity. }
  destruct Hr2 as [l2 ->]. cbn [ret].
  unfold print. step. step. step. step. step. step. step. step.
  erewrite bind_raise by apply set_drone_cal_six. cbn [trace].
  rewrite !commands_app. cbn. rewrite !app_nil_r, Hc2, Hc1, <- !app_assoc. reflexivity.
Qed.

Lemma move_cal_stops_on_an_exception_witness :
  let trial := trial_commands 20 1 in
  let '(r, w') := Options.move_cal 20 1 there_and_back_world in
  match r with
  | Raise ZeroDivisionError =>
      commands (trace w') = commands (trace there_and_back_world) ++ trial \/
      commands (trace w') =
      commands (trace there_and_back_world) ++ trial ++ [CSetPitch 0] ++ trial
  | Raise IndexError =>
      commands (trace w') =
      commands (trace there_and_back_world) ++
      trial ++ [CSetPitch 0] ++ trial ++ [CSetPitch 0]
  | _ => False
  end.
Proof. apply (move_cal_stops_on_an_exception 20 1 there_and_back_world). reflexivity. Defined.

(** ** Moves at a speed that is zero or negative *)

Lemma range_nonpos (n : Z) : (n <= 0)%Z -> range n = [].
Proof. intros H. unfold range. replace (Z.to_nat n) with O by lia. reflexivity. Qed.

Lemma send_abs_pos_w_output_zero_speed (x0 y0 z0 x1 y1 z1 velocity : Q)
    (pattern : string) (w : World) :
  velocity == 0 ->
  Options.send_abs_pos_w_output x0 y0 z0 x1 y1 z1 velocity pattern w =
  (Raise ZeroDivisionError, w).
Proof.
  intros E. unfold Options.send_abs_pos_w_output.
  rewrite (sqrt_run _ (sum_of_squares_nonneg _ _ _)), bind_ret_l.
  rewrite (fdiv_zero _ _ E). reflexivity.
Qed.

(** X12.  [send_abs_pos_w_output] does not check its speed.  At speed zero
    it ends in [ZeroDivisionError] before anything is sent, read or logged;
    at a negative speed the segment count is not positive, so it returns
    normally without any effect: no command, the target not either. *)
Theorem send_abs_pos_w_output_bad_speed (x0 y0 z0 x1 y1 z1 velocity : Q)
    (pattern : string) (w : World) :
  velocity <= 0 ->
  Options.send_abs_pos_w_output x0 y0 z0 x1 y1 z1 velocity pattern w =
  (if Qeq_bool velocity 0 then Raise ZeroDivisionError else Ok tt, w).
Proof.
  intros Hv. destruct (Qeq_bool velocity 0) eqn:E.
  - apply Qeq_bool_iff in E. apply send_abs_pos_w_output_zero_speed. exact E.
  - apply Qeq_bool_neq in E. unfold Options.send_abs_pos_w_output.
    rewrite (sqrt_run _ (sum_of_squares_nonneg _ _ _)), bind_ret_l.
    rewrite (fdiv_nonzero _ _ E), bind_ret_l.
    rewrite (fdiv_nonzero _ _ delta_t_nonzero), bind_ret_l.
    assert (Hneg : velocity < 0)
      by (apply Qle_lteq in Hv; destruct Hv; [assumption|contradiction]).
    assert (Hdiv : forall s d : Q, 0 <= s -> d < 0 -> s / d <= 0).
    { intros s d Hs Hd.
      assert (Hi : 0 < / - d) by (apply Qinv_lt_0_compat; lra).
      assert (Ed : s / d == - (s * / - d)) by (field; lra).
      rewrite Ed. assert (0 <= s * / - d) by (apply Qmult_le_0_compat; lra). lra. }
    assert (Hdiv' : forall s d : Q, s <= 0 -> 0 < d -> s / d <= 0).
    { intros s d Hs Hd. apply Qle_shift_div_r; [exact Hd|]. lra. }
    match goal with
    | |- context [round ?q] =>
        assert (Hq : q <= 0);
          [|apply round_nonpos in Hq; revert Hq; generalize (round q)]
    end.
    { apply binary64_nonpos, Hdiv'; [|exact delta_t_positive].
      apply binary64_nonpos, Hdiv; [apply sqrt_value_nonneg | exact Hneg]. }
    intros n Hn.
    assert (Hd : forall a0 a1 : Q,
               (if (n =? 0)%Z then ret 0 else fdiv (fsub a1 a0) (inject_Z n)) =
               ret (segment_delta a0 a1 n)).
    { intros a0 a1. unfold segment_delta. destruct (Z.eqb_spec n 0) as [|Hn0]; [reflexivity|].
      apply fdiv_nonzero. intros E0. apply Hn0.
      unfold Qeq in E0. cbn in E0. lia. }
    rewrite !Hd, !bind_ret_l, (range_nonpos n Hn). reflexivity.
Qed.

Lemma send_abs_pos_w_output_bad_speed_witness :
  Options.send_abs_pos_w_output 0 0 1 0 0 2 (- (1 # 2)) "Movement" there_and_back_world =
  (Ok tt, there_and_back_world) /\
  Options.send_abs_pos_w_output 0 0 1 0 0 2 0 "Movement" there_and_back_world =
  (Raise ZeroDivisionError, there_and_back_world).
Proof.
  split.
  - apply (send_abs_pos_w_output_bad_speed 0 0 1 0 0 2 (- (1 # 2))). discriminate.
  - apply (send_abs_pos_w_output_bad_speed 0 0 1 0 0 2 0). discriminate.
Defined.

(** ** Composite moves *)

Lemma returns_sending_bind d (m k : M unit) cs cs' n n' :
  returns_sending d m cs n -> returns_sending d k cs' n' ->
  returns_sending d (m ;; k) (cs ++ cs') (n + n').
Proof.
  intros Hm Hk w Hw. destruct (Hm w Hw) as (w1 & E1 & Hs1 & Hc1 & Hr1).
  destruct (Hk w1 Hs1) as (w2 & E2 & Hs2 & Hc2 & Hr2).
  exists w2. rewrite (bind_ok _ _ _ _ _ E1). split; [exact E2|]. split; [exact Hs2|].
  split.
  - rewrite Hc2, Hc1, <- app_assoc. reflexivity.
  - rewrite Hr2, Hr1. unfold logged_reads. destruct (write_datafile d); lia.
Qed.

Lemma returns_sending_twice d (m : M unit) cs n :
  returns_sending d m cs n ->
  returns_sending d (for_each (range 2) (fun _ => m)) (cs ++ cs) (n + n).
Proof.
  intros H. rewrite range_2. cbn [for_each].
  replace (cs ++ cs) with (cs ++ cs ++ []) by (rewrite app_nil_r; reflexivity).
  replace (n + n)%nat with (n + (n + 0))%nat by lia.
  repeat apply returns_sending_bind; try exact H.
  intros w Hw. exists w. rewrite app_nil_r. unfold logged_reads.
  repeat split; [exact Hw|]. destruct (write_datafile d); lia.
Qed.

Lemma returns_sending_drone d c : returns_sending d (Options.drone c) [c] 0.
Proof.
  intros w Hw. eexists. split; [reflexivity|]. split; [exact Hw|].
  cbn [trace reads]. rewrite commands_app. split; [reflexivity|].
  unfold logged_reads. destruct (write_datafile d); lia.
Qed.

Lemma returns_sending_output_position d pattern :
  returns_sending d (Options.output_position pattern) [] 1.
Proof.
  intros w Hw. unfold Options.output_position, Options.date_time_str, datetime_now,
    Options.get_position_data, writerow, when, logged_reads.
  step. subst d. destruct (write_datafile (self w)).
  - step. step. destruct (position_feed _ _) as [[[t x] y] z].
    eexists. split; [reflexivity|]. split; [reflexivity|].
    cbn [trace reads]. rewrite commands_app, !app_nil_r. split; [reflexivity|].
    unfold bump. cbn. lia.
  - exists w. rewrite app_nil_r. repeat split. lia.
Qed.

(** One leg of [move_xyz_simple] where the division and the sleep go
    through. *)
Lemma returns_sending_simple_leg d note x y z dist velocity pattern :
  ~ velocity == 0 -> 0 <= dwell d + dist / velocity ->
  returns_sending d (Options.simple_leg note x y z dist velocity pattern)
    [target_command x y z velocity] 1.
Proof.
  intros Hv Hs w Hw. unfold Options.simple_leg, Options.send_absolute_position,
    Options.drone, print.
  subst d. step. step. step. rewrite (div_nonzero _ _ Hv), bind_ret_l.
  sleep Hs.
  match goal with |- context [Options.output_position pattern ?w0] =>
    destruct (returns_sending_output_position (self w) pattern w0 eq_refl)
      as (w' & E & Hs' & Hc & Hr)
  end.
  exists w'. split; [exact E|]. split; [exact Hs'|]. split; [|exact Hr].
  rewrite Hc. cbn [trace]. rewrite !commands_app. cbn.
  rewrite !app_nil_r. reflexivity.
Qed.

(** One leg where they do not: the command has been sent when the
    exception is raised, and the position has not been read. *)
Lemma simple_leg_raises note x y z dist velocity pattern w :
  velocity == 0 \/ dwell (self w) + dist / velocity < 0 ->
  exists w',
    Options.simple_leg note x y z dist velocity pattern w =
      (Raise (if Qeq_bool velocity 0 then ZeroDivisionError else ValueError), w') /\
    self w' = self w /\
    commands (trace w') = commands (trace w) ++ [target_command x y z velocity] /\
    reads w' = reads w.
Proof.
  intros H. unfold Options.simple_leg, Options.send_absolute_position, Options.drone, print.
  step. step. step. unfold div, time_sleep.
  destruct (Qeq_bool velocity 0) eqn:E.
  - eexists. split; [reflexivity|]. split; [reflexivity|].
    cbn [trace reads]. rewrite !commands_app. cbn. rewrite app_nil_r. split; reflexivity.
  - apply Qeq_bool_neq in E. destruct H as [H|H]; [contradiction|].
    rewrite bind_ret_l.
    destruct (Qlt_le_dec (dwell (self w) + dist / velocity) 0) as [_|Hge].
    + eexists. split; [reflexivity|]. split; [reflexivity|].
      cbn [trace reads]. rewrite !commands_app. cbn. rewrite app_nil_r. split; reflexivity.
    + exfalso. apply (Qlt_irrefl 0). eapply Qle_lt_trans; eassumption.
Qed.

(** X13.  [move_xyz_simple] reads the position once to plan, and then
    sends, twice over, the nine targets around that position, each
    followed by a sleep of [dwell + dist/velocity] seconds.  When the data
    file is written it reads the position again for every row it logs: one
    row before the first target and one after each sleep, nineteen in a
    call that returns.  The command goes out before the sleep time is
    computed: at speed zero the first target has already been sent, with
    velocity 0, when [ZeroDivisionError] is raised, and likewise when the
    sleep time is negative and [time.sleep] raises [ValueError]; otherwise
    the call returns having sent the eighteen targets and nothing else. *)
Theorem move_xyz_simple_sends (dist velocity : Q) (w : World) :
  let '(_, x0, y0, z0) := position_feed (feeds w) (reads w ChPosition) in
  let cycle := simple_cycle x0 y0 z0 dist velocity in
  let '(r, w') := Options.move_xyz_simple dist velocity w in
  self w' = self w /\
  if Qeq_bool velocity 0 then
    r = Raise ZeroDivisionError /\
    commands (trace w') = commands (trace w) ++ [target_command (x0 + dist) y0 z0 velocity] /\
    reads w' ChPosition = (reads w ChPosition + 1 + logged_reads (self w) 1)%nat
  else if Qlt_le_dec (dwell (self w) + dist / velocity) 0 then
    r = Raise ValueError /\
    commands (trace w') = commands (trace w) ++ [target_command (x0 + dist) y0 z0 velocity] /\
    reads w' ChPosition = (reads w ChPosition + 1 + logged_reads (self w) 1)%nat
  else
    r = Ok tt /\ commands (trace w') = commands (trace w) ++ cycle ++ cycle /\
    reads w' ChPosition = (reads w ChPosition + 1 + logged_reads (self w) 19)%nat.
Proof.
  unfold Options.move_xyz_simple, Options.get_position_data. step.
  destruct (position_feed (feeds w) (reads w ChPosition)) as [[[t0 x0] y0] z0].
  cbv zeta.
  match goal with |- context [bind (Options.output_position ?p) _ ?w0] =>
    destruct (returns_sending_output_position (self w) p w0 eq_refl)
      as (w1 & E1 & Hs1 & Hc1 & Hr1)
  end.
  rewrite (bind_ok _ _ _ _ _ E1). cbn [trace reads] in Hc1, Hr1. rewrite app_nil_r in Hc1.
  assert (Hr1' : reads w1 ChPosition = (reads w ChPosition + 1 + logged_reads (self w) 1)%nat).
  { rewrite Hr1. unfold bump. cbn. lia. }
  destruct (Qeq_bool velocity 0) eqn:Ev;
    [|destruct (Qlt_le_dec (dwell (self w) + dist / velocity) 0) as [Hlt|Hge]].
  - rewrite range_2. cbn [for_each].
    destruct (simple_leg_raises "Moving forward" (x0 + dist) y0 z0 dist velocity
                "XYZ_simple" w1) as (w2 & E2 & Hs2 & Hc2 & Hr2).
    { left. apply Qeq_bool_iff. exact Ev. }
    rewrite Ev in E2.
    unfold bind at 1. unfold bind at 1. rewrite E2.
    split; [congruence|]. split; [reflexivity|]. split.
    + rewrite Hc2, Hc1. reflexivity.
    + rewrite Hr2. exact Hr1'.
  - rewrite range_2. cbn [for_each].
    destruct (simple_leg_raises "Moving forward" (x0 + dist) y0 z0 dist velocity
                "XYZ_simple" w1) as (w2 & E2 & Hs2 & Hc2 & Hr2).
    { right. rewrite Hs1. exact Hlt. }
    rewrite Ev in E2.
    unfold bind at 1. unfold bind at 1. rewrite E2.
    split; [congruence|]. split; [reflexivity|]. split.
    + rewrite Hc2, Hc1. reflexivity.
    + rewrite Hr2. exact Hr1'.
  - apply Qeq_bool_neq in Ev.
    match goal with |- context [for_each (range 2) (fun _ => ?body)] =>
      assert (Hbody : returns_sending (self w) body (simple_cycle x0 y0 z0 dist velocity) 9)
    end.
    { unfold simple_cycle.
      change 9%nat with (1 + (1 + (1 + (1 + (1 + (1 + (1 + (1 + 1))))))))%nat.
      repeat match goal with
      | |- returns_sending _ (bind _ _) (?c :: ?c' :: ?cs) _ =>
          apply (returns_sending_bind _ _ _ [c] (c' :: cs))
      end; apply returns_sending_simple_leg; assumption. }
    destruct (returns_sending_twice _ _ _ _ Hbody w1 Hs1) as (w2 & E2 & Hs2 & Hc2 & Hr2).
    rewrite E2. split; [exact Hs2|]. split; [reflexivity|]. split.
    + rewrite Hc2, Hc1. reflexivity.
    + rewrite Hr2, Hr1'. unfold logged_reads. destruct (write_datafile (self w)); lia.
Qed.

Lemma returns_sending_send_abs_pos_w_output d x0 y0 z0 x1 y1 z1 velocity pattern :
  ~ velocity == 0 ->
  returns_sending d (Options.send_abs_pos_w_output x0 y0 z0 x1 y1 z1 velocity pattern)
    (segment_commands x0 y0 z0 x1 y1 z1 velocity)
    (List.length (segment_commands x0 y0 z0 x1 y1 z1 velocity)).
Proof.
  intros Hv w Hw.
  destruct (send_abs_pos_w_output_run x0 y0 z0 x1 y1 z1 velocity pattern w Hv)
    as (w' & E & Hc & Hs & Hr).
  exists w'. split; [exact E|]. split; [congruence|]. split; [exact Hc|].
  rewrite Hr, Hw. unfold logged_reads, segment_commands.
  now rewrite length_map, range_segments.
Qed.

(** X14.  [mov_xyz_abs] reads the position once and plans every leg from
    that reading: at a speed that is not zero it returns, the object
    unchanged, having sent twice over the segments of the nine legs (on
    each axis out, across and back), with a 1 s hover after the first two
    legs of each axis and nothing else; when the data file is written it
    reads the position once more after each segment command, for the row
    it logs.  At speed zero it ends in [ZeroDivisionError] in its first
    leg, before any command and any further read. *)
Theorem mov_xyz_abs_sends (movement_lim velocity : Q) (w : World) :
  let '(_, x0, y0, z0) := position_feed (feeds w) (reads w ChPosition) in
  let cycle := abs_cycle x0 y0 z0 movement_lim velocity in
  let '(r, w') := Options.mov_xyz_abs movement_lim velocity w in
  self w' = self w /\
  if Qeq_bool velocity 0 then
    r = Raise ZeroDivisionError /\ commands (trace w') = commands (trace w) /\
    reads w' ChPosition = (reads w ChPosition + 1)%nat
  else
    r = Ok tt /\ commands (trace w') = commands (trace w) ++ cycle ++ cycle /\
    reads w' ChPosition =
      (reads w ChPosition + 1 +
       logged_reads (self w)
         (2 * abs_cycle_segments x0 y0 z0 movement_lim velocity))%nat.
Proof.
  unfold Options.mov_xyz_abs, Options.get_position_data. step.
  destruct (position_feed (feeds w) (reads w ChPosition)) as [[[t0 x0] y0] z0].
  cbv zeta.
  destruct (Qeq_bool velocity 0) eqn:Ev.
  - rewrite range_2. cbn [for_each].
    unfold bind at 1. unfold bind at 1.
    rewrite send_abs_pos_w_output_zero_speed by (apply Qeq_bool_iff; exact Ev).
    cbn [snd self trace reads]. repeat split. unfold bump. cbn. lia.
  - apply Qeq_bool_neq in Ev.
    match goal with |- context [for_each (range 2) (fun _ => ?body)] =>
      assert (Hbody : returns_sending (self w) body
                        (abs_cycle x0 y0 z0 movement_lim velocity)
                        (abs_cycle_segments x0 y0 z0 movement_lim velocity))
    end.
    { assert (El : abs_cycle_segments x0 y0 z0 movement_lim velocity =
                   let z1 := fadd z0 movement_lim in
                   let z2 := fsub z0 movement_lim in
                   let y1 := fadd y0 movement_lim in
                   let y2 := fsub y0 movement_lim in
                   let x1 := fadd x0 movement_lim in
                   let x2 := fsub x0 movement_lim in
                   (List.length (segment_commands x0 y0 z0 x0 y0 z1 velocity) + (0 +
                   (List.length (segment_commands x0 y0 z1 x0 y0 z2 velocity) + (0 +
                   (List.length (segment_commands x0 y0 z2 x0 y0 z0 velocity) +
                   (List.length (segment_commands x0 y0 z0 x0 y1 z0 velocity) + (0 +
                   (List.length (segment_commands x0 y1 z0 x0 y2 z0 velocity) + (0 +
                   (List.length (segment_commands x0 y2 z0 x0 y0 z0 velocity) +
                   (List.length (segment_commands x0 y0 z0 x1 y0 z0 velocity) + (0 +
                   (List.length (segment_commands x1 y0 z0 x2 y0 z0 velocity) + (0 +
                   List.length (segment_commands x2 y0 z0 x0 y0 z0 velocity)))))))))))))))%nat).
      { unfold abs_cycle_segments, abs_cycle. cbv zeta.
        rewrite !length_app. cbn [List.length]. lia. }
      rewrite El. unfold abs_cycle. cbv zeta.
      repeat first
        [ apply returns_sending_send_abs_pos_w_output; assumption
        | apply (returns_sending_bind _ _ _ [CHover 1]);
            [apply returns_sending_drone|]
        | apply returns_sending_bind;
            [apply returns_sending_send_abs_pos_w_output; assumption|] ]. }
    match goal with |- context [for_each _ _ ?w0] =>
      destruct (returns_sending_twice _ _ _ _ Hbody w0 eq_refl)
        as (w2 & E2 & Hs2 & Hc2 & Hr2)
    end.
    rewrite E2. split; [exact Hs2|]. split; [reflexivity|]. split; [exact Hc2|].
    rewrite Hr2. cbn [reads self]. unfold bump. cbn [Channel_eqb].
    unfold logged_reads. destruct (write_datafile (self w)); lia.
Qed.

(** On a controller that writes its data file, [move_xyz_simple] reads the
    position 20 times, and [mov_xyz_abs] over 0.5 m at 0.5 m/s 481 times:
    once to plan, and once for each of the 20, 40 and 20 segments of the
    three axes, twice over. *)
Example composite_moves_logged_reads :
  reads (snd (Options.move_xyz_simple 0.5 0.5 logging_world)) ChPosition = 20%nat /\
  reads (snd (Options.mov_xyz_abs 0.5 0.5 logging_world)) ChPosition = 481%nat /\
  abs_cycle_segments 0 0 1 0.5 0.5 = 240%nat /\
  planned_segments 0 0 0 0 0 (binary64 0.3375) 0.5 = 14%Z /\
  planned_segments 0 0 0 0 0 0.375 5 = 1%Z.
Proof. repeat split; vm_compute; reflexivity. Qed.

(** ** The profile: setter and getter *)

(** X15.  [set_drone_cal] assigns the factors one by one, so it is not
    atomic.  On a list of at least eight values the getter then returns the
    first eight and [calibrated] is set.  On a shorter list it ends in
    [IndexError] after having overwritten as many factors, from [pitch_f]
    on, as the list has values; the rest keep their old values and
    [calibrated] is not set.  The flags, the logging switch and the dwell
    time are not touched in either case. *)
Theorem set_drone_cal_then_get (l : list Q) (w : World) :
  let '(r, w') := (Options.set_drone_cal l ;; Options.get_drone_cal) w in
  flags (self w') = flags (self w) /\
  factors (self w') = firstn 8 l ++ skipn (List.length l) (factors (self w)) /\
  if (8 <=? List.length l)%nat then r = Ok (firstn 8 l) /\ calibrated (self w') = true
  else r = Raise IndexError /\ calibrated (self w') = calibrated (self w).
Proof.
  do 8 (destruct l as [|? l]; [lazy; repeat split|]).
  set (rest := skipn _ (factors (self w))).
  assert (E : rest = []) by (apply skipn_all2; cbn [List.length factors]; lia).
  clearbody rest. subst rest. lazy. repeat split.
Qed.

(** ** Step sizes and heights of the patterns *)

Lemma invert_at_limits_abs (c c0 neg pos d : Q) :
  Qabs (Patt1.invert_at_limits c c0 neg pos d) == Qabs d.
Proof.
  unfold Patt1.invert_at_limits, fabs.
  destruct (Qlt_le_dec (c + d) (c0 + neg));
    [|destruct (Qlt_le_dec (c0 + pos) (c + d))].
  - apply Qabs_pos. apply Qabs_nonneg.
  - rewrite Qabs_opp. apply Qabs_pos. apply Qabs_nonneg.
  - reflexivity.
Qed.

Lemma segment_move_step (x0 y0 z0 : Q) (limits : Patt1.Limits) (p : Q * Q * Q * Q)
    (dx dy dz bx by_ bz : Q) :
  Qabs dx <= bx -> Qabs dy <= by_ -> Qabs dz <= bz ->
  step_within (bx, by_, bz) (segment_move x0 y0 z0 limits p (dx, dy, dz)).
Proof.
  destruct p as [[[t x] y] z]. intros Hx Hy Hz.
  unfold step_within, segment_move. cbn [Patt1.to_x Patt1.to_y Patt1.to_z Patt1.from_x
    Patt1.from_y Patt1.from_z].
  assert (E : forall a b : Q, a + b - a == b) by (intros; ring).
  rewrite !E, !invert_at_limits_abs. auto.
Qed.

Lemma Qabs_le_bound (a lo hi : Q) : - hi <= lo -> lo <= a -> a <= hi -> Qabs a <= hi.
Proof. intros H1 H2 H3. apply Qabs_Qle_condition. split; lra. Qed.

Lemma Qabs_product_le (r s b : Q) : 0 <= r -> r <= b -> Qabs s <= 1 -> Qabs (r * s) <= b.
Proof.
  intros Hr Hb Hs. rewrite Qabs_Qmult, (Qabs_pos r Hr).
  pose proof (Qabs_nonneg s) as H0. nra.
Qed.

(** X16.  The sign inversion at the limits changes the direction of a
    step, never its length.  So, when every draw lies in the range it was
    asked for, every step of [move_random_xyz] displaces the vehicle by at
    most [max_xyz] on each axis, and every step of [move_random_limits] by
    at most [max_r] on each axis (for a cosine and a sine within [-1, 1]),
    wherever the vehicle is when the segment starts. *)
Theorem random_walk_steps_bounded (v : Walk) (limits : Patt1.Limits) (vel delay : Q)
    (segments : Z) (write_note : bool) (ans : Patt1.Answers) :
  walk_well_formed v ->
  draws_in_range ans ->
  Forall (step_within (step_bound v))
    (skipn 3 (Patt1.moves (walk_program v limits vel delay segments write_note) ans 0 0)).
Proof.
  intros Hv Hd.
  destruct (walk_program_moves v limits vel delay segments write_note ans) as [-> _].
  unfold walk_moves. destruct (Patt1.positions ans 0) as [[[t0 x0] y0] z0].
  cbn [calibration_moves app skipn].
  apply Forall_forall. intros m Hm. apply in_map_iff in Hm.
  destruct Hm as (i & <- & _).
  destruct v as [[[mx my] mz] | cos sin pi max_r];
    cbn [walk_well_formed step_bound walk_delta xyz_delta spherical_delta] in *.
  - destruct Hv as (Hx & Hy & Hz).
    apply segment_move_step.
    + destruct (Hd (3 * i)%nat (- mx) mx) as [H1 H2]; [lra|].
      apply (Qabs_le_bound _ (- mx)); [lra | exact H1 | exact H2].
    + destruct (Hd (S (3 * i)) (- my) my) as [H1 H2]; [lra|].
      apply (Qabs_le_bound _ (- my)); [lra | exact H1 | exact H2].
    + destruct (Hd (S (S (3 * i))) (- mz) mz) as [H1 H2]; [lra|].
      apply (Qabs_le_bound _ (- mz)); [lra | exact H1 | exact H2].
  - destruct Hv as (Hr & Htrig).
    destruct (Hd (4 * i)%nat (0.5 * max_r) max_r) as [H1 H2]; [lra|].
    set (r := Patt1.samples ans (4 * i) (0.5 * max_r) max_r) in *.
    assert (Hr0 : 0 <= r) by lra.
    apply segment_move_step.
    + rewrite <- Qmult_assoc. apply Qabs_product_le; [exact Hr0 | exact H2 |].
      rewrite Qabs_Qmult.
      pose proof (proj2 (Htrig (Patt1.samples ans (S (4 * i)) 0 pi))) as Ha.
      pose proof (proj2 (Htrig (Patt1.samples ans (S (S (4 * i))) 0 (2 * pi)))) as Hb.
      pose proof (Qabs_nonneg (sin (Patt1.samples ans (S (4 * i)) 0 pi))).
      pose proof (Qabs_nonneg (sin (Patt1.samples ans (S (S (4 * i))) 0 (2 * pi)))).
      nra.
    + rewrite <- Qmult_assoc. apply Qabs_product_le; [exact Hr0 | exact H2 |].
      rewrite Qabs_Qmult.
      pose proof (proj2 (Htrig (Patt1.samples ans (S (4 * i)) 0 pi))) as Ha.
      pose proof (proj1 (Htrig (Patt1.samples ans (S (S (4 * i))) 0 (2 * pi)))) as Hb.
      pose proof (Qabs_nonneg (sin (Patt1.samples ans (S (4 * i)) 0 pi))).
      pose proof (Qabs_nonneg (cos (Patt1.samples ans (S (S (4 * i))) 0 (2 * pi)))).
      nra.
    + apply Qabs_product_le; [exact Hr0 | exact H2 |]. apply Htrig.
Qed.

Lemma random_walk_steps_bounded_witness :
  Forall (step_within (step_bound (UniformXYZ main_max_xyz)))
    (skipn 3 (Patt1.moves (walk_program (UniformXYZ main_max_xyz) main_limits 0.5 2.0 20
                             false) drifted_answers 0 0)).
Proof.
  apply (random_walk_steps_bounded (UniformXYZ main_max_xyz) main_limits 0.5 2.0 20 false
           drifted_answers).
  - cbn. repeat split; discriminate.
  - intros k a b H. cbn. unfold middle_draw. split.
    + apply Qle_shift_div_l; [reflexivity | lra].
    + apply Qle_shift_div_r; [reflexivity | lra].
Defined.

Lemma reduced_del_z_bounds (del_z z0 : Q) :
  0 <= del_z -> 0 <= z0 ->
  0 <= Patt1.reduced_del_z del_z z0 /\
  Patt1.reduced_del_z del_z z0 <= (0.75 + sweep_rounding) * z0.
Proof.
  intros Hd Hz. unfold Patt1.reduced_del_z, fmul, sweep_rounding.
  pose proof (binary64_accurate (0.75 * z0)) as Ha.
  assert (Hp : 0 <= binary64 (0.75 * z0)) by (apply binary64_nonneg; lra).
  rewrite (Qabs_pos (0.75 * z0)) in Ha by lra.
  apply Qabs_Qle_condition in Ha. destruct Ha as [_ Ha].
  change (1 # 2 ^ 53) with (1 # 9007199254740992) in Ha.
  change (1 # 2 ^ 51) with (1 # 2251799813685248).
  destruct (Qlt_le_dec del_z (binary64 (0.75 * z0))); split; lra.
Qed.

Lemma z_sweep_heights (x0 y0 z0 d : Q) :
  0 <= d -> d <= (0.75 + sweep_rounding) * z0 ->
  Forall (height_between ((0.25 - sweep_rounding) * z0) ((1.75 + sweep_rounding) * z0))
    (z_sweep x0 y0 z0 d).
Proof.
  intros H0 H1. unfold z_sweep, height_between, sweep_rounding in *.
  change (1 # 2 ^ 51) with (1 # 2251799813685248) in *.
  repeat constructor; cbn [Patt1.from_z Patt1.to_z]; lra.
Qed.

Lemma y_sweep_heights (x0 y0 z0 d : Q) :
  0 <= z0 ->
  Forall (height_between ((0.25 - sweep_rounding) * z0) ((1.75 + sweep_rounding) * z0))
    (y_sweep x0 y0 z0 d).
Proof.
  intros H0. unfold y_sweep, height_between, sweep_rounding.
  change (1 # 2 ^ 51) with (1 # 2251799813685248).
  repeat constructor; cbn [Patt1.from_z Patt1.to_z]; lra.
Qed.

Lemma Forall_cycles (P : Patt1.Move -> Prop) (repeats : Z) (legs : list Patt1.Move) :
  Forall P legs -> Forall P (cycles repeats legs).
Proof.
  intros H. unfold cycles. apply Forall_concat. apply Forall_map.
  apply Forall_forall. intros i _. exact H.
Qed.

(** X17.  The reduction of [del_z] keeps the vertical sweeps off the
    ground.  For a requested [del_z] that is not negative and a height
    [z0 >= 0] read at entry, every move of [move_z_simple] and of
    [move_yz_simple] starts and ends between a quarter of [z0] and
    [1.75 * z0], however large [del_z] is, up to the rounding of the
    product [0.75 * z0]: between [(0.25 - 2^-51) * z0] and
    [(1.75 + 2^-51) * z0].  (The quarter itself can be missed: from 0.4
    the sweep goes down to 0.09999999999999998.) *)
Theorem vertical_sweeps_keep_their_height (del_y del_z vel delay : Q) (repeats : Z)
    (write_note : bool) (ans : Patt1.Answers) (t0 x0 y0 z0 : Q) :
  Patt1.positions ans 0 = (t0, x0, y0, z0) ->
  0 <= del_z -> 0 <= z0 ->
  Forall (height_between ((0.25 - sweep_rounding) * z0) ((1.75 + sweep_rounding) * z0))
    (Patt1.moves (Patt1.move_z_simple del_z vel delay repeats) ans 0 0) /\
  Forall (height_between ((0.25 - sweep_rounding) * z0) ((1.75 + sweep_rounding) * z0))
    (Patt1.moves (Patt1.move_yz_simple del_y del_z vel delay repeats write_note) ans 0 0).
Proof.
  intros Href Hd Hz.
  destruct (reduced_del_z_bounds del_z z0 Hd Hz) as [H0 H1].
  pose proof (move_z_simple_moves del_z vel delay repeats ans) as Hmz.
  pose proof (move_yz_simple_moves del_y del_z vel delay repeats write_note ans) as Hmyz.
  rewrite Href in Hmz, Hmyz. destruct Hmz as [-> _], Hmyz as [-> _].
  split; apply Forall_cycles.
  - apply z_sweep_heights; assumption.
  - apply Forall_app. split; [apply y_sweep_heights | apply z_sweep_heights]; assumption.
Qed.

Lemma vertical_sweeps_keep_their_height_witness :
  Forall (height_between ((0.25 - sweep_rounding) * binary64 0.4)
            ((1.75 + sweep_rounding) * binary64 0.4))
    (Patt1.moves (Patt1.move_z_simple 1.0 0.5 2.0 2) low_hover_answers 0 0) /\
  Forall (height_between ((0.25 - sweep_rounding) * binary64 0.4)
            ((1.75 + sweep_rounding) * binary64 0.4))
    (Patt1.moves (Patt1.move_yz_simple 0.75 1.0 0.5 2.0 2 false) low_hover_answers 0 0).
Proof.
  apply (vertical_sweeps_keep_their_height 0.75 1.0 0.5 2.0 2 false
           low_hover_answers 0 0 0 (binary64 0.4)).
  - reflexivity.
  - discriminate.
  - vm_compute. discriminate.
Defined.

(** ** What the patterns ask for, and what a run of them sends *)

Lemma always_requests {A} (P : Request -> Prop) (p : Patt1.Prog A) (ans : Patt1.Answers) :
  always P p -> forall np ns, Forall P (requests p ans np ns).
Proof.
  induction p as [a | k IH | ? ? ? ? ? ? ? ? ? ? ? k IH | ? ? ? ? k IH | a b k IH];
    cbn [always requests]; intros H np ns.
  - constructor.
  - destruct H as [H0 H]. constructor; [exact H0 | apply IH, H].
  - destruct H as [H0 H]. constructor; [exact H0 | apply IH, H].
  - destruct H as [H0 H]. constructor; [exact H0 | apply IH, H].
  - destruct H as [H0 H]. constructor; [exact H0 | apply IH, H].
Qed.

Lemma always_pbind {A B} (P : Request -> Prop) (p : Patt1.Prog A) (f : A -> Patt1.Prog B) :
  always P p -> (forall a, always P (f a)) -> always P (Patt1.pbind p f).
Proof.
  intros Hp Hf.
  induction p as [a | k IH | ? ? ? ? ? ? ? ? ? ? ? k IH | ? ? ? ? k IH | a b k IH];
    cbn [always Patt1.pbind] in *.
  - apply Hf.
  - destruct Hp as [H0 H]. split; [exact H0 | intros r; apply IH, H].
  - destruct Hp as [H0 H]. split; [exact H0 | apply IH, H].
  - destruct Hp as [H0 H]. split; [exact H0 | apply IH, H].
  - destruct Hp as [H0 H]. split; [exact H0 | intros r; apply IH, H].
Qed.

Lemma always_for_each {A} (P : Request -> Prop) (l : list A) (body : A -> Patt1.Prog unit) :
  (forall x, always P (body x)) -> always P (Patt1.for_each l body).
Proof.
  intros H. induction l as [|x l IH]; cbn [Patt1.for_each]; [exact I|].
  apply always_pbind; [apply H | intros _; exact IH].
Qed.

Ltac check_requests :=
  repeat first
    [ apply always_for_each; intros
    | apply always_pbind; [|intros]
    | match goal with
      | |- always _ (let '_ := ?p in _) => destruct p
      end
    | progress cbn [always Patt1.get_position_data Patt1.send_abs_pos_verif
                    Patt1.hover_w_del Patt1.random_uniform as_asked]
    | split
    | reflexivity
    | intros ].

(** X18.  Every verified move that one of the six patterns asks for is
    flown at the speed [vel] and with the minimum delay [delay] the pattern
    was called with, and with the default completion fraction 0.75; every
    hold lasts 3 s in the four sweeps and 2 s in the two random walks.  In
    particular the velocity that [move_random_limits] draws for each
    segment is not the one the segment is flown at. *)
Theorem patterns_fly_as_called (vel delay hold : Q) (p : Patt1.Prog unit)
    (ans : Patt1.Answers) :
  pattern_call vel delay hold p ->
  Forall (as_asked vel delay hold) (requests p ans 0 0).
Proof.
  intros H. apply always_requests.
  destruct H as [del_x repeats | del_y repeats | del_z repeats | del_y del_z repeats wn
                 | cos sin pi max_r limits segments wn | [[mx my] mz] limits num_segs wn].
  - unfold Patt1.move_x_simple. check_requests.
  - unfold Patt1.move_y_simple. check_requests.
  - unfold Patt1.move_z_simple. check_requests.
  - unfold Patt1.move_yz_simple. check_requests.
  - unfold Patt1.move_random_limits, Patt1.calibration_legs, Patt1.random_limits_segment.
    check_requests.
  - unfold Patt1.move_random_xyz, Patt1.calibration_legs, Patt1.random_xyz_segment.
    check_requests.
Qed.

Lemma patterns_fly_as_called_witness :
  Forall (as_asked 0.5 2.0 2)
    (requests (Patt1.move_random_limits cos_near_0 sin_near_0 3.14 0.5 main_limits 0.5 2.0
                 10 false) drifted_answers 0 0).
Proof. apply patterns_fly_as_called. apply call_random_limits. Defined.

Lemma Forall_repeat {A} (P : A -> Prop) (a : A) (n : nat) : P a -> Forall P (repeat a n).
Proof. intros H. induction n; cbn; constructor; assumption. Qed.

(** What a pattern run sends. *)
Lemma run_sends_positions {A} (p : Patt1.Prog A) (fuel : nat) (w : World) :
  let '(r, w') := Patt1.run fuel p w in
  (forall e, r <> Raise e) /\
  exists cs, commands (trace w') = commands (trace w) ++ cs /\
             Forall is_position_command cs.
Proof.
  revert w.
  induction p as [a | k IH | x0 y0 z0 x1 y1 z1 vel d c pat n k IH | th ts pat n k IH
                  | a b k IH]; intros w; cbn [Patt1.run].
  - cbn. split; [discriminate|]. exists []. rewrite app_nil_r. split; constructor.
  - unfold Options.get_position_data. step.
    match goal with |- context [Patt1.run fuel (k ?r) ?w1] => exact (IH r w1) end.
  - pose proof (send_abs_pos_verif_sends fuel x0 y0 z0 x1 y1 z1 vel d c pat n w) as H.
    cbv zeta in H. unfold bind.
    destruct (Options.send_abs_pos_verif fuel x0 y0 z0 x1 y1 z1 vel d c pat n w)
      as [[[] | e |] w1].
    + destruct H as (j & _ & _ & _ & _ & Hc). specialize (IH w1).
      destruct (Patt1.run fuel k w1) as [r w'].
      destruct IH as (Hr & cs & Hcs & Hpos). split; [exact Hr|].
      exists (repeat (target_command x1 y1 z1 vel) j ++ cs).
      split; [rewrite Hcs, Hc, <- app_assoc; reflexivity|].
      apply Forall_app. split; [apply Forall_repeat; split; reflexivity | exact Hpos].
    + destruct H.
    + destruct H as (_ & _ & Hc). split; [discriminate|].
      exists (repeat (target_command x1 y1 z1 vel) fuel). split; [exact Hc|].
      apply Forall_repeat. split; reflexivity.
  - pose proof (hover_w_del_sends fuel th ts pat n w) as H.
    destruct (position_feed (feeds w) (reads w ChPosition)) as [[[t x] y] z].
    cbv zeta in H. unfold bind.
    destruct (Options.hover_w_del fuel th ts pat n w) as [[[] | e |] w1].
    + destruct H as (j & _ & _ & _ & _ & Hc). specialize (IH w1).
      destruct (Patt1.run fuel k w1) as [r w'].
      destruct IH as (Hr & cs & Hcs & Hpos). split; [exact Hr|].
      exists (repeat (CSendAbsolutePosition x y z 0.1 0 0) j ++ cs).
      split; [rewrite Hcs, Hc, <- app_assoc; reflexivity|].
      apply Forall_app. split; [apply Forall_repeat; split; reflexivity | exact Hpos].
    + destruct H.
    + destruct H as (_ & _ & Hc). split; [discriminate|].
      exists (repeat (CSendAbsolutePosition x y z 0.1 0 0) fuel). split; [exact Hc|].
      apply Forall_repeat. split; reflexivity.
  - unfold random_uniform. step.
    match goal with |- context [Patt1.run fuel (k ?r) ?w1] => exact (IH r w1) end.
Qed.

(** X19.  A pattern run on the class never raises, whatever the flags of
    the controller (the patterns check none): it returns or spends its
    budget in a polling loop.  Whatever it sends is an absolute-position
    command with heading and rotation 0: no pattern pairs, takes off, lands
    or hovers by command. *)
Theorem pattern_run_sends_positions_only {A} (p : Patt1.Prog A) (fuel : nat) (w : World) :
  let '(r, w') := Patt1.run fuel p w in
  (forall e, r <> Raise e) /\
  exists cs, commands (trace w') = commands (trace w) ++ cs /\
             Forall is_position_command cs.
Proof. exact (run_sends_positions p fuel w). Qed.

(** ** The data file *)

Lemma rows_app (t u : list Event) : rows (t ++ u) = rows t ++ rows u.
Proof. unfold rows. apply flat_map_app. Qed.

Lemma writes_nothing_ret {A} (a : A) : writes_nothing (ret a).
Proof. intros w H. split; [exact H | reflexivity]. Qed.

Lemma writes_nothing_raise {A} (e : PyExn) : writes_nothing (@raise A e).
Proof. intros w H. split; [exact H | reflexivity]. Qed.

Lemma writes_nothing_out_of_fuel {A} : writes_nothing (@out_of_fuel A).
Proof. intros w H. split; [exact H | reflexivity]. Qed.

Lemma writes_nothing_bind {A B} (m : M A) (k : A -> M B) :
  writes_nothing m -> (forall a, writes_nothing (k a)) -> writes_nothing (bind m k).
Proof.
  intros Hm Hk w Hw. unfold bind. destruct (Hm w Hw) as [H1 H2].
  destruct (m w) as [[a | e |] w1]; cbn [snd] in *; [|split; assumption ..].
  destruct (Hk a w1 H1) as [H3 H4]. split; [exact H3 | congruence].
Qed.

(** What is read from [self] is the object of a controller that does not
    log. *)
Lemma writes_nothing_get_self {B} (k : DroneCalibrated -> M B) :
  (forall me, write_datafile me = false -> writes_nothing (k me)) ->
  writes_nothing (bind get_self k).
Proof. intros Hk w Hw. exact (Hk (self w) Hw w Hw). Qed.

Lemma writes_nothing_emit (e : Event) :
  match e with WriteRow _ => False | _ => True end -> writes_nothing (emit e).
Proof.
  intros He w Hw. split; [exact Hw|]. cbn [emit snd trace]. rewrite rows_app.
  destruct e; cbn; try rewrite app_nil_r; try reflexivity. destruct He.
Qed.

Lemma writes_nothing_ask {A} (ch : Channel) (feed : Feeds -> nat -> A) :
  writes_nothing (ask ch feed).
Proof. intros w H. split; [exact H | reflexivity]. Qed.

Lemma writes_nothing_modify_self (f : DroneCalibrated -> DroneCalibrated) :
  (forall d, write_datafile (f d) = write_datafile d) -> writes_nothing (modify_self f).
Proof. intros Hf w H. split; [cbn; rewrite Hf; exact H | reflexivity]. Qed.

Lemma writes_nothing_for_each {A} (l : list A) (body : A -> M unit) :
  (forall x, writes_nothing (body x)) -> writes_nothing (for_each l body).
Proof.
  intros H. induction l as [|x l IH]; cbn [for_each]; [apply writes_nothing_ret|].
  apply writes_nothing_bind; [apply H | intros _; exact IH].
Qed.

Lemma writes_nothing_for_fold {A S} (l : list A) (body : A -> S -> M S) (s : S) :
  (forall x s', writes_nothing (body x s')) -> writes_nothing (for_fold l body s).
Proof.
  intros H. revert s. induction l as [|x l IH]; intros s; cbn [for_fold];
    [apply writes_nothing_ret|].
  apply writes_nothing_bind; [apply H | intros s'; apply IH].
Qed.

Lemma writes_nothing_while {S} (fuel : nat) (cond : S -> bool) (body : S -> M S) (s : S) :
  (forall s', writes_nothing (body s')) -> writes_nothing (while fuel cond body s).
Proof.
  intros H. revert s. induction fuel as [|fuel IH]; intros s; cbn [while];
    destruct (cond s); try apply writes_nothing_ret; try apply writes_nothing_out_of_fuel.
  apply writes_nothing_bind; [apply H | intros s'; apply IH].
Qed.

Create HintDb unlogged.

(** Takes a goal [writes_nothing m] apart along the structure of [m]; every
    [write_datafile] test is on an object read from [self]. *)
Ltac unlogged :=
  repeat first
    [ solve [auto with unlogged]
    | match goal with
      | H : write_datafile ?me = false |- context [write_datafile ?me] =>
          rewrite H; cbn [when]
      end
    | match goal with
      | |- writes_nothing (bind get_self _) => apply writes_nothing_get_self; intros ? ?
      end
    | match goal with
      | |- writes_nothing (bind _ _) => apply writes_nothing_bind; [|intros]
      | |- writes_nothing (for_each _ _) => apply writes_nothing_for_each; intros
      | |- writes_nothing (for_fold _ _ _) => apply writes_nothing_for_fold; intros
      | |- writes_nothing (while _ _ _ _) => apply writes_nothing_while; intros
      | |- writes_nothing (if ?b then _ else _) => destruct b
      | |- writes_nothing (match ?p with _ => _ end) => destruct p
      | |- writes_nothing (let '_ := ?p in _) => destruct p
      | |- writes_nothing (ret _) => apply writes_nothing_ret
      | |- writes_nothing (raise _) => apply writes_nothing_raise
      | |- writes_nothing out_of_fuel => apply writes_nothing_out_of_fuel
      | |- writes_nothing (emit _) => apply writes_nothing_emit; exact I
      | |- writes_nothing (ask _ _) => apply writes_nothing_ask
      | |- writes_nothing (modify_self _) =>
          apply writes_nothing_modify_self; intros; reflexivity
      end
    | progress unfold print, time_time, datetime_now, Py.random_uniform,
        div, fdiv, sqrt, time_sleep, index,
        Options.drone, Options.get_position_data, Options.get_battery,
        Options.get_temperature, Options.get_trim, Options.send_absolute_position,
        Options.date_time_str, Options.write_poll_row, Options.output_position ].

Lemma unlogged_send_abs_pos_verif fuel x0 y0 z0 x1 y1 z1 vel min_delay complete pattern
    write_note :
  writes_nothing
    (Options.send_abs_pos_verif fuel x0 y0 z0 x1 y1 z1 vel min_delay complete pattern
       write_note).
Proof. unfold Options.send_abs_pos_verif, Options.verif_body. unlogged. Qed.

Lemma unlogged_hover_w_del fuel t_hover t_sleep pattern write_note :
  writes_nothing (Options.hover_w_del fuel t_hover t_sleep pattern write_note).
Proof. unfold Options.hover_w_del, Options.hover_body. unlogged. Qed.

#[local] Hint Resolve unlogged_send_abs_pos_verif unlogged_hover_w_del : unlogged.

Lemma unlogged_send_abs_pos_w_output x0 y0 z0 x1 y1 z1 velocity pattern :
  writes_nothing (Options.send_abs_pos_w_output x0 y0 z0 x1 y1 z1 velocity pattern).
Proof. unfold Options.send_abs_pos_w_output. unlogged. Qed.

#[local] Hint Resolve unlogged_send_abs_pos_w_output : unlogged.

Lemma unlogged_set_drone_cal l : writes_nothing (Options.set_drone_cal l).
Proof. unfold Options.set_drone_cal. unlogged. Qed.

#[local] Hint Resolve unlogged_set_drone_cal : unlogged.

Lemma unlogged_drone_pair : writes_nothing Options.drone_pair.
Proof. unfold Options.drone_pair. unlogged. Qed.

Lemma unlogged_drone_takeoff fuel delta_z :
  writes_nothing (Options.drone_takeoff fuel delta_z).
Proof. unfold Options.drone_takeoff. unlogged. Qed.

Lemma unlogged_drone_land fuel : writes_nothing (Options.drone_land fuel).
Proof. unfold Options.drone_land. unlogged. Qed.

Lemma unlogged_run {A} fuel (p : Patt1.Prog A) : writes_nothing (Patt1.run fuel p).
Proof. induction p; cbn [Patt1.run]; unlogged; auto. Qed.

#[local] Hint Resolve unlogged_drone_pair unlogged_drone_takeoff unlogged_drone_land
  unlogged_run : unlogged.

Lemma unlogged_get_drone_cal : writes_nothing Options.get_drone_cal.
Proof. unfold Options.get_drone_cal. unlogged. Qed.

Lemma unlogged_cal_trial power_lev duration l :
  writes_nothing (Options.cal_trial power_lev duration l).
Proof. unfold Options.cal_trial. unlogged. Qed.

#[local] Hint Resolve unlogged_get_drone_cal unlogged_cal_trial : unlogged.

Lemma unlogged_move_cal power_lev duration :
  writes_nothing (Options.move_cal power_lev duration).
Proof. unfold Options.move_cal. unlogged. Qed.

Lemma unlogged_mov_xyz_abs movement_lim velocity :
  writes_nothing (Options.mov_xyz_abs movement_lim velocity).
Proof. unfold Options.mov_xyz_abs. unlogged. Qed.

Lemma unlogged_simple_leg note x y z dist velocity pattern :
  writes_nothing (Options.simple_leg note x y z dist velocity pattern).
Proof. unfold Options.simple_leg. unlogged. Qed.

#[local] Hint Resolve unlogged_simple_leg : unlogged.

Lemma unlogged_move_xyz_simple dist velocity :
  writes_nothing (Options.move_xyz_simple dist velocity).
Proof. unfold Options.move_xyz_simple. unlogged. Qed.

#[local] Hint Resolve unlogged_move_cal unlogged_mov_xyz_abs unlogged_move_xyz_simple
  : unlogged.

(** X20.  Every row the class writes is behind a test of
    [write_datafile]: on a controller whose [write_datafile] is False no
    method, and no pattern run on it, writes a row of the data file,
    however the call ends, and none turns the switch on. *)
Theorem no_rows_without_write_datafile (fuel : nat) (op : Op) (w : World) :
  write_datafile (self w) = false ->
  write_datafile (self (snd (perform fuel op w))) = false /\
  rows (trace (snd (perform fuel op w))) = rows (trace w).
Proof.
  revert w. change (writes_nothing (perform fuel op)).
  destruct op; cbn [perform]; unlogged.
Qed.

Lemma no_rows_without_write_datafile_witness :
  write_datafile (self (snd (perform 20 (CallDroneTakeoff 0.5) paired_world))) = false /\
  rows (trace (snd (perform 20 (CallDroneTakeoff 0.5) paired_world))) =
  rows (trace paired_world).
Proof. apply no_rows_without_write_datafile. reflexivity. Defined.

(** ** The main program of drone_flight_patt1.py *)

Lemma drone_pair_run (w : World) :
  exists w',
    Options.drone_pair w = (Ok tt, w') /\
    self w' = Options.with_paired true (self w) /\
    commands (trace w') = commands (trace w) ++ [CPair].
Proof.
  unfold Options.drone_pair, Options.drone, Options.get_battery, Options.get_temperature,
    Options.get_position_data, Options.date_time_str, datetime_now, writerow, print, when.
  step. step. step. step. step. step.
  destruct (position_feed _ _) as [[[t x] y] z]. step. step. cbn [Options.with_paired
    write_datafile].
  destruct (write_datafile (self w)).
  - step. eexists. split; [reflexivity|]. split; [reflexivity|].
    cbn [trace]. rewrite !commands_app. cbn. rewrite !app_nil_r. reflexivity.
  - eexists. split; [reflexivity|]. split; [reflexivity|].
    cbn [trace]. rewrite !commands_app. cbn. rewrite !app_nil_r. reflexivity.
Qed.

(** The pattern [main] runs, by the command line. *)
Lemma main_pattern_sends (fuel : nat) (p : Patt1.Prog unit) (w : World) :
  let '(r, w') := Patt1.run fuel p w in
  self w' = self w /\ (forall e, r <> Raise e) /\
  exists cs, commands (trace w') = commands (trace w) ++ cs /\
             Forall in_flight_command cs.
Proof.
  pose proof (run_sends_positions p fuel w) as H.
  pose proof (self_run fuel p w) as Hs.
  destruct (Patt1.run fuel p w) as [r w']. cbn [snd] in Hs.
  destruct H as (Hr & cs & Hc & Hpos). split; [exact Hs|]. split; [exact Hr|].
  exists cs. split; [exact Hc|].
  eapply Forall_impl; [|exact Hpos]. intros c Hcmd. left. exact Hcmd.
Qed.

(** From the construction of the controller on. *)
Lemma main_flight (fuel : nat) (p : Patt1.Prog unit) (b : bool) (w : World) :
  let '(r, w') :=
    (Main.new_drone_calibrated b ;; Options.drone_pair ;; Options.drone_takeoff fuel 0.15 ;;
     Patt1.run fuel p ;; Options.drone_land fuel) w in
  match r with
  | Ok _ =>
      exists mid,
        commands (trace w') =
          commands (trace w) ++ [CPair; CSetTrim 0 0; CTakeoff] ++ mid ++ [CLand; CLand] /\
        Forall in_flight_command mid /\
        self w' = Options.with_paired true (Options.init b)
  | OutOfFuel =>
      exists cs,
        commands (trace w') = commands (trace w) ++ [CPair; CSetTrim 0 0; CTakeoff] ++ cs /\
        Forall in_flight_command cs /\
        self w' = Options.with_takeoff true (Options.with_paired true (Options.init b))
  | Raise _ => False
  end.
Proof.
  unfold Main.new_drone_calibrated. step.
  match goal with |- context [bind Options.drone_pair _ ?w0] =>
    destruct (drone_pair_run w0) as (w1 & E1 & Hs1 & Hc1)
  end.
  rewrite (bind_ok _ _ _ _ _ E1). cbn [self trace] in Hs1, Hc1.
  assert (Hp : paired (self w1) = true) by (rewrite Hs1; reflexivity).
  assert (Hd : 0 <= dwell (self w1)) by (rewrite Hs1; discriminate).
  pose proof (drone_takeoff_run fuel 0.15 w1 Hp Hd) as Ht.
  destruct (position_feed (feeds w1) (reads w1 ChPosition)) as [[[t x] y] z].
  cbv zeta in Ht. unfold bind at 1.
  destruct (Options.drone_takeoff fuel 0.15 w1) as [[[] | e |] w2].
  - destruct Ht as (Hs2 & k & _ & Hc2).
    pose proof (main_pattern_sends fuel p w2) as Hr. unfold bind at 1.
    destruct (Patt1.run fuel p w2) as [[[] | e |] w3].
    + destruct Hr as (Hs3 & _ & cs & Hc3 & Hpos).
      pose proof (drone_land_run fuel w3) as Hl.
      destruct (position_feed (feeds w3) (reads w3 ChPosition)) as [[[t' x'] y'] z'].
      cbv zeta in Hl.
      destruct (Options.drone_land fuel w3) as [[[] | e |] w4].
      * destruct Hl as (j & _ & Hc4 & Hs4).
        exists (repeat (target_command x y (z + 0.15) 0.2) k ++ [CHover 3] ++ cs ++
                repeat (CSendAbsolutePosition x' y' z' 0.1 0 0) j).
        split; [|split].
        -- rewrite Hc4, Hc3, Hc2, Hc1, <- !app_assoc. reflexivity.
        -- apply Forall_app. split; [apply Forall_repeat; left; split; reflexivity|].
           apply Forall_app. split; [repeat constructor; right; reflexivity|].
           apply Forall_app. split; [exact Hpos|].
           apply Forall_repeat. left. split; reflexivity.
        -- rewrite Hs4, Hs3, Hs2, Hs1. reflexivity.
      * destruct Hl.
      * destruct Hl as (Hc4 & Hs4).
        exists (repeat (target_command x y (z + 0.15) 0.2) k ++ [CHover 3] ++ cs ++
                repeat (CSendAbsolutePosition x' y' z' 0.1 0 0) fuel).
        split; [|split].
        -- rewrite Hc4, Hc3, Hc2, Hc1, <- !app_assoc. reflexivity.
        -- apply Forall_app. split; [apply Forall_repeat; left; split; reflexivity|].
           apply Forall_app. split; [repeat constructor; right; reflexivity|].
           apply Forall_app. split; [exact Hpos|].
           apply Forall_repeat. left. split; reflexivity.
        -- rewrite Hs4, Hs3, Hs2, Hs1. reflexivity.
    + destruct Hr as (_ & Hr & _). exact (Hr e eq_refl).
    + destruct Hr as (Hs3 & _ & cs & Hc3 & Hpos).
      exists (repeat (target_command x y (z + 0.15) 0.2) k ++ [CHover 3] ++ cs).
      split; [|split].
      * rewrite Hc3, Hc2, Hc1, <- !app_assoc. reflexivity.
      * apply Forall_app. split; [apply Forall_repeat; left; split; reflexivity|].
        apply Forall_app. split; [repeat constructor; right; reflexivity | exact Hpos].
      * rewrite Hs3, Hs2, Hs1. reflexivity.
  - destruct Ht as [_ []].
  - destruct Ht as (Hs2 & Hc2).
    exists (repeat (target_command x y (z + 0.15) 0.2) fuel).
    split; [|split].
    + rewrite Hc2, Hc1, <- !app_assoc. reflexivity.
    + apply Forall_repeat. left. split; reflexivity.
    + rewrite Hs2, Hs1. reflexivity.
Qed.

(** X21.  [main] of [drone_flight_patt1.py], on any command line and any
    vehicle, never raises.  It builds a new controller, pairs, sets the
    trim and takes off; when it returns it has then sent only
    absolute-position commands and the 3 s hover of the takeoff, and last
    of all the land command twice, and the controller is paired, landed and
    not calibrated.  When it does not return, because a polling loop never
    ends, no land command has been sent and the takeoff flag is still
    set.  Without [-f] on the command line it writes no row. *)
Theorem patt1_main_flies_and_lands (fuel : nat) (argv : list string) (w : World) :
  let '(r, w') := Patt1Main.main fuel argv w in
  (Main.contains "-f" argv = false -> rows (trace w') = rows (trace w)) /\
  match r with
  | Ok _ =>
      exists mid,
        commands (trace w') =
          commands (trace w) ++ [CPair; CSetTrim 0 0; CTakeoff] ++ mid ++ [CLand; CLand] /\
        Forall in_flight_command mid /\
        self w' = Options.with_paired true (Options.init (Main.contains "-f" argv))
  | OutOfFuel =>
      exists cs,
        commands (trace w') = commands (trace w) ++ [CPair; CSetTrim 0 0; CTakeoff] ++ cs /\
        Forall in_flight_command cs /\
        self w' = Options.with_takeoff true
                    (Options.with_paired true (Options.init (Main.contains "-f" argv)))
  | Raise _ => False
  end.
Proof.
  unfold Patt1Main.main, Patt1Main.open_datafile, Options.date_time_str, datetime_now,
    writerow, print, when.
  set (p := if Main.contains "-r" argv
            then Patt1.move_random_xyz (0.0, 1.0, 0.0)
                   (Patt1.mkLimits (-0.1) 0.1 (-1.5) 1.5 (-0.1) 0.1) 0.5 2.0 20 false
            else Patt1.move_yz_simple 0.75 0.5 0.5 2.0 2 false).
  assert (Ep : (if Main.contains "-r" argv
                then Patt1.run fuel
                       (Patt1.move_random_xyz (0.0, 1.0, 0.0)
                          (Patt1.mkLimits (-0.1) 0.1 (-1.5) 1.5 (-0.1) 0.1) 0.5 2.0 20 false)
                else Patt1.run fuel (Patt1.move_yz_simple 0.75 0.5 0.5 2.0 2 false)) =
               Patt1.run fuel p) by (unfold p; destruct (Main.contains "-r" argv); reflexivity).
  cbv zeta. rewrite Ep. clear Ep. clearbody p.
  assert (Hquiet : forall w0, write_datafile (self w0) = false ->
            rows (trace (snd ((Options.drone_pair ;; Options.drone_takeoff fuel 0.15 ;;
                               Patt1.run fuel p ;; Options.drone_land fuel) w0))) =
            rows (trace w0)).
  { intros w0 H0.
    assert (Hq : writes_nothing (Options.drone_pair ;; Options.drone_takeoff fuel 0.15 ;;
                                 Patt1.run fuel p ;; Options.drone_land fuel)) by unlogged.
    apply Hq. exact H0. }
  destruct (Main.contains "-f" argv) eqn:Ef.
  - step. destruct (Main.contains "-r" argv); step; step;
      match goal with |- context [bind (Main.new_drone_calibrated true) ?k ?w0] =>
        pose proof (main_flight fuel p true w0) as H;
        destruct (bind (Main.new_drone_calibrated true) k w0) as [r w']
      end;
      (split; [discriminate|]);
      (destruct r as [[] | e |]; [| exact H |]);
      destruct H as (cs & Hc & Hrest); exists cs;
      (split; [|exact Hrest]); rewrite Hc; cbn [trace]; rewrite !commands_app; cbn;
      rewrite !app_nil_r; reflexivity.
  - step. destruct (Main.contains "-r" argv); step; step;
      match goal with |- context [bind (Main.new_drone_calibrated false) ?k ?w0] =>
        pose proof (main_flight fuel p false w0) as H;
        pose proof (Hquiet (snd (Main.new_drone_calibrated false w0)) eq_refl) as Hrows;
        change (snd ((Options.drone_pair;; Options.drone_takeoff fuel 0.15;;
                      Patt1.run fuel p;; Options.drone_land fuel)
                       (snd (Main.new_drone_calibrated false w0))))
          with (snd (bind (Main.new_drone_calibrated false) k w0)) in Hrows;
        destruct (bind (Main.new_drone_calibrated false) k w0) as [r w']
      end;
      cbn [snd Main.new_drone_calibrated modify_self trace] in Hrows;
      (split; [intros _; rewrite Hrows, ?rows_app; cbn; rewrite ?app_nil_r; reflexivity|]);
      (destruct r as [[] | e |]; [| exact H |]);
      destruct H as (cs & Hc & Hrest); exists cs;
      (split; [|exact Hrest]); rewrite Hc; cbn [trace]; rewrite !commands_app; cbn;
      rewrite !app_nil_r; reflexivity.
Qed.

(** ** The menu of drone_flight_options.py *)

Lemma only_printed_refl (w : World) : only_printed w w.
Proof. repeat split. Qed.

Lemma only_printed_trans (w1 w2 w3 : World) :
  only_printed w1 w2 -> only_printed w2 w3 -> only_printed w1 w3.
Proof.
  intros (H1 & H2 & H3 & H4 & H5) (G1 & G2 & G3 & G4 & G5).
  repeat split; congruence.
Qed.

Lemma only_printed_menu (w : World) : only_printed w (snd (menu w)).
Proof.
  unfold only_printed.
  lazy [OptionsMain.display_menu menu print emit bind fst snd self feeds reads trace].
  rewrite !commands_app, !rows_app. cbn. rewrite !app_nil_r. repeat split.
Qed.

Lemma classify_accepted (s : string) (n : Z) :
  classify s = Accepted n -> (1 <= n <= 7)%Z.
Proof.
  unfold classify. destruct (OptionsMain.isdigit s); [|discriminate].
  destruct (forallb _ _); [|discriminate].
  destruct ((1 <=? OptionsMain.decimal_value s)%Z &&
            (OptionsMain.decimal_value s <=? 7)%Z) eqn:E; [|discriminate].
  intros [= <-]. apply andb_prop in E. lia.
Qed.

Lemma menu_returns (w : World) : menu w = (Ok tt, snd (menu w)).
Proof. lazy. reflexivity. Qed.

Lemma menu_then {B} (k : M B) (w : World) :
  (OptionsMain.display_menu ;; print "Select option (1 - 7): " [] ;; k) w =
  k (snd (menu w)).
Proof.
  lazy [OptionsMain.display_menu menu print emit bind fst snd self feeds reads trace].
  reflexivity.
Qed.

(** One pass of the loop of [option_select]. *)
Lemma select_body_run (keyboard : OptionsMain.Keyboard) (line : nat) (w : World) :
  match classify (keyboard line) with
  | Accepted n => OptionsMain.select_body keyboard (0%Z, line) w = (Ok (n, S line), snd (menu w))
  | Rejected =>
      exists w', OptionsMain.select_body keyboard (0%Z, line) w = (Ok (0%Z, S line), w') /\
                 only_printed w w'
  | NotANumber =>
      OptionsMain.select_body keyboard (0%Z, line) w = (Raise ValueError, snd (menu w))
  end.
Proof.
  pose proof (classify_accepted (keyboard line)) as Hacc.
  unfold classify in *. unfold OptionsMain.select_body, OptionsMain.int.
  destruct (OptionsMain.isdigit (keyboard line)).
  - destruct (forallb OptionsMain.is_decimal (list_ascii_of_string (keyboard line))).
    + destruct ((1 <=? OptionsMain.decimal_value (keyboard line))%Z &&
                (OptionsMain.decimal_value (keyboard line) <=? 7)%Z) eqn:E.
      * specialize (Hacc _ eq_refl).
        rewrite menu_then. rewrite bind_ret_l, bind_ret_l, E. cbn [negb].
        replace (OptionsMain.decimal_value (keyboard line) =? 0)%Z with false
          by (symmetry; apply Z.eqb_neq; lia).
        reflexivity.
      * rewrite menu_then. rewrite bind_ret_l, bind_ret_l, E. cbn [negb].
        cbn [Z.eqb when]. eexists. split; [reflexivity|].
        eapply only_printed_trans; [apply only_printed_menu|].
        unfold only_printed. cbn. rewrite !commands_app, !rows_app. cbn.
        rewrite !app_nil_r. repeat split.
    + rewrite menu_then. reflexivity.
  - rewrite menu_then. rewrite bind_ret_l.
    cbn [Z.eqb when]. eexists. split; [reflexivity|].
    eapply only_printed_trans; [apply only_printed_menu|].
    unfold only_printed. cbn. rewrite !commands_app, !rows_app. cbn.
    rewrite !app_nil_r. repeat split.
Qed.

(** [option_select], whatever is typed. *)
Lemma option_select_run (fuel : nat) (keyboard : OptionsMain.Keyboard) :
  forall (line : nat) (w : World),
    let '(r, w') := OptionsMain.option_select fuel keyboard line w in
    only_printed w w' /\
    match r with
    | Ok (selected, next) =>
        exists k, (k < fuel)%nat /\ next = (line + k + 1)%nat /\
          classify (keyboard (line + k)%nat) = Accepted selected /\
          (forall j, (j < k)%nat -> classify (keyboard (line + j)%nat) = Rejected)
    | Raise e =>
        e = ValueError /\
        exists k, (k < fuel)%nat /\ classify (keyboard (line + k)%nat) = NotANumber /\
          (forall j, (j < k)%nat -> classify (keyboard (line + j)%nat) = Rejected)
    | OutOfFuel =>
        forall j, (j < fuel)%nat -> classify (keyboard (line + j)%nat) = Rejected
    end.
Proof.
  unfold OptionsMain.option_select.
  induction fuel as [|fuel IH]; intros line w.
  - cbn. split; [apply only_printed_refl|]. intros j Hj. lia.
  - rewrite while_unfold. cbn [fst Z.ltb Z.compare].
    pose proof (select_body_run keyboard line w) as Hb.
    pose proof (classify_accepted (keyboard line)) as Hacc.
    destruct (classify (keyboard line)) as [n | |] eqn:Ec.
    + specialize (Hacc n eq_refl). rewrite (bind_ok _ _ _ _ _ Hb).
      destruct fuel as [|fuel']; cbn [while fst];
        (replace (n <? 1)%Z with false by (symmetry; apply Z.ltb_ge; lia));
        (cbn; split; [apply only_printed_menu|]);
        (exists O; rewrite Nat.add_0_r; split; [lia|]; split; [lia|];
         split; [exact Ec|]; intros j Hj; lia).
    + destruct Hb as (w1 & Hrun & Hp). rewrite (bind_ok _ _ _ _ _ Hrun).
      specialize (IH (S line) w1).
      destruct (while fuel _ _ (0%Z, S line) w1) as [[[sel next] | e |] w'].
      * destruct IH as (Hp' & k & Hk & Hn & Hs & Hrej).
        split; [exact (only_printed_trans _ _ _ Hp Hp')|].
        exists (S k). split; [lia|]. split; [lia|].
        split; [rewrite <- Nat.add_succ_comm; exact Hs|].
        intros [|j] Hj; [rewrite Nat.add_0_r; exact Ec|].
        rewrite <- Nat.add_succ_comm. apply Hrej. lia.
      * destruct IH as (Hp' & -> & k & Hk & Hs & Hrej).
        split; [exact (only_printed_trans _ _ _ Hp Hp')|]. split; [reflexivity|].
        exists (S k). split; [lia|].
        split; [rewrite <- Nat.add_succ_comm; exact Hs|].
        intros [|j] Hj; [rewrite Nat.add_0_r; exact Ec|].
        rewrite <- Nat.add_succ_comm. apply Hrej. lia.
      * destruct IH as (Hp' & Hrej).
        split; [exact (only_printed_trans _ _ _ Hp Hp')|].
        intros [|j] Hj; [rewrite Nat.add_0_r; exact Ec|].
        rewrite <- Nat.add_succ_comm. apply Hrej. lia.
    + rewrite (bind_raise _ _ _ _ _ Hb). split; [apply only_printed_menu|].
      split; [reflexivity|]. exists O. rewrite Nat.add_0_r.
      split; [lia|]. split; [exact Ec|]. intros j Hj. lia.
Qed.

(** X22.  [option_select] sends nothing to the vehicle, reads nothing from
    it and writes no row: it only prints.  It returns the number of the
    first line typed that is a decimal number from 1 to 7, having asked
    again after every line before it, so what it returns is always from 1
    to 7.  A line that [isdigit] accepts and [int] does not convert (one
    with a superscript digit) is not asked again for: the [ValueError] of
    [int] ends [option_select]. *)
Theorem option_select_first_acceptable_line (fuel : nat) (keyboard : OptionsMain.Keyboard)
    (line : nat) (w : World) :
  let '(r, w') := OptionsMain.option_select fuel keyboard line w in
  only_printed w w' /\
  match r with
  | Ok (selected, next) =>
      (1 <= selected <= 7)%Z /\
      exists k, (k < fuel)%nat /\ next = (line + k + 1)%nat /\
        classify (keyboard (line + k)%nat) = Accepted selected /\
        (forall j, (j < k)%nat -> classify (keyboard (line + j)%nat) = Rejected)
  | Raise e =>
      e = ValueError /\
      exists k, (k < fuel)%nat /\ classify (keyboard (line + k)%nat) = NotANumber /\
        (forall j, (j < k)%nat -> classify (keyboard (line + j)%nat) = Rejected)
  | OutOfFuel =>
      forall j, (j < fuel)%nat -> classify (keyboard (line + j)%nat) = Rejected
  end.
Proof.
  pose proof (option_select_run fuel keyboard line w) as H.
  destruct (OptionsMain.option_select fuel keyboard line w) as [[[sel next] | e |] w'];
    destruct H as [Hp H]; (split; [exact Hp|]); [|exact H ..].
  destruct H as (k & Hk & Hn & Hs & Hrej).
  split; [exact (classify_accepted _ _ Hs)|]. exists k. auto.
Qed.

(** ** The main program of drone_flight_options.py *)

Lemma bind_ext {A B} (m : M A) (k k' : A -> M B) (w : World) :
  (forall a w', k a w' = k' a w') -> bind m k w = bind m k' w.
Proof. intros H. unfold bind. destruct (m w) as [[a | e |] w1]; [apply H | reflexivity ..]. Qed.

Lemma option_select_accepted (fuel : nat) (keyboard : OptionsMain.Keyboard) (line : nat)
    (n : Z) (w : World) :
  (1 <= fuel)%nat ->
  classify (keyboard line) = Accepted n ->
  OptionsMain.option_select fuel keyboard line w = (Ok (n, S line), snd (menu w)).
Proof.
  intros Hf Hc. destruct fuel as [|fuel]; [lia|].
  unfold OptionsMain.option_select. rewrite while_unfold. cbn [fst Z.ltb Z.compare].
  pose proof (select_body_run keyboard line w) as Hb. rewrite Hc in Hb.
  rewrite (bind_ok _ _ _ _ _ Hb).
  pose proof (classify_accepted _ _ Hc) as Hn.
  destruct fuel as [|fuel']; cbn [while fst];
    (replace (n <? 1)%Z with false by (symmetry; apply Z.ltb_ge; lia)); reflexivity.
Qed.

Lemma dispatch_none (fuel : nat) (s : Z) :
  (1 <= s <= 7)%Z -> OptionsMain.dispatch fuel s = None -> s = 7%Z.
Proof.
  intros Hs H.
  assert (C : (s = 1 \/ s = 2 \/ s = 3 \/ s = 4 \/ s = 5 \/ s = 6 \/ s = 7)%Z) by lia.
  destruct C as [-> | [-> | [-> | [-> | [-> | [-> | ->]]]]]];
    try discriminate H; reflexivity.
Qed.

Lemma bind_assoc {A B C} (m : M A) (k : A -> M B) (k' : B -> M C) (w : World) :
  bind (bind m k) k' w = bind m (fun a => bind (k a) k') w.
Proof. unfold bind. destruct (m w) as [[a | e |] w1]; reflexivity. Qed.

Lemma for_each_seq_step (d : nat -> Z) (f : Z -> M unit) (line n : nat) :
  for_each (map d (seq line (S n))) f =
  (f (d line) ;; for_each (map d (seq (S line) n)) f).
Proof. reflexivity. Qed.

(** The loop of [main] on a keyboard on which only selections are typed:
    one round per line, up to the first 7. *)
Lemma main_loop_rounds (F : nat) (keyboard : OptionsMain.Keyboard) (d : nat -> Z) :
  (1 <= F)%nat ->
  (forall i, classify (keyboard i) = Accepted (d i)) ->
  forall (j fuel line : nat) (s : Z) (w : World),
    (j < fuel)%nat -> s <> 7%Z ->
    d (line + j)%nat = 7%Z ->
    (forall i, (i < j)%nat -> d (line + i)%nat <> 7%Z) ->
    (while fuel OptionsMain.main_cond (OptionsMain.main_body F keyboard) (s, line, false) ;;
     ret tt) w =
    for_each (map d (seq line (S j))) (menu_round F) w.
Proof.
  intros HF Hkb. induction j as [|j IH]; intros fuel line s w Hfuel Hs H7 Hbefore;
    (destruct fuel as [|fuel]; [lia|]); rewrite while_unfold;
    cbn [OptionsMain.main_cond negb andb];
    (replace (s =? 7)%Z with false by (symmetry; apply Z.eqb_neq; exact Hs));
    cbn [negb]; unfold OptionsMain.main_body;
    rewrite for_each_seq_step;
    unfold menu_round at 1;
    rewrite !bind_assoc,
      (bind_ok _ _ _ _ _ (option_select_accepted F keyboard line _ w HF (Hkb line)));
    cbv beta iota;
    rewrite (bind_ok _ _ _ _ _ (menu_returns w)).
  - rewrite Nat.add_0_r in H7. rewrite H7. cbn [OptionsMain.dispatch seq map for_each].
    rewrite !bind_ret_l. cbn [while OptionsMain.main_cond negb andb].
    destruct fuel; reflexivity.
  - pose proof (classify_accepted _ _ (Hkb line)) as Hrange.
    assert (Hne : d line <> 7%Z).
    { specialize (Hbefore O ltac:(lia)). rewrite Nat.add_0_r in Hbefore. exact Hbefore. }
    destruct (OptionsMain.dispatch F (d line)) as [method|] eqn:Ed;
      [|exfalso; apply Hne; exact (dispatch_none F _ Hrange Ed)].
    rewrite bind_assoc. apply bind_ext. intros [] w2. rewrite bind_ret_l.
    apply (IH fuel (S line) (d line) w2); [lia | exact Hne | |].
    + rewrite Nat.add_succ_comm. exact H7.
    + intros i Hi. rewrite Nat.add_succ_comm. apply Hbefore. lia.
Qed.

(** X23.  [main] of [drone_flight_options.py] reads a selection before
    its loop and reads the next one at the top of the loop, before it acts
    on any: the first selection only decides whether the program ends at
    once.  On a keyboard on which only selections are typed, a first
    selection of 7 ends the session with no method called; any other first
    selection is dropped, and the methods called are those of the
    selections from the second one on, up to the first 7 among them, the
    menu being shown once before each. *)
Theorem options_main_drops_first_selection (fuel : nat) (keyboard : OptionsMain.Keyboard)
    (d : nat -> Z) (argv : list string) (w : World) :
  (1 <= fuel)%nat ->
  (forall i, classify (keyboard i) = Accepted (d i)) ->
  (d O = 7%Z -> OptionsMain.main fuel keyboard argv w = session fuel argv [] w) /\
  (d O <> 7%Z ->
   forall j, (j < fuel)%nat -> d (S j) = 7%Z ->
     (forall i, (i < j)%nat -> d (S i) <> 7%Z) ->
     OptionsMain.main fuel keyboard argv w =
     session fuel argv (map d (seq 1 (S j))) w).
Proof.
  intros Hfuel Hkb.
  assert (Hsel : forall w0, OptionsMain.option_select fuel keyboard 0 w0 =
                            (Ok (d O, 1%nat), snd (menu w0)))
    by (intros w0; apply option_select_accepted; [exact Hfuel | apply Hkb]).
  split.
  - intros H0. unfold OptionsMain.main, session, Patt1Main.open_datafile.
    apply bind_ext. intros wd w1. apply bind_ext. intros [] w2.
    rewrite (bind_ok _ _ _ _ _ (Hsel w2)), (bind_ok _ _ _ _ _ (menu_returns w2)).
    cbv beta iota. rewrite H0.
    destruct fuel; reflexivity.
  - intros H0 j Hj H7 Hbefore.
    unfold OptionsMain.main, session, Patt1Main.open_datafile.
    apply bind_ext. intros wd w1. apply bind_ext. intros [] w2.
    rewrite (bind_ok _ _ _ _ _ (Hsel w2)), (bind_ok _ _ _ _ _ (menu_returns w2)).
    cbv beta iota.
    apply (main_loop_rounds fuel keyboard d Hfuel Hkb j fuel 1 (d O) (snd (menu w2)));
      [exact Hj | exact H0 | exact H7 | exact Hbefore].
Qed.

Lemma options_main_drops_first_selection_witness :
  OptionsMain.main 30 typed_keyboard [] new_world =
  session 30 [] [1%Z; 2%Z; 6%Z; 7%Z] new_world.
Proof.
  pose proof (options_main_drops_first_selection 30 typed_keyboard
                (fun n => match n with
                          | 0%nat => 2 | 1%nat => 1 | 2%nat => 2 | 3%nat => 6 | _ => 7
                          end%Z) [] new_world) as H.
  destruct H as [_ H].
  - lia.
  - intros [|[|[|[|[|i]]]]]; reflexivity.
  - apply (H ltac:(discriminate) 3%nat); [lia | reflexivity |].
    intros [|[|[|i]]] Hi; try discriminate; lia.
Defined.
